(** * The inference service of comfy-cloud ([src/inference.py]) in Rocq

    A shallow embedding of the request handler, the artifact resolver and
    publisher, the workflow submitter and the completion poller, together
    with the properties the specification states about them.

    Python values are modelled as JSON values, exceptions as an inductive
    type, and the process state (clock, file system, object store, log,
    outgoing calls) as a record threaded through a state-and-exception
    monad.  What the outside world answers (the generation engine, the
    object store, the uuid generator) is an oracle record [env]. *)

From Stdlib Require Import String Ascii List ZArith NArith Lia Bool Arith.
From Stdlib Require Import DecimalString.
Import ListNotations.

Set Warnings "-register-all".

Local Open Scope string_scope.
Local Open Scope Z_scope.

(* ------------------------------------------------------------------ *)
(** ** Python strings and [os.path] *)

Module PyStr.

(** [s.startswith(p)] *)
Definition startswith (p s : string) : bool := String.prefix p s.

(** [s.endswith(p)] *)
Definition endswith (p s : string) : bool :=
  (String.length p <=? String.length s)%nat &&
  String.eqb (String.substring (String.length s - String.length p)
                               (String.length p) s) p.

(** [s.replace(old, new)] for a non-empty [old]: occurrences are found
    left to right and do not overlap.  [skip] counts the characters of
    an occurrence that are still to be dropped. *)
Fixpoint replace_from (old new : string) (skip : nat) (s : string) : string :=
  match s with
  | EmptyString => EmptyString
  | String c s' =>
      match skip with
      | S k => replace_from old new k s'
      | O =>
          if String.prefix old s
          then new ++ replace_from old new (String.length old - 1) s'
          else String c (replace_from old new 0 s')
      end
  end.

Definition replace (old new s : string) : string := replace_from old new 0 s.

(** The first occurrence of the separator character: the text before
    it and the text after it. *)
Fixpoint partition (sep : ascii) (s : string) : option (string * string) :=
  match s with
  | EmptyString => None
  | String c s' =>
      if Ascii.eqb c sep then Some (EmptyString, s')
      else match partition sep s' with
           | Some (a, b) => Some (String c a, b)
           | None => None
           end
  end.

(** [s.split(sep, 1)] for a one-character separator: one or two parts. *)
Definition split1 (sep : ascii) (s : string) : list string :=
  match partition sep s with
  | Some (a, b) => [a; b]
  | None => [s]
  end.

(** [sub in s] on strings. *)
Definition contains (sub s : string) : bool :=
  match String.index 0 sub s with Some _ => true | None => false end.

Fixpoint basename_acc (acc s : string) : string :=
  match s with
  | EmptyString => acc
  | String c s' =>
      if Ascii.eqb c "/" then basename_acc EmptyString s'
      else basename_acc (acc ++ String c EmptyString) s'
  end.

(** [os.path.basename(p)]: what follows the last slash. *)
Definition basename (p : string) : string := basename_acc EmptyString p.

(** [os.path.join(a, b)] of [posixpath]. *)
Definition join (a b : string) : string :=
  if startswith "/" b then b
  else if String.eqb a "" || endswith "/" a then a ++ b
  else a ++ "/" ++ b.

(** [str(n)] of an integer. *)
Definition of_Z (n : Z) : string :=
  match n with
  | Z0 => "0"
  | Zpos p => NilEmpty.string_of_uint (Pos.to_uint p)
  | Zneg p => "-" ++ NilEmpty.string_of_uint (Pos.to_uint p)
  end.

End PyStr.

(* ------------------------------------------------------------------ *)
(** ** JSON values and the Python operations the service applies to them *)

(** A JSON document as [json.load] and [response.json()] produce it.
    Objects keep their insertion order, as Python dictionaries do; numbers
    are integers (the service never computes with them). *)
Inductive json : Type :=
| JNull
| JBool (b : bool)
| JNum (n : Z)
| JStr (s : string)
| JArr (items : list json)
| JObj (fields : list (string * json)).

(** The exceptions the service can meet.  Every one carries the text that
    [str(e)] yields. *)
Inductive exn : Type :=
| ValueError (msg : string)
| FileNotFoundError (msg : string)
| FileExistsError (msg : string)
| OSError (msg : string)
| TimeoutError (msg : string)
| AttributeError (msg : string)
| TypeError (msg : string)
| KeyError (msg : string)
| JSONDecodeError (msg : string)
| HTTPError (code : Z) (msg : string)
| ConnectionError (msg : string)
| ClientError (msg : string)
| BadRequest (msg : string).

Definition str_exn (e : exn) : string :=
  match e with
  | ValueError m | FileNotFoundError m | FileExistsError m | OSError m
  | TimeoutError m | AttributeError m | TypeError m | KeyError m
  | JSONDecodeError m | HTTPError _ m | ConnectionError m | ClientError m
  | BadRequest m => m
  end.

(** [requests] raises [HTTPError] from [raise_for_status] and
    [ConnectionError] (or a sibling) when no response arrives. *)
Definition is_transport_error (e : exn) : bool :=
  match e with
  | HTTPError _ _ | ConnectionError _ => true
  | _ => false
  end.

Module Py.

(** Truth value of a JSON value in a Python condition. *)
Definition truthy (v : json) : bool :=
  match v with
  | JNull => false
  | JBool b => b
  | JNum n => negb (n =? 0)
  | JStr s => negb (String.eqb s "")
  | JArr l => match l with [] => false | _ => true end
  | JObj l => match l with [] => false | _ => true end
  end.

Fixpoint lookup (k : string) (fields : list (string * json)) : option json :=
  match fields with
  | [] => None
  | (k', v) :: rest => if String.eqb k k' then Some v else lookup k rest
  end.

(** [d[k] = v] on a dictionary: the key keeps its place when present and
    is appended otherwise. *)
Fixpoint update (k : string) (v : json) (fields : list (string * json))
  : list (string * json) :=
  match fields with
  | [] => [(k, v)]
  | (k', v') :: rest =>
      if String.eqb k k' then (k', v) :: rest else (k', v') :: update k v rest
  end.

Definition is_str (s : string) (v : json) : bool :=
  match v with JStr s' => String.eqb s s' | _ => false end.

(** [k in c] for a string [k]: membership among the keys of a dictionary,
    among the items of a list, as a substring of a string; a [TypeError]
    on anything else. *)
Definition contains (k : string) (c : json) : exn + bool :=
  match c with
  | JObj fields =>
      inr (match lookup k fields with Some _ => true | None => false end)
  | JArr items => inr (existsb (is_str k) items)
  | JStr s => inr (PyStr.contains k s)
  | _ => inl (TypeError "argument is not iterable")
  end.

(** [c[k]] for a string [k]. *)
Definition getitem (c : json) (k : string) : exn + json :=
  match c with
  | JObj fields =>
      match lookup k fields with
      | Some v => inr v
      | None => inl (KeyError k)
      end
  | JArr _ => inl (TypeError "list indices must be integers or slices, not str")
  | JStr _ => inl (TypeError "string indices must be integers")
  | _ => inl (TypeError "object is not subscriptable")
  end.

(** [c.get(k)] (and [c.get(k, default)] once the caller supplies the
    default): only dictionaries have the method. *)
Definition get (c : json) (k : string) : exn + option json :=
  match c with
  | JObj fields => inr (lookup k fields)
  | _ => inl (AttributeError "object has no attribute 'get'")
  end.

(** [c[k] = v] for a string [k], reached only after [k in c] held. *)
Definition setitem (c : json) (k : string) (v : json) : exn + json :=
  match c with
  | JObj fields => inr (JObj (update k v fields))
  | JArr _ => inl (TypeError "list indices must be integers or slices, not str")
  | JStr _ => inl (TypeError "'str' object does not support item assignment")
  | _ => inl (TypeError "object does not support item assignment")
  end.

(** [c.items()] *)
Definition items (c : json) : exn + list (string * json) :=
  match c with
  | JObj fields => inr fields
  | _ => inl (AttributeError "object has no attribute 'items'")
  end.

Fixpoint chars (s : string) : list json :=
  match s with
  | EmptyString => []
  | String c s' => JStr (String c EmptyString) :: chars s'
  end.

(** What [for x in c] visits: the items of a list, the keys of a
    dictionary, the characters of a string. *)
Definition iter (c : json) : exn + list json :=
  match c with
  | JArr l => inr l
  | JObj fields => inr (map (fun kv => JStr (fst kv)) fields)
  | JStr s => inr (chars s)
  | _ => inl (TypeError "object is not iterable")
  end.

End Py.

(* ------------------------------------------------------------------ *)
(** ** The process state and the outside world *)

(** An entry of the file system: a directory, or a file together with the
    JSON document its text parses to ([None] when it is not JSON). *)
Inductive node : Type :=
| Dir
| File (doc : option json).

Inductive level : Type := INFO | WARNING | ERROR.

(** A log record: the text of the f-string with [{}] for each hole, and
    the values that fill the holes. *)
Inductive log_entry : Type :=
| Log (lvl : level) (template : string) (args : list json)
| LogTraceback (e : exn).

(** Every interaction with the operating system, the object store and the
    generation engine, in the order it happens. *)
Inductive call : Type :=
| FsExists (path : string)
| FsMakedirs (path : string)
| FsRename (src dst : string)
| FsListdir (path : string)
| FsOpen (path : string)
| S3Download (bucket key path : string)
| S3Upload (path bucket key : string)
| S3Presign (bucket key : string) (expires : Z)
| HttpPostPrompt (workflow : json)
| HttpGetHistory (prompt_id : string)
| Sleep (duration : Z).

(** Paths are compared as strings; the order of [fs] is the order in which
    [os.listdir] reports entries.  The clock counts time units (the
    seconds of the source) on a discrete grid. *)
Record world : Type := mkWorld {
  clock : Z;
  fs : list (string * node);
  s3 : list ((string * string) * option json);
  log : list log_entry;
  calls : list call;
  polls : nat
}.

Inductive http_reply : Type :=
| NoReply (e : exn)
| Reply (status : Z) (reason : string) (body : option json).

(** What the surroundings decide: whether [boto3.client] succeeded when the
    module was loaded, the identifier [uuid.uuid4()] draws, how the store
    signs a URL, which store requests are refused, and what the engine
    answers to a submission and to the n-th status query (with the time
    the answer takes). *)
Record env : Type := mkEnv {
  s3_client : bool;
  uuid4 : string;
  presigned_url : string -> string -> Z -> string;
  s3_refused : string -> string -> bool;
  prompt_reply : json -> http_reply;
  history_reply : string -> nat -> N * http_reply
}.

(* ------------------------------------------------------------------ *)
(** ** State and exceptions *)

(** How a computation ends: with a value, with a raised exception, or
    outside what the model describes (the step budget of a loop is used
    up, or a value leaves the annotated types). *)
Inductive outcome (A : Type) : Type :=
| Ret (a : A)
| Raise (e : exn)
| Stuck.

Arguments Ret {A} a.
Arguments Raise {A} e.
Arguments Stuck {A}.

Definition M (A : Type) : Type := world -> outcome A * world.

Definition ret {A} (a : A) : M A := fun w => (Ret a, w).
Definition raise {A} (e : exn) : M A := fun w => (Raise e, w).
Definition stuck {A} : M A := fun w => (Stuck, w).

Definition bind {A B} (m : M A) (k : A -> M B) : M B :=
  fun w =>
    match m w with
    | (Ret a, w') => k a w'
    | (Raise e, w') => (Raise e, w')
    | (Stuck, w') => (Stuck, w')
    end.

(** [try: m  except Exception as e: h e] *)
Definition try_except {A} (m : M A) (h : exn -> M A) : M A :=
  fun w =>
    match m w with
    | (Raise e, w') => h e w'
    | r => r
    end.

Definition lift {A} (r : exn + A) : M A :=
  match r with
  | inr a => ret a
  | inl e => raise e
  end.

Declare Scope py_scope.
Delimit Scope py_scope with py.
Notation "x <- m ;; k" := (bind m (fun x => k))
  (at level 100, m at next level, right associativity) : py_scope.
Notation "m ;;; k" := (bind m (fun _ => k))
  (at level 100, right associativity) : py_scope.
Local Open Scope py_scope.

Definition get_clock : M Z := fun w => (Ret (clock w), w).

Definition record (c : call) : M unit :=
  fun w => (Ret tt, mkWorld (clock w) (fs w) (s3 w) (log w) (calls w ++ [c])%list (polls w)).

Definition logger (lvl : level) (template : string) (args : list json) : M unit :=
  fun w => (Ret tt, mkWorld (clock w) (fs w) (s3 w)
                            (log w ++ [Log lvl template args])%list (calls w) (polls w)).

Definition logger_traceback (e : exn) : M unit :=
  fun w => (Ret tt, mkWorld (clock w) (fs w) (s3 w) (log w ++ [LogTraceback e])%list (calls w) (polls w)).

Definition set_fs (f : list (string * node)) : M unit :=
  fun w => (Ret tt, mkWorld (clock w) f (s3 w) (log w) (calls w) (polls w)).

Definition set_s3 (o : list ((string * string) * option json)) : M unit :=
  fun w => (Ret tt, mkWorld (clock w) (fs w) o (log w) (calls w) (polls w)).

Definition advance (d : Z) : M unit :=
  fun w => (Ret tt, mkWorld (clock w + d) (fs w) (s3 w) (log w) (calls w) (polls w)).

Definition next_poll : M nat :=
  fun w => (Ret (polls w), mkWorld (clock w) (fs w) (s3 w) (log w) (calls w) (S (polls w))).

(** [time.sleep(d)] refuses a negative duration. *)
Definition sleep (d : Z) : M unit :=
  if d <? 0 then raise (ValueError "sleep length must be non-negative")
  else (record (Sleep d) ;;; advance d).

(* ------------------------------------------------------------------ *)
(** ** The file system ([os], [open]) *)

Module Fs.

Fixpoint lookup (p : string) (f : list (string * node)) : option node :=
  match f with
  | [] => None
  | (q, n) :: rest => if String.eqb p q then Some n else lookup p rest
  end.

Definition remove (p : string) (f : list (string * node)) : list (string * node) :=
  filter (fun e => negb (String.eqb p (fst e))) f.

(** Creating or overwriting the entry at [p]. *)
Definition write (p : string) (n : node) (f : list (string * node))
  : list (string * node) :=
  (remove p f ++ [(p, n)])%list.

(** The name of [p] inside directory [d], when [p] lies directly in it. *)
Definition child_name (d p : string) : option string :=
  if String.prefix (d ++ "/") p then
    let r := String.substring (String.length d + 1)
                              (String.length p - (String.length d + 1)) p in
    if String.eqb r "" || PyStr.contains "/" r then None else Some r
  else None.

Fixpoint children (d : string) (f : list (string * node)) : list string :=
  match f with
  | [] => []
  | (p, _) :: rest =>
      match child_name d p with
      | Some r => r :: children d rest
      | None => children d rest
      end
  end.

(** [os.path.exists(p)] *)
Definition exists_ (p : string) : M bool :=
  record (FsExists p) ;;;
  fun w => (Ret (match lookup p (fs w) with Some _ => true | None => false end), w).

(** [os.makedirs(p, exist_ok=True)].  Intermediate directories are not
    tracked. *)
Definition makedirs (p : string) : M unit :=
  record (FsMakedirs p) ;;;
  fun w =>
    if String.eqb p "" then
      (Raise (FileNotFoundError "[Errno 2] No such file or directory: ''"), w)
    else
      match lookup p (fs w) with
      | Some Dir => (Ret tt, w)
      | Some (File _) =>
          (Raise (FileExistsError ("[Errno 17] File exists: '" ++ p ++ "'")), w)
      | None => set_fs (fs w ++ [(p, Dir)])%list w
      end.

(** [os.rename(src, dst)]: the entry moves, replacing a file at [dst];
    renaming a path onto itself changes nothing.  The entries below a
    renamed directory are not followed. *)
Definition rename (src dst : string) : M unit :=
  record (FsRename src dst) ;;;
  fun w =>
    match lookup src (fs w) with
    | None =>
        (Raise (FileNotFoundError
                  ("[Errno 2] No such file or directory: '" ++ src ++ "' -> '"
                     ++ dst ++ "'")), w)
    | Some n =>
        if String.eqb src dst then (Ret tt, w)
        else
          match lookup dst (fs w), n with
          | Some Dir, _ =>
              (Raise (OSError ("[Errno 21] Is a directory: '" ++ src ++ "' -> '"
                                 ++ dst ++ "'")), w)
          | Some (File _), Dir =>
              (Raise (OSError ("[Errno 20] Not a directory: '" ++ src ++ "' -> '"
                                 ++ dst ++ "'")), w)
          | _, _ => set_fs (write dst n (remove src (fs w))) w
          end
    end.

(** [os.listdir(d)] *)
Definition listdir (d : string) : M (list string) :=
  record (FsListdir d) ;;;
  fun w =>
    match lookup d (fs w) with
    | Some Dir => (Ret (children d (fs w)), w)
    | Some (File _) =>
        (Raise (OSError ("[Errno 20] Not a directory: '" ++ d ++ "'")), w)
    | None =>
        (Raise (FileNotFoundError
                  ("[Errno 2] No such file or directory: '" ++ d ++ "'")), w)
    end.

(** [with open(p, "r") as f: json.load(f)] *)
Definition load_json (p : string) : M json :=
  record (FsOpen p) ;;;
  fun w =>
    match lookup p (fs w) with
    | Some (File (Some j)) => (Ret j, w)
    | Some (File None) => (Raise (JSONDecodeError "Expecting value"), w)
    | Some Dir =>
        (Raise (OSError ("[Errno 21] Is a directory: '" ++ p ++ "'")), w)
    | None =>
        (Raise (FileNotFoundError
                  ("[Errno 2] No such file or directory: '" ++ p ++ "'")), w)
    end.

End Fs.

(* ------------------------------------------------------------------ *)
(** ** The object store ([s3_client]) *)

Module S3.

Definition same_object (b k : string) (e : (string * string) * option json) : bool :=
  String.eqb b (fst (fst e)) && String.eqb k (snd (fst e)).

Fixpoint lookup (b k : string) (o : list ((string * string) * option json))
  : option (option json) :=
  match o with
  | [] => None
  | e :: rest => if same_object b k e then Some (snd e) else lookup b k rest
  end.

Definition put (b k : string) (c : option json)
               (o : list ((string * string) * option json)) :=
  (filter (fun e => negb (same_object b k e)) o ++ [((b, k), c)])%list.

Section WithEnv.
Variable E : env.

(** [s3_client.download_file(bucket, key, path)] *)
Definition download_file (b k p : string) : M unit :=
  record (S3Download b k p) ;;;
  fun w =>
    if s3_refused E b k then (Raise (ClientError "An error occurred (403)"), w)
    else
      match lookup b k (s3 w) with
      | None => (Raise (ClientError "An error occurred (404): Not Found"), w)
      | Some c =>
          match Fs.lookup p (fs w) with
          | Some Dir =>
              (Raise (OSError ("[Errno 21] Is a directory: '" ++ p ++ "'")), w)
          | _ =>
              if PyStr.endswith "/" p then
                (Raise (OSError ("[Errno 21] Is a directory: '" ++ p ++ "'")), w)
              else set_fs (Fs.write p (File c) (fs w)) w
          end
      end.

(** [s3_client.upload_file(path, bucket, key)]: the local file stays. *)
Definition upload_file (p b k : string) : M unit :=
  record (S3Upload p b k) ;;;
  fun w =>
    match Fs.lookup p (fs w) with
    | None =>
        (Raise (FileNotFoundError
                  ("[Errno 2] No such file or directory: '" ++ p ++ "'")), w)
    | Some Dir =>
        (Raise (OSError ("[Errno 21] Is a directory: '" ++ p ++ "'")), w)
    | Some (File c) =>
        if s3_refused E b k then
          (Raise (ClientError "An error occurred (403)"), w)
        else set_s3 (put b k c (s3 w)) w
    end.

(** [s3_client.generate_presigned_url("get_object", Params, ExpiresIn)] *)
Definition generate_presigned_url (b k : string) (expires : Z) : M string :=
  record (S3Presign b k expires) ;;;
  ret (presigned_url E b k expires).

End WithEnv.

End S3.

(* ------------------------------------------------------------------ *)
(** ** The service *)

Definition COMFY_URL : string := "http://127.0.0.1:8188".

Module Py_types.

(** [type(v).__name__] *)
Definition name (v : json) : string :=
  match v with
  | JNull => "NoneType"
  | JBool _ => "bool"
  | JNum _ => "int"
  | JStr _ => "str"
  | JArr _ => "list"
  | JObj _ => "dict"
  end.

(** [v.startswith(p)]: a method of strings only. *)
Definition startswith (p : string) (v : json) : exn + bool :=
  match v with
  | JStr s => inr (PyStr.startswith p s)
  | _ => inl (AttributeError
                ("'" ++ name v ++ "' object has no attribute 'startswith'"))
  end.

(** The string behind a value that a passed [startswith] has shown to be
    one. *)
Definition as_str (v : json) : string :=
  match v with JStr s => s | _ => "" end.

End Py_types.

Section Service.

Variable E : env.

(** [resolve_input_path(uri, local_dir)], lines 31-56.  The handler passes
    whatever JSON value the request holds, so [uri] is a JSON value. *)
Definition resolve_input_path (uri : json) (local_dir : string) : M string :=
  try_except
    (is_s3 <- lift (Py_types.startswith "s3://" uri) ;;
     let uri := Py_types.as_str uri in
     if is_s3 && s3_client E then
       let uri_parts := PyStr.split1 "/" (PyStr.replace "s3://" "" uri) in
       if negb (Nat.eqb (List.length uri_parts) 2) then
         raise (ValueError ("Invalid S3 URI format: " ++ uri))
       else
         let bucket := nth 0 uri_parts "" in
         let key := nth 1 uri_parts "" in
         let local_path := PyStr.join local_dir (PyStr.basename key) in
         Fs.makedirs local_dir ;;;
         logger INFO "Downloading {} to {}" [JStr uri; JStr local_path] ;;;
         S3.download_file E bucket key local_path ;;;
         ret local_path
     else
       found <- Fs.exists_ uri ;;
       if negb found then
         raise (FileNotFoundError ("Input file not found: " ++ uri))
       else ret uri)
    (fun e =>
       logger ERROR "Error resolving input path {}: {}" [uri; JStr (str_exn e)] ;;;
       raise e).

(** [upload_output(local_path, target)], lines 58-89. *)
Definition upload_output (local_path : string) (target : json) : M string :=
  try_except
    (is_s3 <- lift (Py_types.startswith "s3://" target) ;;
     let target := Py_types.as_str target in
     if is_s3 && s3_client E then
       let uri_parts := PyStr.split1 "/" (PyStr.replace "s3://" "" target) in
       let bucket := nth 0 uri_parts "" in
       let prefix := if (1 <? List.length uri_parts)%nat
                     then nth 1 uri_parts "" else "" in
       let key := if negb (String.eqb prefix "")
                  then prefix ++ "/" ++ PyStr.basename local_path
                  else PyStr.basename local_path in
       logger INFO "Uploading {} to s3://{}/{}"
              [JStr local_path; JStr bucket; JStr key] ;;;
       S3.upload_file E local_path bucket key ;;;
       url <- S3.generate_presigned_url E bucket key 3600 ;;
       ret url
     else
       Fs.makedirs target ;;;
       let out_path := PyStr.join target (PyStr.basename local_path) in
       Fs.rename local_path out_path ;;;
       ret out_path)
    (fun e =>
       logger ERROR "Error uploading output {} to {}: {}"
              [JStr local_path; target; JStr (str_exn e)] ;;;
       raise e).

(** [response.raise_for_status()] of [requests]. *)
Definition raise_for_status (url : string) (status : Z) (reason : string) : M unit :=
  if (400 <=? status) && (status <? 500) then
    raise (HTTPError status (PyStr.of_Z status ++ " Client Error: " ++ reason
                               ++ " for url: " ++ url))
  else if (500 <=? status) && (status <? 600) then
    raise (HTTPError status (PyStr.of_Z status ++ " Server Error: " ++ reason
                               ++ " for url: " ++ url))
  else ret tt.

(** [raise_for_status()] followed by [response.json()]. *)
Definition checked_json (url : string) (r : http_reply) : M json :=
  match r with
  | NoReply e => raise e
  | Reply status reason body =>
      raise_for_status url status reason ;;;
      match body with
      | Some j => ret j
      | None => raise (JSONDecodeError "Expecting value: line 1 column 1 (char 0)")
      end
  end.

(** [submit_workflow(workflow_json)], lines 91-111.  The function is
    annotated to return a string; a truthy identifier of another type is
    outside the model. *)
Definition submit_workflow (workflow_json : json) : M string :=
  try_except
    (record (HttpPostPrompt workflow_json) ;;;
     result <- checked_json (COMFY_URL ++ "/prompt") (prompt_reply E workflow_json) ;;
     got <- lift (Py.get result "prompt_id") ;;
     let prompt_id := match got with Some v => v | None => JNull end in
     if negb (Py.truthy prompt_id) then
       raise (ValueError "No prompt_id in ComfyUI response")
     else
       logger INFO "Workflow submitted with prompt_id: {}" [prompt_id] ;;;
       match prompt_id with
       | JStr s => ret s
       | _ => stuck
       end)
    (fun e =>
       logger ERROR "Error submitting workflow: {}" [JStr (str_exn e)] ;;;
       raise e).

(** [requests.get(f"{COMFY_URL}/history/{prompt_id}", timeout=10)]: the
    engine's next answer, after the time it takes. *)
Definition get_history (prompt_id : string) : M http_reply :=
  record (HttpGetHistory prompt_id) ;;;
  n <- next_poll ;;
  advance (Z.of_N (fst (history_reply E prompt_id n))) ;;;
  ret (snd (history_reply E prompt_id n)).

(** One pass through the body of the [while] loop of
    [wait_for_completion], lines 118-131: the record of the finished job,
    or [None] after an empty tick. *)
Definition poll_once (prompt_id : string) (poll_interval : Z) : M (option json) :=
  try_except
    (response <- get_history prompt_id ;;
     data <- checked_json (COMFY_URL ++ "/history/" ++ prompt_id) response ;;
     known <- lift (Py.contains prompt_id data) ;;
     done <- (if known then
                entry <- lift (Py.getitem data prompt_id) ;;
                lift (Py.contains "outputs" entry)
              else ret false) ;;
     if done then
       logger INFO "Workflow {} completed successfully" [JStr prompt_id] ;;;
       entry <- lift (Py.getitem data prompt_id) ;;
       ret (Some entry)
     else
       sleep poll_interval ;;;
       ret None)
    (fun e =>
       logger WARNING "Error checking workflow status: {}" [JStr (str_exn e)] ;;;
       sleep poll_interval ;;;
       ret None).

(** The [while] loop of lines 117-133, with a bound on its passes. *)
Fixpoint poll_loop (fuel : nat) (prompt_id : string)
         (poll_interval max_wait start_time : Z) : M json :=
  match fuel with
  | O => stuck
  | S fuel' =>
      now <- get_clock ;;
      if now - start_time <? max_wait then
        r <- poll_once prompt_id poll_interval ;;
        match r with
        | Some entry => ret entry
        | None => poll_loop fuel' prompt_id poll_interval max_wait start_time
        end
      else
        raise (TimeoutError ("Workflow " ++ prompt_id ++ " did not complete within "
                               ++ PyStr.of_Z max_wait ++ " seconds"))
  end.

(** [wait_for_completion(prompt_id, poll_interval, max_wait)],
    lines 113-133. *)
Definition wait_for_completion (fuel : nat) (prompt_id : string)
           (poll_interval max_wait : Z) : M json :=
  start_time <- get_clock ;;
  poll_loop fuel prompt_id poll_interval max_wait start_time.

(** *** The handler *)

Definition required_fields : list string :=
  ["audio_s3"; "transcript_s3"; "image_s3"; "output_s3_bucket"].

(** The loop of lines 170-172: the first required field that [data]
    lacks. *)
Fixpoint first_missing (fields : list string) (data : json) : M (option string) :=
  match fields with
  | [] => ret None
  | field :: rest =>
      present <- lift (Py.contains field data) ;;
      if negb present then ret (Some field) else first_missing rest data
  end.

(** [if name in inputs: inputs[name] = path], lines 196-201. *)
Definition patch_input (name path : string) (inputs : json) : exn + json :=
  match Py.contains name inputs with
  | inl e => inl e
  | inr true => Py.setitem inputs name (JStr path)
  | inr false => inr inputs
  end.

(** The body of the loop of lines 194-201 on one node.  [inputs] is the
    dictionary stored in the node, so the assignments show in the node;
    when the node has no ["inputs"], the default is a fresh dictionary
    that is dropped. *)
Definition patch_node (audio_path transcript_path image_path : string)
           (node : json) : exn + json :=
  match Py.get node "inputs" with
  | inl e => inl e
  | inr got =>
      let inputs := match got with Some v => v | None => JObj [] end in
      match patch_input "audio" audio_path inputs with
      | inl e => inl e
      | inr inputs1 =>
          match patch_input "text_file" transcript_path inputs1 with
          | inl e => inl e
          | inr inputs2 =>
              match patch_input "image" image_path inputs2 with
              | inl e => inl e
              | inr inputs3 =>
                  match got with
                  | Some _ => Py.setitem node "inputs" inputs3
                  | None => inr node
                  end
              end
          end
      end
  end.

Fixpoint patch_nodes (audio_path transcript_path image_path : string)
         (nodes : list (string * json)) : exn + list (string * json) :=
  match nodes with
  | [] => inr []
  | (node_id, node) :: rest =>
      match patch_node audio_path transcript_path image_path node with
      | inl e => inl e
      | inr node' =>
          match patch_nodes audio_path transcript_path image_path rest with
          | inl e => inl e
          | inr rest' => inr ((node_id, node') :: rest')
          end
      end
  end.

(** The loop of lines 194-201 over [workflow.items()]. *)
Definition patch_workflow (audio_path transcript_path image_path : string)
           (workflow : json) : exn + json :=
  match Py.items workflow with
  | inl e => inl e
  | inr nodes =>
      match patch_nodes audio_path transcript_path image_path nodes with
      | inl e => inl e
      | inr nodes' => inr (JObj nodes')
      end
  end.

(** [for x in l: acc = body x acc] *)
Fixpoint for_each {A B : Type} (l : list A) (body : A -> B -> M B) (acc : B) : M B :=
  match l with
  | [] => ret acc
  | x :: rest => acc' <- body x acc ;; for_each rest body acc'
  end.

Definition output_dir : string := "/app/ComfyUI/output".

(** The body of the innermost loop, lines 217-226. *)
Definition collect_item (target : json) (output_type : string)
           (output_item : json) (outputs : list json) : M (list json) :=
  got <- lift (Py.get output_item "filename") ;;
  let filename := match got with Some v => v | None => JNull end in
  if Py.truthy filename then
    match filename with
    | JStr name =>
        let local_path := PyStr.join output_dir name in
        found <- Fs.exists_ local_path ;;
        if found then
          url <- upload_output local_path target ;;
          ret (outputs ++ [JObj [("type", JStr output_type);
                                 ("filename", filename);
                                 ("url", JStr url)]])%list
        else ret outputs
    | _ => raise (TypeError "join() argument must be str, bytes, or os.PathLike object")
    end
  else ret outputs.

(** The loops of lines 213-226. *)
Definition collect_outputs (target : json) (result : json) : M (list json) :=
  got <- lift (Py.get result "outputs") ;;
  nodes <- lift (Py.items (match got with Some v => v | None => JObj [] end)) ;;
  for_each nodes
    (fun node outputs =>
       for_each ["images"; "videos"; "audio"]
         (fun output_type outputs =>
            got <- lift (Py.get (snd node) output_type) ;;
            output_items <- lift (Py.iter (match got with
                                           | Some v => v
                                           | None => JArr []
                                           end)) ;;
            for_each output_items (collect_item target output_type) outputs)
         outputs)
    [].

Definition workflows_dir : string := "/app/ComfyUI/workflows".

(** Lines 180-187: the path of the workflow template, or [None] when the
    handler answers "No workflow files found". *)
Definition select_workflow : M (option string) :=
  let workflow_path := "/app/ComfyUI/workflows/vibe_infinite.json" in
  found <- Fs.exists_ workflow_path ;;
  if negb found then
    names <- Fs.listdir workflows_dir ;;
    let workflow_files := filter (PyStr.endswith ".json") names in
    match workflow_files with
    | [] => ret None
    | first :: _ =>
        let workflow_path := PyStr.join workflows_dir first in
        logger WARNING "Using fallback workflow: {}" [JStr workflow_path] ;;;
        ret (Some workflow_path)
    end
  else ret (Some workflow_path).

(** [request.get_json()]: the parsed body, or the error Flask raises when
    the body is not JSON. *)
Definition get_json (request : option json) : M json :=
  match request with
  | Some data => ret data
  | None => raise (BadRequest "400 Bad Request: Failed to decode JSON object")
  end.

(** The [except] branch of the handler, lines 236-246. *)
Definition failed (job_id : json) (e : exn) : M (json * Z) :=
  let error_msg := str_exn e in
  logger ERROR "Error processing job {}: {}" [job_id; JStr error_msg] ;;;
  logger_traceback e ;;;
  now <- get_clock ;;
  ret (JObj [("job_id", job_id); ("status", JStr "FAILED");
             ("error", JStr error_msg); ("timestamp", JNum now)], 500).

(** Lines 166-234: the handler once [job_id] is assigned. *)
Definition process (fuel : nat) (job_id data : json) : M (json * Z) :=
  logger INFO "Processing job {}" [job_id] ;;;
  missing <- first_missing required_fields data ;;
  match missing with
  | Some field =>
      ret (JObj [("error", JStr ("Missing required field: " ++ field))], 400)
  | None =>
      audio_s3 <- lift (Py.getitem data "audio_s3") ;;
      audio_path <- resolve_input_path audio_s3 "/app/inputs" ;;
      transcript_s3 <- lift (Py.getitem data "transcript_s3") ;;
      transcript_path <- resolve_input_path transcript_s3 "/app/inputs" ;;
      image_s3 <- lift (Py.getitem data "image_s3") ;;
      image_path <- resolve_input_path image_s3 "/app/inputs" ;;
      selected <- select_workflow ;;
      match selected with
      | None => ret (JObj [("error", JStr "No workflow files found")], 500)
      | Some workflow_path =>
          workflow <- Fs.load_json workflow_path ;;
          workflow <- lift (patch_workflow audio_path transcript_path image_path
                                           workflow) ;;
          prompt_id <- submit_workflow workflow ;;
          result <- wait_for_completion fuel prompt_id 2 300 ;;
          target <- lift (Py.getitem data "output_s3_bucket") ;;
          outputs <- collect_outputs target result ;;
          now <- get_clock ;;
          ret (JObj [("job_id", job_id); ("status", JStr "COMPLETED");
                     ("prompt_id", JStr prompt_id); ("outputs", JArr outputs);
                     ("timestamp", JNum now)], 200)
      end
  end.

(** [predict()], lines 155-246: the response body and the HTTP status.
    [job_id] is [None] until line 165 assigns it, so the [except] branch
    reports [None] for a failure before that line and the assigned value
    afterwards. *)
Definition predict (fuel : nat) (request : option json) : M (json * Z) :=
  try_except
    (data <- get_json request ;;
     if negb (Py.truthy data) then
       ret (JObj [("error", JStr "No JSON data provided")], 400)
     else
       got <- lift (Py.get data "job_id") ;;
       let job_id := match got with Some v => v | None => JStr (uuid4 E) end in
       try_except (process fuel job_id data) (failed job_id))
    (failed JNull).

End Service.

(* ------------------------------------------------------------------ *)
(** ** Concrete surroundings for the examples *)

Module Demo.

(** An engine that accepts every workflow as job ["p1"] and reports it
    finished, with one image, at the first status query. *)
Definition finished : json :=
  JObj [("p1", JObj [("outputs",
                      JObj [("9", JObj [("images",
                                         JArr [JObj [("filename",
                                                      JStr "result.png")]])])])])].

Definition engine : env :=
  mkEnv true "job-0001"
        (fun b k t => "https://" ++ b ++ ".s3.amazonaws.com/" ++ k
                        ++ "?X-Amz-Expires=" ++ PyStr.of_Z t)
        (fun _ _ => false)
        (fun _ => Reply 200 "OK" (Some (JObj [("prompt_id", JStr "p1")])))
        (fun _ _ => (0%N, Reply 200 "OK" (Some finished))).

(** The same surroundings after [boto3.client] failed at start-up. *)
Definition engine_without_store : env :=
  mkEnv false (uuid4 engine) (presigned_url engine) (s3_refused engine)
        (prompt_reply engine) (history_reply engine).

Definition template : json :=
  JObj [("1", JObj [("inputs", JObj [("audio", JStr ""); ("seed", JNum 7)])]);
        ("2", JObj [("inputs", JObj [("image", JStr "")])]);
        ("3", JObj [("class_type", JStr "SaveImage")])].

Definition disk : list (string * node) :=
  [("/app/ComfyUI/workflows", Dir);
   ("/app/ComfyUI/workflows/b.json", File (Some template));
   ("/app/ComfyUI/workflows/a.json", File (Some (JObj [])));
   ("/app/ComfyUI/output", Dir);
   ("/app/ComfyUI/output/result.png", File None)].

Definition bucket : list ((string * string) * option json) :=
  [(("b", "a.wav"), None); (("b", "t.txt"), None); (("b", "i.png"), None);
   (("b", "dir/a.wav"), None)].

Definition start : world := mkWorld 1000 disk bucket [] [] 0.

End Demo.

(* ------------------------------------------------------------------ *)
(** ** Conditions used in the statements *)

(** [os.makedirs(d, exist_ok=True)] succeeds: [d] is a directory already,
    or the path is free. *)
Definition can_makedirs (d : string) (f : list (string * node)) : Prop :=
  d <> "" /\ (Fs.lookup d f = Some Dir \/ Fs.lookup d f = None).

(** The bucket, the prefix and the key of lines 63-67 of [upload_output],
    for the destination [target] and the file [local_path]. *)
Definition upload_bucket (target : string) : string :=
  nth 0 (PyStr.split1 "/" (PyStr.replace "s3://" "" target)) "".

Definition upload_prefix (target : string) : string :=
  let uri_parts := PyStr.split1 "/" (PyStr.replace "s3://" "" target) in
  if (1 <? List.length uri_parts)%nat then nth 1 uri_parts "" else "".

Definition upload_key (target local_path : string) : string :=
  if negb (String.eqb (upload_prefix target) "")
  then upload_prefix target ++ "/" ++ PyStr.basename local_path
  else PyStr.basename local_path.

(** The document of an answer that passes [raise_for_status()] and
    [response.json()]. *)
Definition reply_json (r : http_reply) : option json :=
  match r with
  | Reply status _ (Some data) =>
      if ((400 <=? status) && (status <? 500)) || ((500 <=? status) && (status <? 600))
      then None else Some data
  | _ => None
  end.

(** The answer is a failed status query: no response, an error status, or
    a body that is not JSON. *)
Definition query_failed (r : http_reply) : Prop := reply_json r = None.

(** The answer reports job [prompt_id] as finished, line 123: it holds an
    entry for the job, and the entry holds ["outputs"]. *)
Definition finished_entry (prompt_id : string) (r : http_reply) : option json :=
  match reply_json r with
  | Some data =>
      match Py.contains prompt_id data with
      | inr true =>
          match Py.getitem data prompt_id with
          | inr entry =>
              match Py.contains "outputs" entry with
              | inr true => Some entry
              | _ => None
              end
          | inl _ => None
          end
      | _ => None
      end
  | None => None
  end.

(** The time [n] unfinished ticks take from the [from]-th status query on:
    each costs the time the engine takes to answer and the sleep. *)
Fixpoint waited (E : env) (prompt_id : string) (poll_interval : Z)
         (from n : nat) : Z :=
  match n with
  | O => 0
  | S n' =>
      Z.of_N (fst (history_reply E prompt_id from)) + poll_interval
      + waited E prompt_id poll_interval (S from) n'
  end.

(** The message of the timeout of line 133. *)
Definition timeout_message (prompt_id : string) (max_wait : Z) : string :=
  "Workflow " ++ prompt_id ++ " did not complete within "
    ++ PyStr.of_Z max_wait ++ " seconds".

Module DemoEngines.

(** An engine that accepts the job and never reports it finished. *)
Definition stalled : env :=
  mkEnv true (uuid4 Demo.engine) (presigned_url Demo.engine)
        (s3_refused Demo.engine) (prompt_reply Demo.engine)
        (fun _ _ => (1%N, Reply 200 "OK" (Some (JObj [])))).

(** An engine whose first status query fails on the network and whose
    second one reports the job finished. *)
Definition flaky : env :=
  mkEnv true (uuid4 Demo.engine) (presigned_url Demo.engine)
        (s3_refused Demo.engine) (prompt_reply Demo.engine)
        (fun _ n =>
           match n with
           | O => (1%N, NoReply (ConnectionError "Connection refused"))
           | S _ => (0%N, Reply 200 "OK" (Some Demo.finished))
           end).

Definition finished_job : json :=
  JObj [("outputs",
         JObj [("9", JObj [("images",
                            JArr [JObj [("filename", JStr "result.png")]])])])].

End DemoEngines.

(** The first of the required fields, in the order the handler checks
    them, that the request object lacks. *)
Definition missing_field (fields : list (string * json)) : option string :=
  find (fun field => match Py.lookup field fields with
                     | Some _ => false
                     | None => true
                     end)
       ["audio_s3"; "transcript_s3"; "image_s3"; "output_s3_bucket"].

(** The job identifier of line 165. *)
Definition job_id_of (E : env) (fields : list (string * json)) : json :=
  match Py.lookup "job_id" fields with
  | Some v => v
  | None => JStr (uuid4 E)
  end.

(** The responses the handler builds: the two bare error responses of
    lines 163, 172 and 185, the result of lines 228-234 and the failure of
    lines 241-246. *)
Inductive response_shape : json * Z -> Prop :=
| shape_rejected (msg : string) :
    response_shape (JObj [("error", JStr msg)], 400)
| shape_no_workflow :
    response_shape (JObj [("error", JStr "No workflow files found")], 500)
| shape_completed (job_id : json) (prompt_id : string) (outputs : list json)
                  (now : Z) :
    response_shape (JObj [("job_id", job_id); ("status", JStr "COMPLETED");
                          ("prompt_id", JStr prompt_id); ("outputs", JArr outputs);
                          ("timestamp", JNum now)], 200)
| shape_failed (job_id : json) (msg : string) (now : Z) :
    response_shape (JObj [("job_id", job_id); ("status", JStr "FAILED");
                          ("error", JStr msg); ("timestamp", JNum now)], 500).

(** The engine names jobs by strings, as [submit_workflow] is annotated to
    return. *)
Definition string_ids (E : env) : Prop :=
  forall workflow status reason fields v,
    prompt_reply E workflow = Reply status reason (Some (JObj fields)) ->
    Py.lookup "prompt_id" fields = Some v ->
    Py.truthy v = true ->
    exists s, v = JStr s.

(** The alternate template the specification asks for: the first name in
    sorted order. *)
Fixpoint first_sorted (names : list string) : option string :=
  match names with
  | [] => None
  | name :: rest =>
      match first_sorted rest with
      | Some best => Some (if String.leb name best then name else best)
      | None => Some name
      end
  end.

Definition canonical_workflow : string := "/app/ComfyUI/workflows/vibe_infinite.json".

(** A computation the model always follows to its end: it returns or
    raises in every state. *)
Definition total {A : Type} (m : M A) : Prop :=
  forall w, fst (m w) <> Stuck.

(** The string holds no slash. *)
Fixpoint slash_free (s : string) : bool :=
  match s with
  | EmptyString => true
  | String c s' => negb (Ascii.eqb c "/") && slash_free s'
  end.

(** The pattern occurs somewhere in the string. *)
Fixpoint occurs (p s : string) : bool :=
  match s with
  | EmptyString => String.prefix p EmptyString
  | String c s' => String.prefix p s || occurs p s'
  end.

(** The node is a dictionary that names none of the three input
    parameters: it has no ["inputs"], or its ["inputs"] is a dictionary
    without the keys [audio], [text_file] and [image]. *)
Definition names_no_input (node : json) : bool :=
  match node with
  | JObj fields =>
      match Py.lookup "inputs" fields with
      | None => true
      | Some (JObj inputs) =>
          match Py.lookup "audio" inputs, Py.lookup "text_file" inputs,
                Py.lookup "image" inputs with
          | None, None, None => true
          | _, _, _ => false
          end
      | Some _ => false
      end
  | _ => false
  end.

(** The value the patch gives parameter [k], whose value was [v]. *)
Definition patched_value (audio_path transcript_path image_path k : string)
           (v : json) : json :=
  if String.eqb k "audio" then JStr audio_path
  else if String.eqb k "text_file" then JStr transcript_path
  else if String.eqb k "image" then JStr image_path
  else v.

(** [if name in inputs: inputs[name] = path] on a dictionary. *)
Definition set_if_present (name path : string) (inputs : list (string * json))
  : list (string * json) :=
  match Py.lookup name inputs with
  | Some _ => Py.update name (JStr path) inputs
  | None => inputs
  end.

(** An entry of the result list, lines 222-226: [{type, filename, url}]
    with one of the three media categories, a file name and a handle. *)
Definition is_artifact (v : json) : bool :=
  match v with
  | JObj [("type", JStr ty); ("filename", JStr _); ("url", JStr _)] =>
      existsb (String.eqb ty) ["images"; "videos"; "audio"]
  | _ => false
  end.

(** [health_check()], lines 135-153, given the engine's answer to
    [GET /system_stats].  Only [raise_for_status()] looks at the answer;
    the body is not read. *)
Definition health_check (stats : http_reply) : M (json * Z) :=
  try_except
    (match stats with
     | NoReply e => raise e
     | Reply status reason _ =>
         raise_for_status (COMFY_URL ++ "/system_stats") status reason
     end ;;;
     now <- get_clock ;;
     ret (JObj [("status", JStr "healthy"); ("comfyui", JStr "connected");
                ("timestamp", JNum now)], 200))
    (fun e =>
       now <- get_clock ;;
       ret (JObj [("status", JStr "unhealthy"); ("error", JStr (str_exn e));
                  ("timestamp", JNum now)], 503)).

Module DemoStudio.

(** A disk with the three inputs as local files and the canonical
    template in place. *)
Definition disk : list (string * node) :=
  [("/data/a.wav", File None); ("/data/t.txt", File None);
   ("/data/i.png", File None);
   ("/app/ComfyUI/workflows", Dir);
   ("/app/ComfyUI/workflows/vibe_infinite.json", File (Some Demo.template))].

Definition start : world := mkWorld 50 disk [] [] [] 0.

Definition request : list (string * json) :=
  [("job_id", JStr "j9"); ("audio_s3", JStr "/data/a.wav");
   ("transcript_s3", JStr "/data/t.txt"); ("image_s3", JStr "/data/i.png");
   ("output_s3_bucket", JStr "/data/out")].

End DemoStudio.

Module DemoQuiet.

(** An engine that reports job ["p1"] finished at once, with no node
    outputs. *)
Definition engine : env :=
  mkEnv true (uuid4 Demo.engine) (presigned_url Demo.engine)
        (s3_refused Demo.engine) (prompt_reply Demo.engine)
        (fun _ _ => (1%N, Reply 200 "OK"
                                (Some (JObj [("p1", JObj [("outputs", JObj [])])])))).

End DemoQuiet.

(** The state once the handler has resolved three local inputs, found the
    canonical template, and had its workflow accepted by the engine:
    only the log and the record of calls have grown. *)
Definition after_submission (w : world) (job_id : json)
           (audio transcript image : string) (workflow : json)
           (prompt_id : string) : world :=
  mkWorld (clock w) (fs w) (s3 w)
          ((log w ++ [Log INFO "Processing job {}" [job_id]])
             ++ [Log INFO "Workflow submitted with prompt_id: {}" [JStr prompt_id]])%list
          ((((((calls w ++ [FsExists audio]) ++ [FsExists transcript])
                ++ [FsExists image]) ++ [FsExists canonical_workflow])
              ++ [FsOpen canonical_workflow]) ++ [HttpPostPrompt workflow])%list
          (polls w).

(** Lines 209-234 of the handler: what follows the wait. *)
Definition after_wait (E : env) (job_id data : json) (prompt_id : string)
           (result : json) : M (json * Z) :=
  (target <- lift (Py.getitem data "output_s3_bucket") ;;
   outputs <- collect_outputs E target result ;;
   now <- get_clock ;;
   ret (JObj [("job_id", job_id); ("status", JStr "COMPLETED");
              ("prompt_id", JStr prompt_id); ("outputs", JArr outputs);
              ("timestamp", JNum now)], 200))%py.

(* ------------------------------------------------------------------ *)
(** ** Names of directory entries *)

(** The file system model finds an entry by the string that names it.
    On a disk one entry has many names ([dir/./f], [dir//f] and
    [dir/../dir/f] all name [dir/f]), so what a rename or a download
    leaves at a path is stated for canonical names only: of those, an
    entry of a disk without links has exactly one.  The disk is a single
    file system, so that a rename never crosses devices. *)

(** The name of an entry within its directory: not empty, without a
    slash, and neither [.] nor [..]. *)
Definition simple_name (s : string) : bool :=
  negb (String.eqb s "") && slash_free s
  && negb (String.eqb s ".") && negb (String.eqb s "..").





(* ------------------------------------------------------------------ *)
(** ** The outputs a finished job declares *)

(** The file name of an output item, line 217, when it is a string. *)
Definition item_filename (output_item : json) : option string :=
  match Py.get output_item "filename" with
  | inr (Some (JStr name)) => Some name
  | _ => None
  end.

(** The output items of one node, in the three categories of line 215. *)
Definition node_items (node_outputs : json) : list json :=
  flat_map (fun output_type =>
              match Py.get node_outputs output_type with
              | inr got =>
                  match Py.iter (match got with Some v => v | None => JArr [] end) with
                  | inr output_items => output_items
                  | inl _ => []
                  end
              | inl _ => []
              end)
           ["images"; "videos"; "audio"].

(** The output items of all nodes of a result, line 213. *)
Definition declared_items (result : json) : list json :=
  match Py.get result "outputs" with
  | inr got =>
      match Py.items (match got with Some v => v | None => JObj [] end) with
      | inr nodes => flat_map (fun node => node_items (snd node)) nodes
      | inl _ => []
      end
  | inl _ => []
  end.

(** The file names a result declares. *)
Definition declared_names (result : json) : list string :=
  flat_map (fun output_item =>
              match item_filename output_item with
              | Some name => [name]
              | None => []
              end)
           (declared_items result).

(* ================================================================== *)
(** * Properties *)

(* ------------------------------------------------------------------ *)
(** ** Facts about the file system model *)

Module FsFacts.

Lemma lookup_app (p : string) (f g : list (string * node)) :
  Fs.lookup p (f ++ g)%list
  = match Fs.lookup p f with Some n => Some n | None => Fs.lookup p g end.
Proof.
  induction f as [|[q n] f IH]; simpl; [reflexivity|].
  destruct (String.eqb p q); [reflexivity | exact IH].
Qed.

Lemma lookup_remove_eq (p : string) (f : list (string * node)) :
  Fs.lookup p (Fs.remove p f) = None.
Proof.
  induction f as [|[q n] f IH]; simpl; [reflexivity|].
  destruct (String.eqb p q) eqn:Hpq; simpl; [exact IH|].
  rewrite Hpq. exact IH.
Qed.

Lemma lookup_remove_neq (p q : string) (f : list (string * node)) :
  p <> q -> Fs.lookup p (Fs.remove q f) = Fs.lookup p f.
Proof.
  intros Hne. induction f as [|[r n] f IH]; simpl; [reflexivity|].
  destruct (String.eqb q r) eqn:Hqr; simpl.
  - apply String.eqb_eq in Hqr. subst r.
    destruct (String.eqb p q) eqn:Hpq; [|exact IH].
    apply String.eqb_eq in Hpq. contradiction.
  - destruct (String.eqb p r); [reflexivity | exact IH].
Qed.

Lemma lookup_write_eq (p : string) (n : node) (f : list (string * node)) :
  Fs.lookup p (Fs.write p n f) = Some n.
Proof.
  unfold Fs.write. rewrite lookup_app, lookup_remove_eq. simpl.
  rewrite String.eqb_refl. reflexivity.
Qed.

Lemma lookup_write_neq (p q : string) (n : node) (f : list (string * node)) :
  p <> q -> Fs.lookup p (Fs.write q n f) = Fs.lookup p f.
Proof.
  intros Hne. unfold Fs.write. rewrite lookup_app, lookup_remove_neq by exact Hne.
  simpl. destruct (String.eqb p q) eqn:Hpq.
  - apply String.eqb_eq in Hpq. contradiction.
  - destruct (Fs.lookup p f); reflexivity.
Qed.

End FsFacts.

Local Arguments String.append : simpl never.

(** Case analysis on whatever the goal still matches on. *)
Ltac break_match :=
  match goal with
  | |- context [match ?x with _ => _ end] =>
      lazymatch x with
      | context [match _ with _ => _ end] => fail
      | _ => destruct x eqn:?
      end
  end.

(** Unfolding the monad and the modelled system calls. *)
Ltac run :=
  cbv beta iota delta
    [try_except bind ret raise stuck lift get_clock record logger
     logger_traceback set_fs set_s3 advance next_poll sleep
     Fs.exists_ Fs.makedirs Fs.rename Fs.listdir Fs.load_json
     S3.download_file S3.upload_file S3.generate_presigned_url].

(* ------------------------------------------------------------------ *)
(** ** The artifact resolver *)

Lemma split1_length (s : string) :
  List.length (PyStr.split1 "/" s)
  = match PyStr.partition "/" s with Some _ => 2%nat | None => 1%nat end.
Proof.
  unfold PyStr.split1. destruct (PyStr.partition "/" s) as [[a b]|]; reflexivity.
Qed.

Section ResolverProps.

Variable E : env.

Lemma resolve_no_slash (w : world) (uri local_dir : string) :
    s3_client E = true ->
    PyStr.startswith "s3://" uri = true ->
    PyStr.partition "/" (PyStr.replace "s3://" "" uri) = None ->
    resolve_input_path E (JStr uri) local_dir w
    = (Raise (ValueError ("Invalid S3 URI format: " ++ uri)),
       mkWorld (clock w) (fs w) (s3 w)
               (log w ++ [Log ERROR "Error resolving input path {}: {}"
                              [JStr uri; JStr ("Invalid S3 URI format: " ++ uri)]])%list
               (calls w) (polls w)).
Proof.
  intros Hc Hp Hn.
  unfold resolve_input_path, try_except, bind, lift. simpl.
  rewrite Hp, Hc. simpl. rewrite split1_length, Hn. reflexivity.
Qed.

Lemma resolve_slash_unfold (w : world) (uri local_dir bucket key : string) :
    s3_client E = true ->
    PyStr.startswith "s3://" uri = true ->
    PyStr.partition "/" (PyStr.replace "s3://" "" uri) = Some (bucket, key) ->
    resolve_input_path E (JStr uri) local_dir w
    = try_except
        (Fs.makedirs local_dir ;;;
         logger INFO "Downloading {} to {}"
                [JStr uri; JStr (PyStr.join local_dir (PyStr.basename key))] ;;;
         S3.download_file E bucket key (PyStr.join local_dir (PyStr.basename key)) ;;;
         ret (PyStr.join local_dir (PyStr.basename key)))
        (fun e =>
           logger ERROR "Error resolving input path {}: {}"
                  [JStr uri; JStr (str_exn e)] ;;;
           raise e) w.
Proof.
  intros Hc Hp Hs.
  unfold resolve_input_path, try_except, bind, lift. simpl.
  rewrite Hp, Hc. simpl. rewrite split1_length, Hs. simpl.
  unfold PyStr.split1. rewrite Hs. reflexivity.
Qed.

Lemma resolve_slash_not_format_error (w : world) (uri local_dir bucket key msg : string) :
    s3_client E = true ->
    PyStr.startswith "s3://" uri = true ->
    PyStr.partition "/" (PyStr.replace "s3://" "" uri) = Some (bucket, key) ->
    fst (resolve_input_path E (JStr uri) local_dir w) <> Raise (ValueError msg).
Proof.
  intros Hc Hp Hs. rewrite (resolve_slash_unfold _ _ _ _ _ Hc Hp Hs).
  run. simpl.
  repeat (break_match; simpl; try discriminate).
Qed.

End ResolverProps.

Section ResolverProps2.

Variable E : env.

Lemma resolve_slash_staged (w : world) (uri local_dir bucket key : string)
      (c : option json) :
    s3_client E = true ->
    PyStr.startswith "s3://" uri = true ->
    PyStr.partition "/" (PyStr.replace "s3://" "" uri) = Some (bucket, key) ->
    can_makedirs local_dir (fs w) ->
    s3_refused E bucket key = false ->
    S3.lookup bucket key (s3 w) = Some c ->
    PyStr.join local_dir (PyStr.basename key) <> local_dir ->
    Fs.lookup (PyStr.join local_dir (PyStr.basename key)) (fs w) <> Some Dir ->
    PyStr.endswith "/" (PyStr.join local_dir (PyStr.basename key)) = false ->
    exists w',
      resolve_input_path E (JStr uri) local_dir w
      = (Ret (PyStr.join local_dir (PyStr.basename key)), w')
      /\ Fs.lookup (PyStr.join local_dir (PyStr.basename key)) (fs w') = Some (File c)
      /\ s3 w' = s3 w.
Proof.
  intros Hc Hp Hs Hdir Href Hobj Hne Hnd Hend.
  rewrite (resolve_slash_unfold _ _ _ _ _ _ Hc Hp Hs).
  set (p := PyStr.join local_dir (PyStr.basename key)) in *.
  run. simpl.
  destruct Hdir as [Hnonempty Hdir].
  apply String.eqb_neq in Hnonempty. rewrite Hnonempty.
  assert (Hpl : (p =? local_dir)%string = false) by (apply String.eqb_neq; exact Hne).
  destruct Hdir as [Hdir|Hdir]; rewrite Hdir; simpl; rewrite Href, Hobj;
    [| rewrite FsFacts.lookup_app; simpl; rewrite Hpl ];
    (destruct (Fs.lookup p (fs w)) as [[|d]|] eqn:Hlk; [congruence| |];
     rewrite Hend; simpl; eexists; (split; [reflexivity|]); simpl;
     (split; [apply FsFacts.lookup_write_eq | reflexivity])).
Qed.

End ResolverProps2.

(** C5 (amended).  With the storage client available, a reference that
    starts with [s3://] is rejected as an input-format error exactly when
    nothing follows the bucket, that is when what remains after the scheme
    holds no slash.  Otherwise the text before the first slash is the
    bucket and everything after it, further slashes included, is the key:
    the call never fails with the input-format error, and when the staging
    directory can be made and the store holds the object, the object is
    fetched to the staging directory under the basename of the key and that
    path is returned. *)
Theorem resolve_remote_reference (E : env) (w : world) (uri local_dir : string) :
    s3_client E = true ->
    PyStr.startswith "s3://" uri = true ->
    match PyStr.partition "/" (PyStr.replace "s3://" "" uri) with
    | None =>
        fst (resolve_input_path E (JStr uri) local_dir w)
        = Raise (ValueError ("Invalid S3 URI format: " ++ uri))
        /\ calls (snd (resolve_input_path E (JStr uri) local_dir w)) = calls w
    | Some (bucket, key) =>
        let local_path := PyStr.join local_dir (PyStr.basename key) in
        (forall msg,
            fst (resolve_input_path E (JStr uri) local_dir w)
            <> Raise (ValueError msg))
        /\ (forall c,
               can_makedirs local_dir (fs w) ->
               s3_refused E bucket key = false ->
               S3.lookup bucket key (s3 w) = Some c ->
               local_path <> local_dir ->
               Fs.lookup local_path (fs w) <> Some Dir ->
               PyStr.endswith "/" local_path = false ->
               exists w',
                 resolve_input_path E (JStr uri) local_dir w = (Ret local_path, w')
                 /\ Fs.lookup local_path (fs w') = Some (File c)
                 /\ s3 w' = s3 w)
    end.
Proof.
  intros Hc Hp.
  destruct (PyStr.partition "/" (PyStr.replace "s3://" "" uri)) as [[bucket key]|] eqn:Hs.
  - split.
    + intros msg. eapply resolve_slash_not_format_error; eassumption.
    + intros c. apply resolve_slash_staged; assumption.
  - rewrite (resolve_no_slash E w uri local_dir Hc Hp Hs). split; reflexivity.
Qed.

Lemma resolve_remote_reference_witness :
    exists w',
      resolve_input_path Demo.engine (JStr "s3://b/a.wav") "/app/inputs" Demo.start
      = (Ret "/app/inputs/a.wav", w')
      /\ Fs.lookup "/app/inputs/a.wav" (fs w') = Some (File None)
      /\ s3 w' = s3 Demo.start.
Proof.
  pose proof (resolve_remote_reference Demo.engine Demo.start "s3://b/a.wav"
                                       "/app/inputs" eq_refl eq_refl) as H.
  simpl in H. destruct H as [_ H]. apply (H None).
  - split; [discriminate | right; reflexivity].
  - reflexivity.
  - reflexivity.
  - discriminate.
  - discriminate.
  - reflexivity.
Defined.

(** C5 as stated fails: a reference with two path segments after the
    bucket is not rejected; the object is fetched and its staging path
    returned. *)
Lemma resolve_accepts_nested_key :
    fst (resolve_input_path Demo.engine (JStr "s3://b/dir/a.wav") "/app/inputs"
                            Demo.start)
    = Ret "/app/inputs/a.wav"
    /\ ~ (exists msg,
             fst (resolve_input_path Demo.engine (JStr "s3://b/dir/a.wav")
                                     "/app/inputs" Demo.start)
             = Raise (ValueError msg)).
Proof.
  split; [reflexivity|]. intros [msg H]. vm_compute in H. discriminate.
Qed.

(* ------------------------------------------------------------------ *)
(** ** The artifact publisher *)

Module S3Facts.

Lemma object_lookup_app (b k : string) (o o' : list ((string * string) * option json)) :
  S3.lookup b k (o ++ o')%list
  = match S3.lookup b k o with Some c => Some c | None => S3.lookup b k o' end.
Proof.
  induction o as [|e o IH]; simpl; [reflexivity|].
  destruct (S3.same_object b k e); [reflexivity | exact IH].
Qed.

Lemma object_lookup_put_eq (b k : string) (c : option json)
      (o : list ((string * string) * option json)) :
  S3.lookup b k (S3.put b k c o) = Some c.
Proof.
  unfold S3.put. rewrite object_lookup_app.
  assert (H : S3.lookup b k (filter (fun e => negb (S3.same_object b k e)) o) = None).
  { induction o as [|e o IH]; simpl; [reflexivity|].
    destruct (S3.same_object b k e) eqn:He; simpl; [exact IH|].
    rewrite He. exact IH. }
  rewrite H. simpl. unfold S3.same_object. simpl.
  rewrite !String.eqb_refl. reflexivity.
Qed.

End S3Facts.

Section PublisherProps.

Variable E : env.

(** The bucket and the key [upload_output] computes for a storage
    destination. *)
Lemma upload_remote_ok (w : world) (local_path t : string) (c : option json) :
    s3_client E = true ->
    PyStr.startswith "s3://" t = true ->
    Fs.lookup local_path (fs w) = Some (File c) ->
    s3_refused E (upload_bucket t) (upload_key t local_path) = false ->
    upload_output E local_path (JStr t) w
    = (Ret (presigned_url E (upload_bucket t) (upload_key t local_path) 3600),
       mkWorld (clock w) (fs w)
               (S3.put (upload_bucket t) (upload_key t local_path) c (s3 w))
               (log w ++ [Log INFO "Uploading {} to s3://{}/{}"
                              [JStr local_path; JStr (upload_bucket t);
                               JStr (upload_key t local_path)]])%list
               ((calls w ++ [S3Upload local_path (upload_bucket t)
                                      (upload_key t local_path)])
                  ++ [S3Presign (upload_bucket t)
                                (upload_key t local_path) 3600])%list
               (polls w)).
Proof.
  intros Hc Hp Hf Href.
  unfold upload_output, try_except, bind, lift. simpl.
  rewrite Hp, Hc. simpl.
  unfold upload_bucket, upload_key, upload_prefix in *.
  unfold PyStr.split1 in *.
  destruct (PyStr.partition "/" (PyStr.replace "s3://" "" t)) as [[b pre]|] eqn:Hs;
    simpl in *; run; simpl; rewrite Hf, Href; simpl; reflexivity.
Qed.


(** A destination that is not taken for a storage reference is a local
    directory: it is made if absent and the file is renamed into it. *)
Lemma upload_local_ok (w : world) (local_path t : string) (c : option json) :
    PyStr.startswith "s3://" t && s3_client E = false ->
    Fs.lookup local_path (fs w) = Some (File c) ->
    can_makedirs t (fs w) ->
    PyStr.join t (PyStr.basename local_path) <> local_path ->
    PyStr.join t (PyStr.basename local_path) <> t ->
    Fs.lookup (PyStr.join t (PyStr.basename local_path)) (fs w) <> Some Dir ->
    exists w',
      upload_output E local_path (JStr t) w
      = (Ret (PyStr.join t (PyStr.basename local_path)), w')
      /\ Fs.lookup local_path (fs w') = None
      /\ Fs.lookup (PyStr.join t (PyStr.basename local_path)) (fs w') = Some (File c)
      /\ Fs.lookup t (fs w') = Some Dir
      /\ s3 w' = s3 w
      /\ calls w' = ((calls w ++ [FsMakedirs t])
                       ++ [FsRename local_path
                                    (PyStr.join t (PyStr.basename local_path))])%list.
Proof.
  intros Hb Hf [Hnonempty Hdir] Hne Hnt Hnd.
  set (out := PyStr.join t (PyStr.basename local_path)) in *.
  assert (Hlt : local_path <> t).
  { intros ->. destruct Hdir as [H|H]; congruence. }
  unfold upload_output, try_except, bind, lift. simpl.
  rewrite Hb. fold out. run. simpl.
  apply String.eqb_neq in Hnonempty. rewrite Hnonempty.
  assert (Hlo : (local_path =? out)%string = false)
    by (apply String.eqb_neq; congruence).
  destruct Hdir as [Hdir|Hdir]; rewrite Hdir; simpl.
  - rewrite Hf, Hlo.
    destruct (Fs.lookup out (fs w)) as [[|d]|] eqn:Hout; [congruence| |];
      simpl; eexists; (split; [reflexivity|]); simpl;
      (repeat split;
       [ rewrite FsFacts.lookup_write_neq by congruence;
         apply FsFacts.lookup_remove_eq
       | apply FsFacts.lookup_write_eq
       | rewrite FsFacts.lookup_write_neq by congruence;
         rewrite FsFacts.lookup_remove_neq by congruence; exact Hdir ]).
  - rewrite FsFacts.lookup_app, Hf, Hlo. rewrite FsFacts.lookup_app. simpl.
    assert (Hot : (out =? t)%string = false) by (apply String.eqb_neq; exact Hnt).
    rewrite Hot.
    destruct (Fs.lookup out (fs w)) as [[|d]|] eqn:Hout; [congruence| |];
      simpl; eexists; (split; [reflexivity|]); simpl;
      (repeat split;
       [ rewrite FsFacts.lookup_write_neq by congruence;
         apply FsFacts.lookup_remove_eq
       | apply FsFacts.lookup_write_eq
       | rewrite FsFacts.lookup_write_neq by congruence;
         rewrite FsFacts.lookup_remove_neq by congruence;
         rewrite FsFacts.lookup_app, Hdir; simpl;
         rewrite String.eqb_refl; reflexivity ]).
Qed.

End PublisherProps.

Section LocalResolution.

Variable E : env.

(** A reference that is not taken for a storage reference is a local
    path: it is returned unchanged when it exists and reported missing
    otherwise; only the existence test touches the surroundings. *)
Lemma resolve_local_path (w : world) (uri local_dir : string) :
    PyStr.startswith "s3://" uri && s3_client E = false ->
    resolve_input_path E (JStr uri) local_dir w
    = match Fs.lookup uri (fs w) with
      | Some _ =>
          (Ret uri,
           mkWorld (clock w) (fs w) (s3 w) (log w)
                   (calls w ++ [FsExists uri])%list (polls w))
      | None =>
          (Raise (FileNotFoundError ("Input file not found: " ++ uri)),
           mkWorld (clock w) (fs w) (s3 w)
                   (log w ++ [Log ERROR "Error resolving input path {}: {}"
                                  [JStr uri;
                                   JStr ("Input file not found: " ++ uri)]])%list
                   (calls w ++ [FsExists uri])%list (polls w))
      end.
Proof.
  intros Hb.
  unfold resolve_input_path, try_except, bind, lift. simpl.
  rewrite Hb. run. simpl.
  destruct (Fs.lookup uri (fs w)); reflexivity.
Qed.

End LocalResolution.

(** C7.  For a storage destination the key is [prefix/basename(local_path)],
    or the basename alone when nothing follows the bucket; the file is
    uploaded under that key and the URL returned is the one signed for that
    bucket and key with a validity of 3600. *)
Theorem publish_remote_key_and_url
        (E : env) (w : world) (local_path t : string) (c : option json) :
    s3_client E = true ->
    PyStr.startswith "s3://" t = true ->
    Fs.lookup local_path (fs w) = Some (File c) ->
    s3_refused E (upload_bucket t) (upload_key t local_path) = false ->
    exists bucket key w',
      match PyStr.partition "/" (PyStr.replace "s3://" "" t) with
      | Some (b, prefix) =>
          bucket = b
          /\ key = if String.eqb prefix "" then PyStr.basename local_path
                   else prefix ++ "/" ++ PyStr.basename local_path
      | None =>
          bucket = PyStr.replace "s3://" "" t /\ key = PyStr.basename local_path
      end
      /\ upload_output E local_path (JStr t) w
         = (Ret (presigned_url E bucket key 3600), w')
      /\ S3.lookup bucket key (s3 w') = Some c
      /\ calls w' = (calls w ++ [S3Upload local_path bucket key;
                                 S3Presign bucket key 3600])%list.
Proof.
  intros Hc Hp Hf Href.
  exists (upload_bucket t), (upload_key t local_path).
  eexists. split; [|split; [apply upload_remote_ok; eassumption|]].
  - unfold upload_bucket, upload_key, upload_prefix, PyStr.split1.
    destruct (PyStr.partition "/" (PyStr.replace "s3://" "" t)) as [[b pre]|];
      simpl; [|split; reflexivity].
    split; [reflexivity|]. destruct (String.eqb pre ""); reflexivity.
  - simpl. split; [apply S3Facts.object_lookup_put_eq|].
    rewrite <- app_assoc. reflexivity.
Qed.

Lemma publish_remote_key_and_url_witness :
    exists w',
      upload_output Demo.engine "/app/ComfyUI/output/result.png"
                    (JStr "s3://out/jobs/7") Demo.start
      = (Ret "https://out.s3.amazonaws.com/jobs/7/result.png?X-Amz-Expires=3600", w')
      /\ S3.lookup "out" "jobs/7/result.png" (s3 w') = Some None.
Proof.
  destruct (publish_remote_key_and_url
              Demo.engine Demo.start "/app/ComfyUI/output/result.png"
              "s3://out/jobs/7" None eq_refl eq_refl eq_refl eq_refl)
    as (bucket & key & w' & Hk & Hrun & Hobj & _).
  simpl in Hk. destruct Hk as [-> ->].
  exists w'. split; [exact Hrun | exact Hobj].
Defined.




(** C10.  When the storage client is unavailable, a reference that starts
    with [s3://] is handled as a local path.  The resolver looks the string
    up on disk and nowhere else: it reports the input as not found unless
    an entry of that very name exists, in which case the string is
    returned.  The publisher makes a directory named by the string and
    renames the file into it, without any call to the store. *)
Theorem storage_client_unavailable
        (E : env) (w : world) (uri local_dir local_path : string)
        (c : option json) :
    s3_client E = false ->
    PyStr.startswith "s3://" uri = true ->
    (Fs.lookup uri (fs w) = None ->
     fst (resolve_input_path E (JStr uri) local_dir w)
     = Raise (FileNotFoundError ("Input file not found: " ++ uri)))
    /\ (Fs.lookup uri (fs w) <> None ->
        fst (resolve_input_path E (JStr uri) local_dir w) = Ret uri)
    /\ calls (snd (resolve_input_path E (JStr uri) local_dir w))
       = (calls w ++ [FsExists uri])%list
    /\ (Fs.lookup local_path (fs w) = Some (File c) ->
        can_makedirs uri (fs w) ->
        PyStr.join uri (PyStr.basename local_path) <> local_path ->
        PyStr.join uri (PyStr.basename local_path) <> uri ->
        Fs.lookup (PyStr.join uri (PyStr.basename local_path)) (fs w) <> Some Dir ->
        exists w',
          upload_output E local_path (JStr uri) w
          = (Ret (PyStr.join uri (PyStr.basename local_path)), w')
          /\ Fs.lookup uri (fs w') = Some Dir
          /\ Fs.lookup (PyStr.join uri (PyStr.basename local_path)) (fs w')
             = Some (File c)
          /\ Fs.lookup local_path (fs w') = None
          /\ s3 w' = s3 w
          /\ calls w' = (calls w ++ [FsMakedirs uri;
                                     FsRename local_path
                                       (PyStr.join uri (PyStr.basename local_path))])%list).
Proof.
  intros Hc Hp.
  assert (Hb : PyStr.startswith "s3://" uri && s3_client E = false)
    by (rewrite Hc; apply andb_false_r).
  rewrite (resolve_local_path E w uri local_dir Hb).
  repeat split.
  - intros ->. reflexivity.
  - destruct (Fs.lookup uri (fs w)); [reflexivity | congruence].
  - destruct (Fs.lookup uri (fs w)); reflexivity.
  - intros Hf Hdir Hne Hnt Hnd.
    destruct (upload_local_ok E w local_path uri c Hb Hf Hdir Hne Hnt Hnd)
      as (w' & Hrun & Hsrc & Hdst & Ht & Hs3 & Hcalls).
    exists w'. rewrite <- app_assoc in Hcalls. repeat split; assumption.
Qed.

Lemma storage_client_unavailable_witness :
    fst (resolve_input_path Demo.engine_without_store (JStr "s3://b/a.wav")
                            "/app/inputs" Demo.start)
    = Raise (FileNotFoundError "Input file not found: s3://b/a.wav")
    /\ exists w',
         upload_output Demo.engine_without_store "/app/ComfyUI/output/result.png"
                       (JStr "s3://out/") Demo.start
         = (Ret "s3://out/result.png", w')
         /\ Fs.lookup "s3://out/" (fs w') = Some Dir
         /\ Fs.lookup "s3://out/result.png" (fs w') = Some (File None).
Proof.
  split.
  - destruct (storage_client_unavailable
                Demo.engine_without_store Demo.start "s3://b/a.wav" "/app/inputs"
                "/app/ComfyUI/output/result.png" None eq_refl eq_refl)
      as (H & _).
    apply H. reflexivity.
  - destruct (storage_client_unavailable
                Demo.engine_without_store Demo.start "s3://out/" "/app/inputs"
                "/app/ComfyUI/output/result.png" None eq_refl eq_refl)
      as (_ & _ & _ & H).
    destruct H as (w' & Hrun & Ht & Hdst & _).
    + reflexivity.
    + split; [discriminate | right; reflexivity].
    + discriminate.
    + discriminate.
    + discriminate.
    + exists w'. repeat split; assumption.
Defined.

(* ------------------------------------------------------------------ *)
(** ** The workflow submitter *)

(** C9.  Whatever the workflow, the submission fails with the transport
    error when the engine cannot be reached or answers with an error
    status; it fails with the [ValueError] "No prompt_id in ComfyUI
    response", which is not a transport error, when the engine answers
    with success and the answer holds no job identifier (none, or a falsy
    one); and it returns the identifier when the answer carries one. *)
Theorem submit_outcomes (E : env) (w : world) (workflow : json) :
    match prompt_reply E workflow with
    | NoReply e => fst (submit_workflow E workflow w) = Raise e
    | Reply status reason body =>
        if (400 <=? status) && (status <? 600) then
          exists e,
            fst (submit_workflow E workflow w) = Raise e
            /\ e = HTTPError status (str_exn e)
            /\ is_transport_error e = true
        else
          match body with
          | Some (JObj fields) =>
              match Py.lookup "prompt_id" fields with
              | Some (JStr s) =>
                  if String.eqb s "" then
                    fst (submit_workflow E workflow w)
                    = Raise (ValueError "No prompt_id in ComfyUI response")
                  else fst (submit_workflow E workflow w) = Ret s
              | Some v =>
                  Py.truthy v = false ->
                  fst (submit_workflow E workflow w)
                  = Raise (ValueError "No prompt_id in ComfyUI response")
              | None =>
                  fst (submit_workflow E workflow w)
                  = Raise (ValueError "No prompt_id in ComfyUI response")
              end
          | Some _ =>
              exists e,
                fst (submit_workflow E workflow w) = Raise e
                /\ is_transport_error e = false
          | None =>
              exists e,
                fst (submit_workflow E workflow w) = Raise e
                /\ is_transport_error e = false
          end
    end
    /\ is_transport_error (ValueError "No prompt_id in ComfyUI response") = false.
Proof.
  split; [|reflexivity].
  unfold submit_workflow, checked_json, raise_for_status.
  destruct (prompt_reply E workflow) as [e|status reason body]; [reflexivity|].
  destruct ((400 <=? status) && (status <? 500)) eqn:H4.
  - assert (H : (400 <=? status) && (status <? 600) = true).
    { apply andb_true_iff in H4. destruct H4 as [Ha Hb].
      apply andb_true_iff. split; [exact Ha|]. apply Z.ltb_lt in Hb. apply Z.ltb_lt. lia. }
    rewrite H. eexists. run. simpl.
    split; [reflexivity|]. split; reflexivity.
  - destruct ((500 <=? status) && (status <? 600)) eqn:H5.
    + assert (H : (400 <=? status) && (status <? 600) = true).
      { apply andb_true_iff in H5. destruct H5 as [Ha Hb].
        apply andb_true_iff. split; [|exact Hb]. apply Z.leb_le in Ha. apply Z.leb_le. lia. }
      rewrite H. eexists. run. simpl.
      split; [reflexivity|]. split; reflexivity.
    + assert (H : (400 <=? status) && (status <? 600) = false).
      { apply andb_false_iff. apply andb_false_iff in H4. apply andb_false_iff in H5.
        destruct H4 as [Ha|Ha]; [left; exact Ha|].
        destruct H5 as [Hb|Hb]; [|right; exact Hb].
        apply Z.ltb_ge in Ha. apply Z.leb_gt in Hb. lia. }
      rewrite H. run. simpl.
      destruct body as [[| | | |items|fields]|]; simpl;
        try (eexists; split; reflexivity).
      destruct (Py.lookup "prompt_id" fields) as [[|b|n|s|l|l]|] eqn:Hl; simpl;
        try reflexivity; try (intros ->; reflexivity).
      destruct (String.eqb s ""); reflexivity.
Qed.

(* ------------------------------------------------------------------ *)
(** ** The completion poller *)

Section PollerProps.

Variable E : env.

(** One tick that finds the job finished returns its entry without
    sleeping. *)
Lemma poll_once_finished (w : world) (prompt_id : string) (poll_interval : Z)
      (entry : json) :
    finished_entry prompt_id (snd (history_reply E prompt_id (polls w))) = Some entry ->
    exists w',
      poll_once E prompt_id poll_interval w = (Ret (Some entry), w')
      /\ polls w' = S (polls w)
      /\ clock w' = clock w + Z.of_N (fst (history_reply E prompt_id (polls w))).
Proof.
  unfold finished_entry, reply_json, poll_once, get_history, checked_json,
    raise_for_status.
  intros H. run. simpl.
  destruct (snd (history_reply E prompt_id (polls w))) as [e|status reason [data|]];
    try discriminate.
  destruct ((400 <=? status) && (status <? 500)); simpl in H; [discriminate|].
  destruct ((500 <=? status) && (status <? 600)); simpl in H; [discriminate|].
  simpl.
  destruct (Py.contains prompt_id data) as [e|[|]]; try discriminate.
  destruct (Py.getitem data prompt_id) as [e|entry']; try discriminate.
  destruct (Py.contains "outputs" entry') as [e|[|]]; try discriminate.
  injection H as ->. simpl. eexists. split; [reflexivity|]. split; reflexivity.
Qed.

(** Any other tick, a failed query included, ends in the sleep. *)
Lemma poll_once_empty (w : world) (prompt_id : string) (poll_interval : Z) :
    0 <= poll_interval ->
    finished_entry prompt_id (snd (history_reply E prompt_id (polls w))) = None ->
    exists w',
      poll_once E prompt_id poll_interval w = (Ret None, w')
      /\ polls w' = S (polls w)
      /\ clock w' = clock w + Z.of_N (fst (history_reply E prompt_id (polls w)))
                    + poll_interval
      /\ fs w' = fs w /\ s3 w' = s3 w.
Proof.
  unfold finished_entry, reply_json, poll_once, get_history, checked_json,
    raise_for_status.
  intros Hpi H. run.
  assert (Hs : (poll_interval <? 0) = false) by (apply Z.ltb_ge; exact Hpi).
  rewrite Hs. simpl.
  destruct (snd (history_reply E prompt_id (polls w))) as [e|status reason [data|]];
    simpl; try (eexists; repeat split; reflexivity).
  - destruct ((400 <=? status) && (status <? 500)); simpl in *;
      [eexists; repeat split; reflexivity|].
    destruct ((500 <=? status) && (status <? 600)); simpl in *;
      [eexists; repeat split; reflexivity|].
    destruct (Py.contains prompt_id data) as [e|[|]]; simpl;
      try (eexists; repeat split; reflexivity).
    destruct (Py.getitem data prompt_id) as [e|entry']; simpl;
      try (eexists; repeat split; reflexivity).
    destruct (Py.contains "outputs" entry') as [e|[|]]; simpl; try discriminate;
      eexists; repeat split; reflexivity.
  - destruct ((400 <=? status) && (status <? 500)); simpl in *;
      [eexists; repeat split; reflexivity|].
    destruct ((500 <=? status) && (status <? 600)); simpl in *;
      eexists; repeat split; reflexivity.
Qed.

End PollerProps.

Section PollerLoop.

Variable E : env.
Variable prompt_id : string.
Variables poll_interval max_wait start_time : Z.

Let reply (n : nat) : http_reply := snd (history_reply E prompt_id n).

Lemma poll_loop_step (fuel : nat) (w : world) :
    poll_loop E (S fuel) prompt_id poll_interval max_wait start_time w
    = if clock w - start_time <? max_wait then
        match poll_once E prompt_id poll_interval w with
        | (Ret (Some entry), w') => (Ret entry, w')
        | (Ret None, w') =>
            poll_loop E fuel prompt_id poll_interval max_wait start_time w'
        | (Raise e, w') => (Raise e, w')
        | (Stuck, w') => (Stuck, w')
        end
      else (Raise (TimeoutError (timeout_message prompt_id max_wait)), w).
Proof.
  simpl. unfold bind, get_clock, raise, ret.
  destruct (clock w - start_time <? max_wait); [|reflexivity].
  destruct (poll_once E prompt_id poll_interval w) as [[[entry|]|e|] w'];
    reflexivity.
Qed.

(** With a positive sleep the loop ends within a bounded number of
    passes, in one of two ways: the timeout, raised no earlier than
    [max_wait] after [start_time] and only after ticks that did not find
    the job finished, or the entry of the first finished tick. *)
Lemma poll_loop_ends (k : nat) :
    0 < poll_interval ->
    forall (w : world) (fuel : nat),
      max_wait - (clock w - start_time) <= Z.of_nat k * poll_interval ->
      (S k <= fuel)%nat ->
      exists w',
        (poll_loop E fuel prompt_id poll_interval max_wait start_time w
         = (Raise (TimeoutError (timeout_message prompt_id max_wait)), w')
         /\ max_wait <= clock w' - start_time
         /\ (forall n, (polls w <= n < polls w')%nat ->
                       finished_entry prompt_id (reply n) = None))
        \/ (exists entry,
               poll_loop E fuel prompt_id poll_interval max_wait start_time w
               = (Ret entry, w')
               /\ (polls w < polls w')%nat
               /\ finished_entry prompt_id (reply (polls w' - 1)) = Some entry
               /\ (forall n, (polls w <= n < polls w' - 1)%nat ->
                             finished_entry prompt_id (reply n) = None)).
Proof.
  intros Hpi. induction k as [|k IH]; intros w fuel Hrem Hfuel.
  - destruct fuel as [|fuel]; [lia|]. rewrite poll_loop_step.
    assert (Hc : (clock w - start_time <? max_wait) = false)
      by (apply Z.ltb_ge; lia).
    rewrite Hc. exists w. left. repeat split; [lia|]. intros n Hn. lia.
  - destruct fuel as [|fuel]; [lia|]. rewrite poll_loop_step.
    destruct (clock w - start_time <? max_wait) eqn:Hc.
    + destruct (finished_entry prompt_id (reply (polls w))) as [entry|] eqn:Hf.
      * destruct (poll_once_finished E w prompt_id poll_interval entry Hf)
          as (w' & Hrun & Hpolls & _).
        rewrite Hrun. exists w'. right. exists entry.
        rewrite Hpolls. simpl. rewrite Nat.sub_0_r.
        repeat split; [lia | exact Hf |]. intros n Hn. lia.
      * destruct (poll_once_empty E w prompt_id poll_interval
                                  (Z.lt_le_incl _ _ Hpi) Hf)
          as (w1 & Hrun & Hpolls & Hclock & _).
        rewrite Hrun.
        destruct (IH w1 fuel) as (w' & [(Hloop & Hlate & Hnone)|(entry & Hloop & Hlt & Hdone & Hnone)]).
        { rewrite Hclock. lia. }
        { lia. }
        { exists w'. left. repeat split; [exact Hloop | exact Hlate |].
          intros n Hn. destruct (Nat.eq_dec n (polls w)) as [->|Hne];
            [exact Hf | apply Hnone; lia]. }
        { exists w'. right. exists entry.
          repeat split; [exact Hloop | lia | exact Hdone |].
          intros n Hn. destruct (Nat.eq_dec n (polls w)) as [->|Hne];
            [exact Hf | apply Hnone; lia]. }
    + exists w. left. repeat split; [apply Z.ltb_ge in Hc; lia|].
      intros n Hn. lia.
Qed.

End PollerLoop.

(** C2.  With a positive sleep, the wait ends within a bounded number of
    passes of the loop and in one of two ways only: it returns the entry of
    a status answer that holds the outputs of the job, or it raises the
    [TimeoutError], and then at least [max_wait] has passed since the call
    started.  When no status answer ever holds the outputs of the job, it
    is the [TimeoutError]. *)
Theorem wait_times_out
        (E : env) (prompt_id : string) (poll_interval max_wait : Z) (w : world) :
    0 < poll_interval ->
    exists N, forall fuel, (N <= fuel)%nat ->
      exists w',
        ((wait_for_completion E fuel prompt_id poll_interval max_wait w
          = (Raise (TimeoutError (timeout_message prompt_id max_wait)), w')
          /\ max_wait <= clock w' - clock w)
         \/ (exists entry n,
                wait_for_completion E fuel prompt_id poll_interval max_wait w
                = (Ret entry, w')
                /\ finished_entry prompt_id (snd (history_reply E prompt_id n))
                   = Some entry))
        /\ ((forall n,
                finished_entry prompt_id (snd (history_reply E prompt_id n)) = None) ->
            wait_for_completion E fuel prompt_id poll_interval max_wait w
            = (Raise (TimeoutError (timeout_message prompt_id max_wait)), w')
            /\ max_wait <= clock w' - clock w).
Proof.
  intros Hpi. exists (S (Z.to_nat max_wait)). intros fuel Hfuel.
  unfold wait_for_completion, bind, get_clock.
  destruct (poll_loop_ends E prompt_id poll_interval max_wait (clock w)
                           (Z.to_nat max_wait) Hpi w fuel)
    as (w' & [(Hloop & Hlate & Hnone)|(entry & Hloop & Hlt & Hdone & Hnone)]).
  - assert (Hk : Z.of_nat (Z.to_nat max_wait) = Z.max 0 max_wait) by lia.
    rewrite Hk. nia.
  - exact Hfuel.
  - exists w'. split; [left; split; assumption | intros _; split; assumption].
  - exists w'. split.
    + right. exists entry, (polls w' - 1)%nat. split; assumption.
    + intros Hnever. rewrite Hnever in Hdone. discriminate.
Qed.

Lemma wait_times_out_witness :
    exists N, forall fuel, (N <= fuel)%nat ->
      exists w',
        wait_for_completion DemoEngines.stalled fuel "p1" 2 300 Demo.start
        = (Raise (TimeoutError "Workflow p1 did not complete within 300 seconds"), w')
        /\ 300 <= clock w' - clock Demo.start.
Proof.
  destruct (wait_times_out DemoEngines.stalled "p1" 2 300 Demo.start)
    as (N & HN); [lia|].
  exists N. intros fuel Hfuel.
  destruct (HN fuel Hfuel) as (w' & _ & H).
  exists w'. apply H. intros n. reflexivity.
Defined.

Section TransientTolerance.

Variable E : env.
Variable prompt_id : string.
Variables poll_interval max_wait start_time : Z.

Lemma waited_nonneg (from n : nat) :
    0 <= poll_interval -> 0 <= waited E prompt_id poll_interval from n.
Proof.
  intros Hpi. revert from. induction n as [|n IH]; intros from; simpl; [lia|].
  specialize (IH (S from)). lia.
Qed.

Lemma query_failed_unfinished (r : http_reply) :
    query_failed r -> finished_entry prompt_id r = None.
Proof.
  unfold query_failed, finished_entry. intros ->. reflexivity.
Qed.

Lemma finished_entry_has_outputs (r : http_reply) (entry : json) :
    finished_entry prompt_id r = Some entry ->
    Py.contains "outputs" entry = inr true.
Proof.
  unfold finished_entry.
  destruct (reply_json r) as [data|]; [|discriminate].
  destruct (Py.contains prompt_id data) as [e|[|]]; try discriminate.
  destruct (Py.getitem data prompt_id) as [e|entry']; try discriminate.
  destruct (Py.contains "outputs" entry') as [e|[|]] eqn:Ho; try discriminate.
  intros H. injection H as <-. exact Ho.
Qed.

(** Unfinished ticks do not end the loop: it goes on to the first
    finished tick, provided that tick starts within the budget. *)
Lemma poll_loop_reaches (n : nat) (entry : json) :
    0 <= poll_interval ->
    forall (w : world) (fuel : nat),
      (forall i, (i < n)%nat ->
         finished_entry prompt_id
                        (snd (history_reply E prompt_id (polls w + i))) = None) ->
      finished_entry prompt_id (snd (history_reply E prompt_id (polls w + n)))
      = Some entry ->
      clock w - start_time + waited E prompt_id poll_interval (polls w) n < max_wait ->
      (S n <= fuel)%nat ->
      exists w',
        poll_loop E fuel prompt_id poll_interval max_wait start_time w
        = (Ret entry, w')
        /\ polls w' = S (polls w + n)
        /\ fs w' = fs w /\ s3 w' = s3 w.
Proof.
  intros Hpi. induction n as [|n IH]; intros w fuel Hnone Hdone Hbudget Hfuel.
  - destruct fuel as [|fuel]; [lia|]. rewrite poll_loop_step.
    simpl in Hbudget. rewrite Nat.add_0_r in Hdone.
    assert (Hc : (clock w - start_time <? max_wait) = true)
      by (apply Z.ltb_lt; lia).
    rewrite Hc.
    destruct (poll_once_finished E w prompt_id poll_interval entry Hdone)
      as (w' & Hrun & Hpolls & _).
    rewrite Hrun. exists w'. rewrite Nat.add_0_r.
    split; [reflexivity|]. split; [exact Hpolls|].
    revert Hrun. unfold poll_once, get_history, checked_json, raise_for_status.
    run. simpl. repeat (break_match; simpl); intros H; inversion H; subst;
      simpl; split; reflexivity.
  - destruct fuel as [|fuel]; [lia|]. rewrite poll_loop_step.
    simpl in Hbudget.
    pose proof (waited_nonneg (S (polls w)) n Hpi) as Hrest.
    assert (Hc : (clock w - start_time <? max_wait) = true)
      by (apply Z.ltb_lt; lia).
    rewrite Hc.
    assert (Hf : finished_entry prompt_id
                                (snd (history_reply E prompt_id (polls w))) = None).
    { specialize (Hnone 0%nat). rewrite Nat.add_0_r in Hnone. apply Hnone. lia. }
    destruct (poll_once_empty E w prompt_id poll_interval Hpi Hf)
      as (w1 & Hrun & Hpolls & Hclock & Hfs & Hs3).
    rewrite Hrun.
    destruct (IH w1 fuel) as (w' & Hloop & Hp & Hfs' & Hs3').
    + intros i Hi. rewrite Hpolls.
      replace (S (polls w) + i)%nat with (polls w + S i)%nat by lia.
      apply Hnone. lia.
    + rewrite Hpolls.
      replace (S (polls w) + n)%nat with (polls w + S n)%nat by lia.
      exact Hdone.
    + rewrite Hpolls, Hclock. lia.
    + lia.
    + exists w'. split; [exact Hloop|].
      split; [rewrite Hp, Hpolls; lia|].
      split; congruence.
Qed.

End TransientTolerance.

(** C3.  A failed status query does not end the wait.  When the ticks
    before the n-th one fail or find the job unfinished (at least one of
    them failing), and the n-th tick starts within the [max_wait] budget
    and finds the job finished, the wait returns the entry of that tick,
    which holds the outputs; the failure is not propagated. *)
Theorem transient_error_tolerated
        (E : env) (prompt_id : string) (poll_interval max_wait : Z) (w : world)
        (n j : nat) (entry : json) :
    0 <= poll_interval ->
    (j < n)%nat ->
    query_failed (snd (history_reply E prompt_id (polls w + j))) ->
    (forall i, (i < n)%nat ->
       query_failed (snd (history_reply E prompt_id (polls w + i)))
       \/ finished_entry prompt_id (snd (history_reply E prompt_id (polls w + i)))
          = None) ->
    finished_entry prompt_id (snd (history_reply E prompt_id (polls w + n)))
    = Some entry ->
    waited E prompt_id poll_interval (polls w) n < max_wait ->
    forall fuel, (S n <= fuel)%nat ->
      exists w',
        wait_for_completion E fuel prompt_id poll_interval max_wait w
        = (Ret entry, w')
        /\ Py.contains "outputs" entry = inr true.
Proof.
  intros Hpi Hj Hfail Hbefore Hdone Hbudget fuel Hfuel.
  unfold wait_for_completion, bind, get_clock.
  destruct (poll_loop_reaches E prompt_id poll_interval max_wait (clock w) n entry
                              Hpi w fuel)
    as (w' & Hloop & _).
  - intros i Hi. destruct (Hbefore i Hi) as [H|H]; [|exact H].
    apply query_failed_unfinished. exact H.
  - exact Hdone.
  - lia.
  - exact Hfuel.
  - exists w'. split; [exact Hloop|].
    eapply finished_entry_has_outputs. exact Hdone.
Qed.

Lemma transient_error_tolerated_witness :
    exists w',
      wait_for_completion DemoEngines.flaky 2 "p1" 2 300 Demo.start
      = (Ret DemoEngines.finished_job, w')
      /\ Py.contains "outputs" DemoEngines.finished_job = inr true.
Proof.
  apply (transient_error_tolerated DemoEngines.flaky "p1" 2 300 Demo.start 1 0).
  - lia.
  - lia.
  - reflexivity.
  - intros i Hi. left. assert (i = 0%nat) as -> by lia. reflexivity.
  - reflexivity.
  - vm_compute. reflexivity.
  - lia.
Defined.

(* ------------------------------------------------------------------ *)
(** ** The handler *)

(** C1 (amended).  A request object that lacks one of the four required
    fields is answered with status 400 and nothing but the log is touched:
    no file-system, store or engine call is made.  For a non-empty object
    the message names the first missing field, in the order audio_s3,
    transcript_s3, image_s3, output_s3_bucket; for the empty object the
    message is "No JSON data provided". *)
Theorem missing_field_rejected
        (E : env) (fuel : nat) (fields : list (string * json)) (w : world)
        (field : string) :
    missing_field fields = Some field ->
    predict E fuel (Some (JObj fields)) w
    = match fields with
      | [] => (Ret (JObj [("error", JStr "No JSON data provided")], 400), w)
      | _ :: _ =>
          (Ret (JObj [("error", JStr ("Missing required field: " ++ field))], 400),
           mkWorld (clock w) (fs w) (s3 w)
                   (log w ++ [Log INFO "Processing job {}" [job_id_of E fields]])%list
                   (calls w) (polls w))
      end.
Proof.
  intros Hm. destruct fields as [|kv fields]; [reflexivity|].
  remember (kv :: fields) as data eqn:Hdata.
  assert (Ht : Py.truthy (JObj data) = true) by (subst data; reflexivity).
  clear Hdata kv fields.
  unfold predict, process, job_id_of, missing_field in *.
  unfold try_except, bind, lift, get_json, ret.
  rewrite Ht. cbn [negb Py.get].
  unfold logger, required_fields, first_missing, bind, lift, ret, Py.contains.
  cbn [find] in Hm.
  destruct (Py.lookup "audio_s3" data);
    [|injection Hm as <-; reflexivity].
  destruct (Py.lookup "transcript_s3" data);
    [|injection Hm as <-; reflexivity].
  destruct (Py.lookup "image_s3" data);
    [|injection Hm as <-; reflexivity].
  destruct (Py.lookup "output_s3_bucket" data);
    [discriminate|injection Hm as <-; reflexivity].
Qed.

Lemma missing_field_rejected_witness :
    predict Demo.engine 0
            (Some (JObj [("audio_s3", JStr "s3://b/a.wav"); ("job_id", JStr "j7")]))
            Demo.start
    = (Ret (JObj [("error", JStr "Missing required field: transcript_s3")], 400),
       mkWorld 1000 Demo.disk Demo.bucket
               [Log INFO "Processing job {}" [JStr "j7"]] [] 0).
Proof.
  apply (missing_field_rejected
           Demo.engine 0
           [("audio_s3", JStr "s3://b/a.wav"); ("job_id", JStr "j7")]
           Demo.start "transcript_s3").
  reflexivity.
Defined.

(** C1 as stated fails: the empty request object lacks every required
    field, and the message of the 400 response names none of them. *)
Lemma empty_request_names_no_field :
    missing_field [] = Some "audio_s3"
    /\ predict Demo.engine 0 (Some (JObj [])) Demo.start
       = (Ret (JObj [("error", JStr "No JSON data provided")], 400), Demo.start)
    /\ forall field, In field required_fields ->
         PyStr.contains field "No JSON data provided" = false.
Proof.
  split; [reflexivity|]. split; [reflexivity|].
  intros field [<-|[<-|[<-|[<-|[]]]]]; reflexivity.
Qed.

(** C4 (amended).  When the canonical template is absent and the workflow
    directory lists at least one name ending in [.json], the handler takes
    the first such name in the order the directory lists them (the listing
    is not sorted), records a warning and goes on with that template; it
    answers "No workflow files found" only when the listing holds no such
    name.  When the canonical template exists it is the one used. *)
Theorem select_workflow_fallback (w : world) :
    (Fs.lookup canonical_workflow (fs w) <> None ->
     fst (select_workflow w) = Ret (Some canonical_workflow))
    /\ (Fs.lookup canonical_workflow (fs w) = None ->
        Fs.lookup workflows_dir (fs w) = Some Dir ->
        match filter (PyStr.endswith ".json") (Fs.children workflows_dir (fs w)) with
        | first :: _ =>
            select_workflow w
            = (Ret (Some (PyStr.join workflows_dir first)),
               mkWorld (clock w) (fs w) (s3 w)
                       (log w ++ [Log WARNING "Using fallback workflow: {}"
                                      [JStr (PyStr.join workflows_dir first)]])%list
                       ((calls w ++ [FsExists canonical_workflow])
                          ++ [FsListdir workflows_dir])%list
                       (polls w))
        | [] => fst (select_workflow w) = Ret None
        end).
Proof.
  unfold select_workflow, canonical_workflow. split.
  - intros H. run. simpl.
    destruct (Fs.lookup "/app/ComfyUI/workflows/vibe_infinite.json" (fs w));
      [reflexivity | congruence].
  - intros Hc Hd. run. simpl. rewrite Hc. simpl. rewrite Hd.
    destruct (filter (PyStr.endswith ".json") (Fs.children workflows_dir (fs w)));
      reflexivity.
Qed.

Lemma select_workflow_fallback_witness :
    select_workflow Demo.start
    = (Ret (Some "/app/ComfyUI/workflows/b.json"),
       mkWorld 1000 Demo.disk Demo.bucket
               [Log WARNING "Using fallback workflow: {}"
                    [JStr "/app/ComfyUI/workflows/b.json"]]
               [FsExists canonical_workflow; FsListdir workflows_dir] 0).
Proof.
  destruct (select_workflow_fallback Demo.start) as [_ H].
  apply (H eq_refl eq_refl).
Defined.

(** C4 as stated fails: with the alternates listed as [b.json], [a.json],
    the handler opens [b.json], the first listed, and not [a.json], the
    first in sorted order. *)
Lemma fallback_is_first_listed_not_first_sorted :
    let request :=
      Some (JObj [("audio_s3", JStr "s3://b/a.wav");
                  ("transcript_s3", JStr "s3://b/t.txt");
                  ("image_s3", JStr "s3://b/i.png");
                  ("output_s3_bucket", JStr "s3://out/")]) in
    first_sorted (filter (PyStr.endswith ".json")
                         (Fs.children workflows_dir (fs Demo.start)))
    = Some "a.json"
    /\ In (FsOpen "/app/ComfyUI/workflows/b.json")
          (calls (snd (predict Demo.engine 2 request Demo.start)))
    /\ ~ In (FsOpen "/app/ComfyUI/workflows/a.json")
            (calls (snd (predict Demo.engine 2 request Demo.start))).
Proof.
  split; [reflexivity|]. split.
  - vm_compute. tauto.
  - vm_compute. intros H.
    repeat (destruct H as [H|H]; [discriminate|]). exact H.
Qed.

Section ResponseShape.

Variable E : env.

Lemma failed_returns (job_id : json) (e : exn) (w : world) :
    exists w',
      failed job_id e w
      = (Ret (JObj [("job_id", job_id); ("status", JStr "FAILED");
                    ("error", JStr (str_exn e)); ("timestamp", JNum (clock w))],
              500), w').
Proof.
  unfold failed. run. simpl. eexists. reflexivity.
Qed.

Lemma process_shape (fuel : nat) (job_id data : json) (w : world) :
    forall r w', process E fuel job_id data w = (Ret r, w') -> response_shape r.
Proof.
  intros r w'. unfold process, bind, ret.
  repeat (break_match; try discriminate);
    intros H; inversion H; subst; constructor.
Qed.

Lemma try_except_ret {A : Type} (m : M A) (h : exn -> M A) (w w' : world) (r : A) :
    try_except m h w = (Ret r, w') ->
    m w = (Ret r, w')
    \/ exists e w1, m w = (Raise e, w1) /\ h e w1 = (Ret r, w').
Proof.
  unfold try_except. destruct (m w) as [[a|e|] w1]; intros H.
  - left. exact H.
  - right. exists e, w1. split; [reflexivity | exact H].
  - discriminate.
Qed.

Lemma try_except_failed_never_raises (m : M (json * Z)) (job_id : json)
      (w : world) :
    forall e w', try_except m (failed job_id) w <> (Raise e, w').
Proof.
  intros e w'. unfold try_except. destruct (m w) as [[a|e1|] w1]; discriminate.
Qed.

Lemma failed_shape (job_id : json) (e : exn) (w w' : world) (r : json * Z) :
    failed job_id e w = (Ret r, w') -> response_shape r.
Proof.
  destruct (failed_returns job_id e w) as (w2 & ->).
  intros H. inversion H; subst. constructor.
Qed.

Lemma predict_shape (fuel : nat) (request : option json) (w : world) :
    (forall e w', predict E fuel request w <> (Raise e, w'))
    /\ (forall r w', predict E fuel request w = (Ret r, w') -> response_shape r).
Proof.
  unfold predict. split.
  - apply try_except_failed_never_raises.
  - intros r w' H. apply try_except_ret in H.
    destruct H as [H|(e & w1 & _ & H)]; [|eapply failed_shape; exact H].
    revert H. unfold bind, get_json, lift, ret, raise.
    destruct request as [data|]; [|discriminate].
    destruct (negb (Py.truthy data));
      [intros H; inversion H; subst; constructor|].
    destruct (Py.get data "job_id") as [e|got]; [discriminate|].
    intros H. apply try_except_ret in H.
    destruct H as [H|(e & w1 & _ & H)]; [|eapply failed_shape; exact H].
    eapply process_shape. exact H.
Qed.

End ResponseShape.

(* ------------------------------------------------------------------ *)
(** ** The handler always answers *)

Section Totality.

Variable E : env.

Lemma total_ret {A : Type} (a : A) : total (ret a).
Proof. intros w. discriminate. Qed.

Lemma total_raise {A : Type} (e : exn) : total (@raise A e).
Proof. intros w. discriminate. Qed.

Lemma total_lift {A : Type} (r : exn + A) : total (lift r).
Proof. destruct r; intros w; discriminate. Qed.

Lemma total_bind {A B : Type} (m : M A) (k : A -> M B) :
    total m -> (forall a, total (k a)) -> total (bind m k).
Proof.
  intros Hm Hk w. unfold bind. specialize (Hm w).
  destruct (m w) as [[a|e|] w1]; simpl in *;
    [apply Hk | discriminate | congruence].
Qed.

Lemma total_try_except {A : Type} (m : M A) (h : exn -> M A) :
    total m -> (forall e, total (h e)) -> total (try_except m h).
Proof.
  intros Hm Hh w. unfold try_except. specialize (Hm w).
  destruct (m w) as [[a|e|] w1]; simpl in *;
    [discriminate | apply Hh | congruence].
Qed.

Lemma total_if {A : Type} (b : bool) (m1 m2 : M A) :
    total m1 -> total m2 -> total (if b then m1 else m2).
Proof. destruct b; auto. Qed.

Ltac total_primitive :=
  intros w; run; simpl; repeat (break_match; simpl); discriminate.

Lemma total_logger (lvl : level) (t : string) (args : list json) :
    total (logger lvl t args).
Proof. total_primitive. Qed.

Lemma total_logger_traceback (e : exn) : total (logger_traceback e).
Proof. total_primitive. Qed.

Lemma total_get_clock : total get_clock.
Proof. total_primitive. Qed.

Lemma total_sleep (d : Z) : total (sleep d).
Proof. unfold sleep. total_primitive. Qed.

Lemma total_exists (p : string) : total (Fs.exists_ p).
Proof. total_primitive. Qed.

Lemma total_makedirs (p : string) : total (Fs.makedirs p).
Proof. total_primitive. Qed.

Lemma total_rename (p q : string) : total (Fs.rename p q).
Proof. total_primitive. Qed.

Lemma total_listdir (p : string) : total (Fs.listdir p).
Proof. total_primitive. Qed.

Lemma total_load_json (p : string) : total (Fs.load_json p).
Proof. total_primitive. Qed.

Lemma total_download (b k p : string) : total (S3.download_file E b k p).
Proof. total_primitive. Qed.

Lemma total_upload (p b k : string) : total (S3.upload_file E p b k).
Proof. total_primitive. Qed.

Lemma total_presign (b k : string) (t : Z) :
    total (S3.generate_presigned_url E b k t).
Proof. total_primitive. Qed.

Create HintDb total.

#[local] Hint Resolve total_ret total_raise total_lift total_logger
     total_logger_traceback total_get_clock
     total_sleep total_exists total_makedirs total_rename total_listdir
     total_load_json total_download total_upload total_presign : total.

Ltac total_steps :=
  repeat first
    [ solve [auto with total]
    | lazymatch goal with
      | |- total (try_except _ _) => apply total_try_except; [|intros ?]
      | |- total (bind _ _) => apply total_bind; [|intros ?]
      | |- total (if _ then _ else _) => apply total_if
      | |- total (match ?x with _ => _ end) => destruct x
      | |- total (let _ := _ in _) => cbv zeta
      end ].

Lemma total_resolve_input_path (uri : json) (local_dir : string) :
    total (resolve_input_path E uri local_dir).
Proof. unfold resolve_input_path. total_steps. Qed.

Lemma total_upload_output (local_path : string) (target : json) :
    total (upload_output E local_path target).
Proof. unfold upload_output. total_steps. Qed.

Lemma total_for_each {A B : Type} (l : list A) (body : A -> B -> M B) :
    (forall x acc, total (body x acc)) -> forall acc, total (for_each l body acc).
Proof.
  intros Hbody. induction l as [|x l IH]; intros acc; simpl.
  - apply total_ret.
  - apply total_bind; [apply Hbody | exact IH].
Qed.

Lemma total_collect_item (target : json) (output_type : string)
      (item : json) (outputs : list json) :
    total (collect_item E target output_type item outputs).
Proof.
  unfold collect_item.
  pose proof total_upload_output as Hup.
  total_steps.
Qed.

Lemma total_collect_outputs (target result : json) :
    total (collect_outputs E target result).
Proof.
  unfold collect_outputs.
  apply total_bind; [auto with total|intros got].
  apply total_bind; [auto with total|intros nodes].
  apply total_for_each. intros node outputs.
  apply total_for_each. intros output_type outputs'.
  apply total_bind; [auto with total|intros got'].
  apply total_bind; [auto with total|intros items].
  apply total_for_each. intros item acc. apply total_collect_item.
Qed.

Lemma total_select_workflow : total select_workflow.
Proof. unfold select_workflow. total_steps. Qed.

Lemma total_first_missing (fields : list string) (data : json) :
    total (first_missing fields data).
Proof.
  induction fields as [|f fields IH]; simpl; [apply total_ret|].
  apply total_bind; [auto with total|intros present].
  apply total_if; [apply total_ret | exact IH].
Qed.

Lemma total_failed (job_id : json) (e : exn) : total (failed job_id e).
Proof. unfold failed. total_steps. Qed.

End Totality.

Section HandlerTotality.

Variable E : env.

Lemma total_submit_workflow (workflow : json) :
    string_ids E -> total (submit_workflow E workflow).
Proof.
  intros Hids w. unfold submit_workflow, checked_json, raise_for_status.
  destruct (prompt_reply E workflow) as [e|status reason body] eqn:Hreply;
    [run; simpl; discriminate|].
  run. simpl.
  destruct ((400 <=? status) && (status <? 500)); [simpl; discriminate|].
  destruct ((500 <=? status) && (status <? 600)); [simpl; discriminate|].
  simpl.
  destruct body as [[| | | |items|fields]|]; simpl; try discriminate.
  destruct (Py.lookup "prompt_id" fields) as [v|] eqn:Hl; simpl;
    [|discriminate].
  destruct (Py.truthy v) eqn:Ht; simpl; [|discriminate].
  destruct (Hids workflow status reason fields v Hreply Hl Ht) as [s ->].
  simpl. discriminate.
Qed.

Lemma total_wait_for_completion
      (fuel : nat) (prompt_id : string) (poll_interval max_wait : Z) :
    0 < poll_interval ->
    (S (Z.to_nat max_wait) <= fuel)%nat ->
    total (wait_for_completion E fuel prompt_id poll_interval max_wait).
Proof.
  intros Hpi Hfuel w.
  destruct (wait_times_out E prompt_id poll_interval max_wait w Hpi)
    as (N & HN).
  unfold wait_for_completion, bind, get_clock.
  destruct (poll_loop_ends E prompt_id poll_interval max_wait (clock w)
                           (Z.to_nat max_wait) Hpi w fuel)
    as (w' & [(Hloop & _)|(entry & Hloop & _)]).
  - assert (Hk : Z.of_nat (Z.to_nat max_wait) = Z.max 0 max_wait) by lia.
    rewrite Hk. nia.
  - exact Hfuel.
  - rewrite Hloop. discriminate.
  - rewrite Hloop. discriminate.
Qed.

Lemma total_process (fuel : nat) (job_id data : json) :
    string_ids E -> (301 <= fuel)%nat -> total (process E fuel job_id data).
Proof.
  intros Hids Hfuel. unfold process.
  apply total_bind; [apply total_logger|intros _].
  apply total_bind; [apply total_first_missing|intros missing].
  destruct missing as [field|]; [apply total_ret|].
  apply total_bind; [apply total_lift|intros audio_s3].
  apply total_bind; [apply total_resolve_input_path|intros audio_path].
  apply total_bind; [apply total_lift|intros transcript_s3].
  apply total_bind; [apply total_resolve_input_path|intros transcript_path].
  apply total_bind; [apply total_lift|intros image_s3].
  apply total_bind; [apply total_resolve_input_path|intros image_path].
  apply total_bind; [apply total_select_workflow|intros selected].
  destruct selected as [workflow_path|]; [|apply total_ret].
  apply total_bind; [apply total_load_json|intros workflow].
  apply total_bind; [apply total_lift|intros workflow'].
  apply total_bind; [apply total_submit_workflow; exact Hids|intros prompt_id].
  apply total_bind;
    [apply total_wait_for_completion; [lia | exact Hfuel]|intros result].
  apply total_bind; [apply total_lift|intros target].
  apply total_bind; [apply total_collect_outputs|intros outputs].
  apply total_bind; [apply total_get_clock|intros now].
  apply total_ret.
Qed.

Lemma total_predict (fuel : nat) (request : option json) :
    string_ids E -> (301 <= fuel)%nat -> total (predict E fuel request).
Proof.
  intros Hids Hfuel. unfold predict.
  apply total_try_except; [|intros e; apply total_failed].
  apply total_bind.
  - unfold get_json. destruct request; [apply total_ret | apply total_raise].
  - intros data. apply total_if; [apply total_ret|].
    apply total_bind; [apply total_lift|intros got].
    apply total_try_except; [|intros e; apply total_failed].
    apply total_process; assumption.
Qed.

End HandlerTotality.

(** C6 (amended).  The handler never lets an exception escape, and every
    response it gives has one of four forms: the bare [{error}] with status
    400 of a rejected request; the bare [{error}] with status 500 when no
    workflow file is found; [{job_id, status, prompt_id, outputs,
    timestamp}] with status COMPLETED and HTTP 200; [{job_id, status, error,
    timestamp}] with status FAILED and HTTP 500.  With an engine that names
    jobs by strings, the handler gives a response for every request. *)
Theorem response_shapes (E : env) (fuel : nat) (request : option json) (w : world) :
    (forall e w', predict E fuel request w <> (Raise e, w'))
    /\ (forall r w', predict E fuel request w = (Ret r, w') -> response_shape r)
    /\ (string_ids E -> (301 <= fuel)%nat ->
        exists r w', predict E fuel request w = (Ret r, w') /\ response_shape r).
Proof.
  destruct (predict_shape E fuel request w) as [Hraise Hshape].
  split; [exact Hraise|]. split; [exact Hshape|].
  intros Hids Hfuel.
  pose proof (total_predict E fuel request Hids Hfuel w) as Htotal.
  destruct (predict E fuel request w) as [[r|e|] w'] eqn:Hp.
  - exists r, w'. split; [reflexivity | apply (Hshape r w'); reflexivity].
  - exfalso. apply (Hraise e w'). reflexivity.
  - exfalso. apply Htotal. reflexivity.
Qed.

Lemma demo_engine_string_ids : string_ids Demo.engine.
Proof.
  intros workflow status reason fields v Hreply Hl _.
  simpl in Hreply. injection Hreply as _ _ <-.
  simpl in Hl. injection Hl as <-. exists "p1". reflexivity.
Qed.

Lemma response_shapes_witness :
    exists r w',
      predict Demo.engine 301
              (Some (JObj [("audio_s3", JStr "s3://b/a.wav");
                           ("transcript_s3", JStr "s3://b/t.txt");
                           ("image_s3", JStr "s3://b/i.png");
                           ("output_s3_bucket", JStr "s3://out/")]))
              Demo.start
      = (Ret r, w')
      /\ response_shape r.
Proof.
  destruct (response_shapes
              Demo.engine 301
              (Some (JObj [("audio_s3", JStr "s3://b/a.wav");
                           ("transcript_s3", JStr "s3://b/t.txt");
                           ("image_s3", JStr "s3://b/i.png");
                           ("output_s3_bucket", JStr "s3://out/")]))
              Demo.start) as (_ & _ & H).
  apply H; [exact demo_engine_string_ids | lia].
Defined.

(** C6 as stated fails: the response to a request that lacks a required
    field holds the error message only; it has no job_id, no status and no
    timestamp. *)
Lemma rejected_response_has_no_status :
    exists body,
      fst (predict Demo.engine 0 (Some (JObj [("audio_s3", JStr "s3://b/a.wav")]))
                   Demo.start)
      = Ret (body, 400)
      /\ Py.get body "error" = inr (Some (JStr "Missing required field: transcript_s3"))
      /\ Py.get body "job_id" = inr None
      /\ Py.get body "status" = inr None
      /\ Py.get body "timestamp" = inr None.
Proof.
  eexists. split; [reflexivity|]. repeat split; reflexivity.
Qed.

Lemma submit_outcomes_witness :
    fst (submit_workflow Demo.engine Demo.template Demo.start) = Ret "p1".
Proof.
  destruct (submit_outcomes Demo.engine Demo.start Demo.template) as [H _].
  exact H.
Defined.

(* ================================================================== *)
(** * Further properties of the service *)

(* ------------------------------------------------------------------ *)
(** ** Local input references *)

(** X1.  A reference that does not start with [s3://] is a local path,
    whether or not the storage client is available: when the path exists
    it is returned unchanged and nothing but the existence test happens;
    when it does not, the call fails with [FileNotFoundError] naming the
    path, the failure is logged, and the file system and the store are
    left as they were. *)
Theorem resolve_local_reference (E : env) (w : world) (uri local_dir : string) :
    PyStr.startswith "s3://" uri = false ->
    (Fs.lookup uri (fs w) <> None ->
     resolve_input_path E (JStr uri) local_dir w
     = (Ret uri,
        mkWorld (clock w) (fs w) (s3 w) (log w)
                (calls w ++ [FsExists uri])%list (polls w)))
    /\ (Fs.lookup uri (fs w) = None ->
        exists w',
          resolve_input_path E (JStr uri) local_dir w
          = (Raise (FileNotFoundError ("Input file not found: " ++ uri)), w')
          /\ fs w' = fs w /\ s3 w' = s3 w
          /\ log w' = (log w ++ [Log ERROR "Error resolving input path {}: {}"
                                     [JStr uri;
                                      JStr ("Input file not found: " ++ uri)]])%list).
Proof.
  intros Hp.
  assert (Hb : PyStr.startswith "s3://" uri && s3_client E = false)
    by (rewrite Hp; reflexivity).
  rewrite (resolve_local_path E w uri local_dir Hb). split.
  - intros Hex. destruct (Fs.lookup uri (fs w)); [reflexivity | congruence].
  - intros ->. eexists. split; [reflexivity|]. repeat split.
Qed.

Lemma resolve_local_reference_witness :
    resolve_input_path Demo.engine (JStr "/app/ComfyUI/output/result.png")
                       "/app/inputs" Demo.start
    = (Ret "/app/ComfyUI/output/result.png",
       mkWorld 1000 Demo.disk Demo.bucket []
               [FsExists "/app/ComfyUI/output/result.png"] 0).
Proof.
  destruct (resolve_local_reference
              Demo.engine Demo.start "/app/ComfyUI/output/result.png"
              "/app/inputs" eq_refl) as [H _].
  apply H. discriminate.
Defined.

(** X2.  A reference that is not a string (the request may hold any JSON
    value) fails with [AttributeError] before any call to the file system
    or the store; the failure is logged and raised again. *)
Theorem resolve_non_string_reference (E : env) (w : world) (uri : json)
        (local_dir : string) :
    (forall s, uri <> JStr s) ->
    resolve_input_path E uri local_dir w
    = (Raise (AttributeError ("'" ++ Py_types.name uri
                                ++ "' object has no attribute 'startswith'")),
       mkWorld (clock w) (fs w) (s3 w)
               (log w ++ [Log ERROR "Error resolving input path {}: {}"
                              [uri;
                               JStr ("'" ++ Py_types.name uri
                                       ++ "' object has no attribute 'startswith'")]])%list
               (calls w) (polls w)).
Proof.
  intros Hns. unfold resolve_input_path.
  destruct uri as [|b|n|s|l|l]; try reflexivity.
  exfalso. apply (Hns s). reflexivity.
Qed.

Lemma resolve_non_string_reference_witness :
    fst (resolve_input_path Demo.engine (JNum 7) "/app/inputs" Demo.start)
    = Raise (AttributeError "'int' object has no attribute 'startswith'").
Proof.
  rewrite (resolve_non_string_reference Demo.engine Demo.start (JNum 7) "/app/inputs").
  - reflexivity.
  - discriminate.
Defined.

(* ------------------------------------------------------------------ *)
(** ** Names and references *)

Lemma slash_free_app (a b : string) :
    slash_free (a ++ b) = slash_free a && slash_free b.
Proof.
  induction a as [|c a IH]; simpl; [reflexivity|].
  rewrite IH. apply andb_assoc.
Qed.

Lemma basename_acc_slash_free (s acc : string) :
    slash_free acc = true -> slash_free (PyStr.basename_acc acc s) = true.
Proof.
  revert acc. induction s as [|c s IH]; intros acc Hacc; simpl; [exact Hacc|].
  destruct (Ascii.eqb c "/") eqn:Hc.
  - apply IH. reflexivity.
  - apply IH. rewrite slash_free_app, Hacc. simpl. rewrite Hc. reflexivity.
Qed.

Lemma basename_slash_free (p : string) : slash_free (PyStr.basename p) = true.
Proof. apply basename_acc_slash_free. reflexivity. Qed.

Lemma slash_free_not_absolute (s : string) :
    slash_free s = true -> PyStr.startswith "/" s = false.
Proof.
  destruct s as [|c s]; [reflexivity|]. intros H.
  unfold PyStr.startswith. cbn [String.prefix].
  destruct (Ascii.ascii_dec "/" c) as [Heq|Hne]; [|reflexivity].
  subst c. cbn [slash_free] in H. rewrite Ascii.eqb_refl in H. discriminate.
Qed.

Lemma join_slash_free (d name : string) :
    slash_free name = true ->
    PyStr.join d name = d ++ "/" ++ name
    \/ ((d = "" \/ PyStr.endswith "/" d = true) /\ PyStr.join d name = d ++ name).
Proof.
  intros Hn. unfold PyStr.join. rewrite (slash_free_not_absolute name Hn).
  destruct (String.eqb d "") eqn:Hd; simpl.
  - right. split; [left; apply String.eqb_eq; exact Hd | reflexivity].
  - destruct (PyStr.endswith "/" d) eqn:He.
    + right. split; [right; reflexivity | reflexivity].
    + left. reflexivity.
Qed.

(** X3.  Whatever the key of a storage reference, the path the resolver
    returns lies directly in the staging directory: it is the directory
    followed by a name without any slash (the basename of the key), so the
    slashes of a key cannot lead the download elsewhere. *)
Theorem staged_path_is_in_staging_directory
        (E : env) (w w' : world) (uri local_dir p : string) :
    s3_client E = true ->
    PyStr.startswith "s3://" uri = true ->
    resolve_input_path E (JStr uri) local_dir w = (Ret p, w') ->
    exists name,
      slash_free name = true
      /\ (p = local_dir ++ "/" ++ name
          \/ ((local_dir = "" \/ PyStr.endswith "/" local_dir = true)
              /\ p = local_dir ++ name)).
Proof.
  intros Hc Hp Hrun.
  destruct (PyStr.partition "/" (PyStr.replace "s3://" "" uri))
    as [[bucket key]|] eqn:Hs.
  - rewrite (resolve_slash_unfold E w uri local_dir bucket key Hc Hp Hs) in Hrun.
    assert (Hpath : p = PyStr.join local_dir (PyStr.basename key)).
    { revert Hrun. run. simpl.
      repeat (break_match; simpl; try discriminate);
        intros H; inversion H; reflexivity. }
    exists (PyStr.basename key). split; [apply basename_slash_free|].
    rewrite Hpath. apply join_slash_free. apply basename_slash_free.
  - rewrite (resolve_no_slash E w uri local_dir Hc Hp Hs) in Hrun. discriminate.
Qed.

Lemma staged_path_is_in_staging_directory_witness :
    exists name,
      slash_free name = true
      /\ ("/app/inputs/a.wav" = "/app/inputs" ++ "/" ++ name
          \/ (("/app/inputs" = "" \/ PyStr.endswith "/" "/app/inputs" = true)
              /\ "/app/inputs/a.wav" = "/app/inputs" ++ name)).
Proof.
  apply (staged_path_is_in_staging_directory
           Demo.engine Demo.start
           (snd (resolve_input_path Demo.engine (JStr "s3://b/dir/a.wav")
                                    "/app/inputs" Demo.start))
           "s3://b/dir/a.wav" "/app/inputs" "/app/inputs/a.wav").
  - reflexivity.
  - reflexivity.
  - reflexivity.
Defined.

Lemma replace_scheme (rest : string) :
    PyStr.replace "s3://" "" ("s3://" ++ rest) = PyStr.replace "s3://" "" rest.
Proof. destruct rest; reflexivity. Qed.

Lemma startswith_scheme (rest : string) :
    PyStr.startswith "s3://" ("s3://" ++ rest) = true.
Proof. destruct rest; reflexivity. Qed.

Lemma replace_absent (old new s : string) :
    occurs old s = false -> PyStr.replace old new s = s.
Proof.
  unfold PyStr.replace. induction s as [|c s IH]; [reflexivity|].
  cbn [occurs PyStr.replace_from]. intros H.
  apply orb_false_iff in H. destruct H as [Hpre Hrest].
  rewrite Hpre. f_equal. apply IH. exact Hrest.
Qed.

Lemma partition_slash_free (b k : string) :
    slash_free b = true -> PyStr.partition "/" (b ++ "/" ++ k) = Some (b, k).
Proof.
  induction b as [|c b IH]; [reflexivity|].
  cbn [slash_free]. intros H. apply andb_true_iff in H. destruct H as [Hc Hb].
  change (String c b ++ "/" ++ k) with (String c (b ++ "/" ++ k)).
  cbn [PyStr.partition]. apply negb_true_iff in Hc. rewrite Hc.
  rewrite (IH Hb). reflexivity.
Qed.

Lemma parse_reference (bucket rest : string) :
    slash_free bucket = true ->
    occurs "s3://" (bucket ++ "/" ++ rest) = false ->
    PyStr.partition "/" (PyStr.replace "s3://" "" ("s3://" ++ bucket ++ "/" ++ rest))
    = Some (bucket, rest).
Proof.
  intros Hb Ho. rewrite replace_scheme, (replace_absent _ _ _ Ho).
  apply partition_slash_free. exact Hb.
Qed.

(** X4.  Reading back the reference syntax: for the reference
    [s3://bucket/key], with a bucket free of slashes and no further
    [s3://] in the text, the resolver asks the store for exactly that
    bucket and key, and when the store holds the object and the staging
    directory can be used, the object's content ends up at
    [local_dir/basename(key)], which is returned. *)
Theorem resolve_reads_bucket_and_key
        (E : env) (w : world) (bucket key local_dir : string) (c : option json) :
    s3_client E = true ->
    slash_free bucket = true ->
    occurs "s3://" (bucket ++ "/" ++ key) = false ->
    can_makedirs local_dir (fs w) ->
    s3_refused E bucket key = false ->
    S3.lookup bucket key (s3 w) = Some c ->
    PyStr.join local_dir (PyStr.basename key) <> local_dir ->
    Fs.lookup (PyStr.join local_dir (PyStr.basename key)) (fs w) <> Some Dir ->
    PyStr.endswith "/" (PyStr.join local_dir (PyStr.basename key)) = false ->
    exists w',
      resolve_input_path E (JStr ("s3://" ++ bucket ++ "/" ++ key)) local_dir w
      = (Ret (PyStr.join local_dir (PyStr.basename key)), w')
      /\ Fs.lookup (PyStr.join local_dir (PyStr.basename key)) (fs w') = Some (File c)
      /\ calls w'
         = (calls w ++ [FsMakedirs local_dir;
                        S3Download bucket key
                                   (PyStr.join local_dir (PyStr.basename key))])%list.
Proof.
  intros Hc Hb Ho Hdir Href Hobj Hne Hnd Hend.
  pose proof (parse_reference bucket key Hb Ho) as Hs.
  assert (Hp : PyStr.startswith "s3://" ("s3://" ++ bucket ++ "/" ++ key) = true)
    by apply startswith_scheme.
  destruct (resolve_slash_staged E w _ local_dir bucket key c Hc Hp Hs Hdir Href
                                 Hobj Hne Hnd Hend) as (w' & Hrun & Hfile & _).
  exists w'. split; [exact Hrun|]. split; [exact Hfile|].
  rewrite (resolve_slash_unfold E w _ local_dir bucket key Hc Hp Hs) in Hrun.
  revert Hrun. run. simpl.
  repeat (break_match; simpl; try discriminate);
    intros H; inversion H; subst; simpl; rewrite <- app_assoc; reflexivity.
Qed.

Lemma resolve_reads_bucket_and_key_witness :
    exists w',
      resolve_input_path Demo.engine (JStr "s3://b/dir/a.wav") "/app/inputs" Demo.start
      = (Ret "/app/inputs/a.wav", w')
      /\ Fs.lookup "/app/inputs/a.wav" (fs w') = Some (File None)
      /\ calls w' = [FsMakedirs "/app/inputs";
                     S3Download "b" "dir/a.wav" "/app/inputs/a.wav"].
Proof.
  apply (resolve_reads_bucket_and_key Demo.engine Demo.start "b" "dir/a.wav"
                                      "/app/inputs" None).
  - reflexivity.
  - reflexivity.
  - reflexivity.
  - split; [discriminate | right; reflexivity].
  - reflexivity.
  - reflexivity.
  - discriminate.
  - discriminate.
  - reflexivity.
Defined.

(** X5.  The same for the publisher: for the destination
    [s3://bucket/prefix], the file is stored in that bucket under
    [prefix/basename(local_path)], or under the basename alone when the
    prefix is empty (the destination ends with the slash after the
    bucket), and the URL is signed for that object. *)
Theorem publish_reads_bucket_and_prefix
        (E : env) (w : world) (bucket prefix local_path : string) (c : option json) :
    s3_client E = true ->
    slash_free bucket = true ->
    occurs "s3://" (bucket ++ "/" ++ prefix) = false ->
    Fs.lookup local_path (fs w) = Some (File c) ->
    let key := if String.eqb prefix "" then PyStr.basename local_path
               else prefix ++ "/" ++ PyStr.basename local_path in
    s3_refused E bucket key = false ->
    exists w',
      upload_output E local_path (JStr ("s3://" ++ bucket ++ "/" ++ prefix)) w
      = (Ret (presigned_url E bucket key 3600), w')
      /\ S3.lookup bucket key (s3 w') = Some c
      /\ fs w' = fs w.
Proof.
  intros Hc Hb Ho Hf key Href.
  pose proof (parse_reference bucket prefix Hb Ho) as Hs.
  assert (Hbk : upload_bucket ("s3://" ++ bucket ++ "/" ++ prefix) = bucket).
  { unfold upload_bucket, PyStr.split1. rewrite Hs. reflexivity. }
  assert (Hk : upload_key ("s3://" ++ bucket ++ "/" ++ prefix) local_path = key).
  { unfold upload_key, upload_prefix, PyStr.split1. rewrite Hs. simpl.
    unfold key. destruct (String.eqb prefix ""); reflexivity. }
  eexists. split.
  - rewrite (upload_remote_ok E w local_path _ c Hc (startswith_scheme _) Hf);
      rewrite Hbk, Hk; [reflexivity | exact Href].
  - simpl. split; [apply S3Facts.object_lookup_put_eq | reflexivity].
Qed.

Lemma publish_reads_bucket_and_prefix_witness :
    exists w',
      upload_output Demo.engine "/app/ComfyUI/output/result.png"
                    (JStr "s3://out/jobs/7") Demo.start
      = (Ret (presigned_url Demo.engine "out" "jobs/7/result.png" 3600), w')
      /\ S3.lookup "out" "jobs/7/result.png" (s3 w') = Some None
      /\ fs w' = fs Demo.start.
Proof.
  apply (publish_reads_bucket_and_prefix
           Demo.engine Demo.start "out" "jobs/7" "/app/ComfyUI/output/result.png" None).
  - reflexivity.
  - reflexivity.
  - reflexivity.
  - reflexivity.
  - reflexivity.
Defined.

(* ------------------------------------------------------------------ *)
(** ** Failures of the publisher *)

(** X6.  Publishing a file that does not exist fails with
    [FileNotFoundError], and the failure is raised to the caller.  For a
    storage destination nothing is stored and no URL is signed.  For a
    local directory the directory has been made by then and stays. *)
Theorem publish_missing_file (E : env) (w : world) (local_path t : string) :
    Fs.lookup local_path (fs w) = None ->
    (s3_client E = true ->
     PyStr.startswith "s3://" t = true ->
     exists msg w',
       upload_output E local_path (JStr t) w = (Raise (FileNotFoundError msg), w')
       /\ s3 w' = s3 w /\ fs w' = fs w
       /\ calls w' = (calls w ++ [S3Upload local_path (upload_bucket t)
                                           (upload_key t local_path)])%list)
    /\ (PyStr.startswith "s3://" t && s3_client E = false ->
        can_makedirs t (fs w) ->
        local_path <> t ->
        exists msg w',
          upload_output E local_path (JStr t) w = (Raise (FileNotFoundError msg), w')
          /\ Fs.lookup t (fs w') = Some Dir
          /\ Fs.lookup local_path (fs w') = None).
Proof.
  intros Hf. split.
  - intros Hc Hp.
    unfold upload_output, try_except, bind, lift. simpl. rewrite Hp, Hc. simpl.
    fold (upload_bucket t). fold (upload_prefix t). fold (upload_key t local_path).
    run. simpl. rewrite Hf. simpl.
    do 2 eexists. split; [reflexivity|]. repeat split.
  - intros Hb [Hnonempty Hdir] Hne.
    unfold upload_output, try_except, bind, lift. simpl. rewrite Hb.
    run. simpl. apply String.eqb_neq in Hnonempty. rewrite Hnonempty.
    destruct Hdir as [Hdir|Hdir]; rewrite Hdir; simpl.
    + rewrite Hf. simpl. do 2 eexists. split; [reflexivity|].
      simpl. split; assumption.
    + rewrite FsFacts.lookup_app, Hf. simpl.
      apply String.eqb_neq in Hne. rewrite Hne. simpl.
      do 2 eexists. split; [reflexivity|]. simpl.
      rewrite !FsFacts.lookup_app, Hdir, Hf. simpl.
      rewrite String.eqb_refl, Hne. split; reflexivity.
Qed.

Lemma publish_missing_file_witness :
    exists msg w',
      upload_output Demo.engine "/app/ComfyUI/output/none.png" (JStr "/data/out")
                    Demo.start
      = (Raise (FileNotFoundError msg), w')
      /\ Fs.lookup "/data/out" (fs w') = Some Dir
      /\ Fs.lookup "/app/ComfyUI/output/none.png" (fs w') = None.
Proof.
  destruct (publish_missing_file Demo.engine Demo.start
              "/app/ComfyUI/output/none.png" "/data/out" eq_refl) as [_ H].
  apply H.
  - reflexivity.
  - split; [discriminate | right; reflexivity].
  - discriminate.
Defined.

(** X7.  A local destination that is an existing file cannot be made a
    directory: the call fails with [FileExistsError] and the file to
    publish stays where it was; nothing on disk changes. *)
Theorem publish_onto_existing_file
        (E : env) (w : world) (local_path t : string) (d : option json) :
    PyStr.startswith "s3://" t && s3_client E = false ->
    t <> "" ->
    Fs.lookup t (fs w) = Some (File d) ->
    exists w',
      upload_output E local_path (JStr t) w
      = (Raise (FileExistsError ("[Errno 17] File exists: '" ++ t ++ "'")), w')
      /\ fs w' = fs w /\ s3 w' = s3 w.
Proof.
  intros Hb Hne Hf.
  unfold upload_output, try_except, bind, lift. simpl. rewrite Hb.
  run. simpl. apply String.eqb_neq in Hne.
  rewrite Hne, Hf. simpl. eexists. split; [reflexivity|]. split; reflexivity.
Qed.

Lemma publish_onto_existing_file_witness :
    exists w',
      upload_output Demo.engine "/app/ComfyUI/output/result.png"
                    (JStr "/app/ComfyUI/workflows/a.json") Demo.start
      = (Raise (FileExistsError
                  "[Errno 17] File exists: '/app/ComfyUI/workflows/a.json'"), w')
      /\ fs w' = fs Demo.start /\ s3 w' = s3 Demo.start.
Proof.
  apply (publish_onto_existing_file
           Demo.engine Demo.start "/app/ComfyUI/output/result.png"
           "/app/ComfyUI/workflows/a.json" (Some (JObj []))).
  - reflexivity.
  - discriminate.
  - reflexivity.
Defined.

(* ------------------------------------------------------------------ *)
(** ** The submitter and the poller at their limits *)

(** X9.  Whatever the engine answers, a submission contacts it exactly
    once (it is never retried) and touches neither the file system, nor
    the store, nor the clock. *)
Theorem submit_contacts_engine_once (E : env) (w : world) (workflow : json) :
    calls (snd (submit_workflow E workflow w))
    = (calls w ++ [HttpPostPrompt workflow])%list
    /\ fs (snd (submit_workflow E workflow w)) = fs w
    /\ s3 (snd (submit_workflow E workflow w)) = s3 w
    /\ clock (snd (submit_workflow E workflow w)) = clock w.
Proof.
  unfold submit_workflow, checked_json, raise_for_status.
  destruct (prompt_reply E workflow) as [e|status reason body];
    [run; simpl; repeat split|].
  run. simpl.
  destruct ((400 <=? status) && (status <? 500)); [simpl; repeat split|].
  destruct ((500 <=? status) && (status <? 600)); [simpl; repeat split|].
  simpl.
  destruct body as [[| | | |items|fields]|]; simpl; try (repeat split; fail).
  destruct (Py.lookup "prompt_id" fields) as [v|]; simpl; [|repeat split].
  destruct (Py.truthy v); simpl; [|repeat split].
  destruct v; simpl; repeat split.
Qed.

(** X10.  With no budget ([max_wait] zero or negative) the wait raises
    the timeout at once: the engine is not queried and nothing changes. *)
Theorem wait_without_budget
        (E : env) (fuel : nat) (prompt_id : string) (poll_interval max_wait : Z)
        (w : world) :
    max_wait <= 0 ->
    wait_for_completion E (S fuel) prompt_id poll_interval max_wait w
    = (Raise (TimeoutError (timeout_message prompt_id max_wait)), w).
Proof.
  intros Hmw. unfold wait_for_completion, bind, get_clock.
  rewrite poll_loop_step.
  assert (Hc : (clock w - clock w <? max_wait) = false) by (apply Z.ltb_ge; lia).
  rewrite Hc. reflexivity.
Qed.

Lemma wait_without_budget_witness :
    wait_for_completion Demo.engine 1 "p1" 2 0 Demo.start
    = (Raise (TimeoutError "Workflow p1 did not complete within 0 seconds"),
       Demo.start).
Proof.
  apply (wait_without_budget Demo.engine 0 "p1" 2 0 Demo.start). lia.
Defined.

(** X11.  A negative [poll_interval] does not survive the first tick that
    does not find the job finished: [time.sleep] refuses it inside the
    [try], the handler sleeps again, and that [ValueError] leaves
    [wait_for_completion] instead of a timeout. *)
Theorem wait_with_negative_interval
        (E : env) (fuel : nat) (prompt_id : string) (poll_interval max_wait : Z)
        (w : world) :
    poll_interval < 0 ->
    0 < max_wait ->
    finished_entry prompt_id (snd (history_reply E prompt_id (polls w))) = None ->
    fst (wait_for_completion E (S fuel) prompt_id poll_interval max_wait w)
    = Raise (ValueError "sleep length must be non-negative").
Proof.
  intros Hpi Hmw Hf. unfold wait_for_completion, bind, get_clock.
  rewrite poll_loop_step.
  assert (Hc : (clock w - clock w <? max_wait) = true) by (apply Z.ltb_lt; lia).
  rewrite Hc.
  assert (Hs : (poll_interval <? 0) = true) by (apply Z.ltb_lt; exact Hpi).
  assert (Hrun : fst (poll_once E prompt_id poll_interval w)
                 = Raise (ValueError "sleep length must be non-negative")).
  { revert Hf.
    unfold finished_entry, reply_json, poll_once, get_history, checked_json,
      raise_for_status.
    run. rewrite Hs. simpl.
    destruct (snd (history_reply E prompt_id (polls w)))
      as [e|status reason [data|]]; simpl; try reflexivity.
    - destruct ((400 <=? status) && (status <? 500)); simpl; [reflexivity|].
      destruct ((500 <=? status) && (status <? 600)); simpl; [reflexivity|].
      destruct (Py.contains prompt_id data) as [e|[|]]; simpl; try reflexivity.
      destruct (Py.getitem data prompt_id) as [e|entry']; simpl; try reflexivity.
      destruct (Py.contains "outputs" entry') as [e|[|]]; simpl;
        try reflexivity. discriminate.
    - destruct ((400 <=? status) && (status <? 500)); simpl; [reflexivity|].
      destruct ((500 <=? status) && (status <? 600)); simpl; reflexivity. }
  destruct (poll_once E prompt_id poll_interval w) as [[[entry|]|e|] w1];
    simpl in Hrun; try discriminate.
  simpl. injection Hrun as ->. reflexivity.
Qed.

Lemma wait_with_negative_interval_witness :
    fst (wait_for_completion DemoEngines.stalled 1 "p1" (-1) 300 Demo.start)
    = Raise (ValueError "sleep length must be non-negative").
Proof.
  apply (wait_with_negative_interval DemoEngines.stalled 0 "p1" (-1) 300 Demo.start).
  - lia.
  - lia.
  - reflexivity.
Defined.

Section PollerBounds.

Variable E : env.
Variable prompt_id : string.
Variables poll_interval max_wait start_time : Z.

Lemma poll_loop_query_bound (fuel : nat) :
    0 < poll_interval ->
    forall w : world,
      let w' := snd (poll_loop E fuel prompt_id poll_interval max_wait start_time w) in
      polls w' = polls w
      \/ ((polls w < polls w')%nat
          /\ (Z.of_nat (polls w' - polls w) - 1) * poll_interval
             + (clock w - start_time) < max_wait).
Proof.
  intros Hpi. induction fuel as [|fuel IH]; intros w; [left; reflexivity|].
  cbv zeta. rewrite poll_loop_step.
  destruct (clock w - start_time <? max_wait) eqn:Hc; [|left; reflexivity].
  apply Z.ltb_lt in Hc.
  destruct (finished_entry prompt_id (snd (history_reply E prompt_id (polls w))))
    as [entry|] eqn:Hf.
  - destruct (poll_once_finished E w prompt_id poll_interval entry Hf)
      as (w1 & Hrun & Hpolls & _).
    rewrite Hrun. simpl. right. rewrite Hpolls. split; [lia|].
    replace (S (polls w) - polls w)%nat with 1%nat by lia. simpl. lia.
  - destruct (poll_once_empty E w prompt_id poll_interval (Z.lt_le_incl _ _ Hpi) Hf)
      as (w1 & Hrun & Hpolls & Hclock & _).
    rewrite Hrun. specialize (IH w1). cbv zeta in IH.
    set (w' := snd (poll_loop E fuel prompt_id poll_interval max_wait start_time w1))
      in *.
    right. destruct IH as [Heq|[Hlt Hbound]].
    + rewrite Heq, Hpolls. split; [lia|].
      replace (S (polls w) - polls w)%nat with 1%nat by lia. simpl. lia.
    + rewrite Hpolls in Hlt, Hbound. split; [lia|].
      replace (Z.of_nat (polls w' - polls w))
        with (Z.of_nat (polls w' - S (polls w)) + 1) by lia.
      rewrite Hclock in Hbound. nia.
Qed.

End PollerBounds.

(** X12.  With a positive sleep, the number of status queries a wait makes
    is bounded by the budget: [n] queries fit only if the [n - 1] sleeps
    before the last one end before [max_wait], so [n * poll_interval <
    max_wait + poll_interval] (at most 150 queries for the defaults 2 and
    300). *)
Theorem wait_query_bound
        (E : env) (fuel : nat) (prompt_id : string) (poll_interval max_wait : Z)
        (w : world) :
    0 < poll_interval ->
    Z.of_nat (polls (snd (wait_for_completion E fuel prompt_id poll_interval
                                               max_wait w))
              - polls w) * poll_interval
    < Z.max 0 max_wait + poll_interval.
Proof.
  intros Hpi. unfold wait_for_completion, bind, get_clock.
  destruct (poll_loop_query_bound E prompt_id poll_interval max_wait (clock w)
                                  fuel Hpi w) as [Heq|[Hlt Hbound]].
  - rewrite Heq. rewrite Nat.sub_diag. simpl. lia.
  - nia.
Qed.

Lemma wait_query_bound_witness :
    Z.of_nat (polls (snd (wait_for_completion DemoEngines.stalled 400 "p1" 2 300
                                               Demo.start))
              - polls Demo.start) * 2
    < Z.max 0 300 + 2.
Proof.
  apply (wait_query_bound DemoEngines.stalled 400 "p1" 2 300 Demo.start). lia.
Defined.

Section PollerTiming.

Variable E : env.
Variable prompt_id : string.
Variables poll_interval max_wait start_time : Z.

Lemma poll_loop_reaches_at (n : nat) (entry : json) :
    0 <= poll_interval ->
    forall (w : world) (fuel : nat),
      (forall i, (i < n)%nat ->
         finished_entry prompt_id
                        (snd (history_reply E prompt_id (polls w + i))) = None) ->
      finished_entry prompt_id (snd (history_reply E prompt_id (polls w + n)))
      = Some entry ->
      clock w - start_time + waited E prompt_id poll_interval (polls w) n < max_wait ->
      (S n <= fuel)%nat ->
      exists w',
        poll_loop E fuel prompt_id poll_interval max_wait start_time w
        = (Ret entry, w')
        /\ polls w' = S (polls w + n)
        /\ clock w' = clock w + waited E prompt_id poll_interval (polls w) n
                      + Z.of_N (fst (history_reply E prompt_id (polls w + n))).
Proof.
  intros Hpi. induction n as [|n IH]; intros w fuel Hnone Hdone Hbudget Hfuel.
  - destruct fuel as [|fuel]; [lia|]. rewrite poll_loop_step.
    simpl in Hbudget. rewrite Nat.add_0_r in *.
    assert (Hc : (clock w - start_time <? max_wait) = true)
      by (apply Z.ltb_lt; lia).
    rewrite Hc.
    destruct (poll_once_finished E w prompt_id poll_interval entry Hdone)
      as (w' & Hrun & Hpolls & Hclock).
    rewrite Hrun. exists w'. split; [reflexivity|]. split; [exact Hpolls|].
    cbn [waited]. rewrite Hclock. lia.
  - destruct fuel as [|fuel]; [lia|]. rewrite poll_loop_step.
    simpl in Hbudget.
    pose proof (waited_nonneg E prompt_id poll_interval (S (polls w)) n Hpi) as Hrest.
    assert (Hc : (clock w - start_time <? max_wait) = true)
      by (apply Z.ltb_lt; lia).
    rewrite Hc.
    assert (Hf : finished_entry prompt_id
                                (snd (history_reply E prompt_id (polls w))) = None).
    { specialize (Hnone 0%nat). rewrite Nat.add_0_r in Hnone. apply Hnone. lia. }
    destruct (poll_once_empty E w prompt_id poll_interval Hpi Hf)
      as (w1 & Hrun & Hpolls & Hclock & _).
    rewrite Hrun.
    destruct (IH w1 fuel) as (w' & Hloop & Hp & Hcl).
    + intros i Hi. rewrite Hpolls.
      replace (S (polls w) + i)%nat with (polls w + S i)%nat by lia.
      apply Hnone. lia.
    + rewrite Hpolls.
      replace (S (polls w) + n)%nat with (polls w + S n)%nat by lia.
      exact Hdone.
    + rewrite Hpolls, Hclock. lia.
    + lia.
    + exists w'. split; [exact Hloop|].
      split; [rewrite Hp, Hpolls; lia|].
      rewrite Hcl, Hpolls, Hclock. cbn [waited].
      replace (S (polls w) + n)%nat with (polls w + S n)%nat by lia. lia.
Qed.

End PollerTiming.

(** X13.  The wait returns as soon as the engine reports the job: after
    [n] ticks that do not find it finished, a finished tick that starts
    within the budget ends the wait with no sleep after it, so the wait
    lasts the [n] empty ticks (answer time plus sleep each) and the answer
    time of the last query, and makes [n + 1] queries. *)
Theorem wait_returns_without_sleeping
        (E : env) (prompt_id : string) (poll_interval max_wait : Z) (w : world)
        (n fuel : nat) (entry : json) :
    0 <= poll_interval ->
    (forall i, (i < n)%nat ->
       finished_entry prompt_id (snd (history_reply E prompt_id (polls w + i)))
       = None) ->
    finished_entry prompt_id (snd (history_reply E prompt_id (polls w + n)))
    = Some entry ->
    waited E prompt_id poll_interval (polls w) n < max_wait ->
    (S n <= fuel)%nat ->
    exists w',
      wait_for_completion E fuel prompt_id poll_interval max_wait w = (Ret entry, w')
      /\ polls w' = S (polls w + n)
      /\ clock w' - clock w
         = waited E prompt_id poll_interval (polls w) n
           + Z.of_N (fst (history_reply E prompt_id (polls w + n))).
Proof.
  intros Hpi Hnone Hdone Hbudget Hfuel.
  unfold wait_for_completion, bind, get_clock.
  destruct (poll_loop_reaches_at E prompt_id poll_interval max_wait (clock w) n entry
                                 Hpi w fuel Hnone Hdone)
    as (w' & Hloop & Hp & Hcl); [lia | exact Hfuel |].
  exists w'. split; [exact Hloop|]. split; [exact Hp | lia].
Qed.

Lemma wait_returns_without_sleeping_witness :
    exists w',
      wait_for_completion DemoEngines.flaky 2 "p1" 2 300 Demo.start
      = (Ret DemoEngines.finished_job, w')
      /\ polls w' = 2%nat
      /\ clock w' - clock Demo.start = 3.
Proof.
  apply (wait_returns_without_sleeping
           DemoEngines.flaky "p1" 2 300 Demo.start 1 2 DemoEngines.finished_job).
  - lia.
  - intros i Hi. assert (i = 0%nat) as -> by lia. reflexivity.
  - reflexivity.
  - vm_compute. reflexivity.
  - lia.
Defined.

(* ------------------------------------------------------------------ *)
(** ** The handler: identifiers and early failures *)

Lemma process_job_id (E : env) (fuel : nat) (job_id data : json) (w w' : world)
      (r : json * Z) (v : json) :
    process E fuel job_id data w = (Ret r, w') ->
    Py.get (fst r) "job_id" = inr (Some v) ->
    v = job_id.
Proof.
  unfold process, bind, ret.
  repeat (break_match; try discriminate);
    intros H; inversion H; subst; simpl; intros Hv;
    try discriminate; injection Hv as <-; reflexivity.
Qed.

Lemma failed_job_id (job_id : json) (e : exn) (w w' : world) (r : json * Z) (v : json) :
    failed job_id e w = (Ret r, w') ->
    Py.get (fst r) "job_id" = inr (Some v) ->
    v = job_id.
Proof.
  destruct (failed_returns job_id e w) as (w2 & ->).
  intros H. inversion H; subst. simpl. intros Hv. injection Hv as <-. reflexivity.
Qed.

(** X14.  Whenever the response to a request object carries a [job_id],
    it is the one the request gave (whatever JSON value that is), or the
    freshly drawn uuid when the request gave none. *)
Theorem response_echoes_job_id
        (E : env) (fuel : nat) (fields : list (string * json)) (w w' : world)
        (r : json * Z) (v : json) :
    predict E fuel (Some (JObj fields)) w = (Ret r, w') ->
    Py.get (fst r) "job_id" = inr (Some v) ->
    v = job_id_of E fields.
Proof.
  unfold predict. intros H Hv. apply try_except_ret in H.
  destruct H as [H|(e & w1 & Hraise & _)].
  - revert H. unfold bind, get_json, lift, ret.
    destruct (negb (Py.truthy (JObj fields)));
      [intros H; inversion H; subst; discriminate|].
    cbn [Py.get]. intros H. apply try_except_ret in H.
    destruct H as [H|(e & w1 & _ & H)].
    + eapply process_job_id; eassumption.
    + eapply failed_job_id; eassumption.
  - exfalso. revert Hraise. unfold bind, get_json, lift, ret.
    destruct (negb (Py.truthy (JObj fields))); [discriminate|].
    cbn [Py.get]. apply try_except_failed_never_raises.
Qed.

Lemma response_echoes_job_id_witness :
    JStr "j7" = job_id_of Demo.engine [("job_id", JStr "j7"); ("audio_s3", JNum 1);
                                        ("transcript_s3", JNum 2);
                                        ("image_s3", JNum 3);
                                        ("output_s3_bucket", JNum 4)].
Proof.
  pose (fields := [("job_id", JStr "j7"); ("audio_s3", JNum 1);
                   ("transcript_s3", JNum 2); ("image_s3", JNum 3);
                   ("output_s3_bucket", JNum 4)]).
  apply (response_echoes_job_id
           Demo.engine 0 fields Demo.start
           (snd (predict Demo.engine 0 (Some (JObj fields)) Demo.start))
           (JObj [("job_id", JStr "j7"); ("status", JStr "FAILED");
                  ("error", JStr "'int' object has no attribute 'startswith'");
                  ("timestamp", JNum 1000)], 500)).
  - reflexivity.
  - reflexivity.
Defined.

Lemma first_missing_is_missing_field (fields : list (string * json)) (w : world) :
    first_missing required_fields (JObj fields) w = (Ret (missing_field fields), w).
Proof.
  unfold required_fields, missing_field, first_missing, bind, lift, ret, Py.contains.
  cbn [find].
  destruct (Py.lookup "audio_s3" fields); [|reflexivity].
  destruct (Py.lookup "transcript_s3" fields); [|reflexivity].
  destruct (Py.lookup "image_s3" fields); [|reflexivity].
  destruct (Py.lookup "output_s3_bucket" fields); reflexivity.
Qed.

(** X15.  A request with all required fields whose audio input is a local
    path that does not exist is answered with a FAILED job and status 500,
    the error naming the path; the handler stops there: the only thing it
    did was to test that path, and neither the engine nor the store was
    contacted. *)
Theorem missing_audio_input_fails_job
        (E : env) (fuel : nat) (fields : list (string * json)) (w : world)
        (path : string) :
    missing_field fields = None ->
    Py.lookup "audio_s3" fields = Some (JStr path) ->
    PyStr.startswith "s3://" path && s3_client E = false ->
    Fs.lookup path (fs w) = None ->
    exists w',
      predict E fuel (Some (JObj fields)) w
      = (Ret (JObj [("job_id", job_id_of E fields); ("status", JStr "FAILED");
                    ("error", JStr ("Input file not found: " ++ path));
                    ("timestamp", JNum (clock w))], 500), w')
      /\ calls w' = (calls w ++ [FsExists path])%list
      /\ fs w' = fs w /\ s3 w' = s3 w.
Proof.
  intros Hm Ha Hb Hf.
  assert (Ht : Py.truthy (JObj fields) = true).
  { destruct fields; [discriminate | reflexivity]. }
  unfold predict, try_except at 1, bind at 1, get_json, ret at 1.
  rewrite Ht. cbn [negb]. unfold bind at 1, lift at 1. cbn [Py.get].
  unfold ret at 1. fold (job_id_of E fields).
  unfold try_except, process, bind at 1, logger at 1.
  unfold bind at 1. rewrite first_missing_is_missing_field, Hm.
  unfold bind at 1, lift at 1. cbn [Py.getitem]. rewrite Ha. unfold ret at 1.
  unfold bind at 1.
  rewrite (resolve_local_path E _ path "/app/inputs" Hb). cbn [fs].
  rewrite Hf. unfold failed. run. simpl.
  eexists. split; [reflexivity|]. repeat split.
Qed.

Lemma missing_audio_input_fails_job_witness :
    exists w',
      predict Demo.engine 0
              (Some (JObj [("audio_s3", JStr "/data/a.wav");
                           ("transcript_s3", JStr "s3://b/t.txt");
                           ("image_s3", JStr "s3://b/i.png");
                           ("output_s3_bucket", JStr "s3://out/")]))
              Demo.start
      = (Ret (JObj [("job_id", JStr "job-0001"); ("status", JStr "FAILED");
                    ("error", JStr "Input file not found: /data/a.wav");
                    ("timestamp", JNum 1000)], 500), w')
      /\ calls w' = [FsExists "/data/a.wav"]
      /\ fs w' = fs Demo.start /\ s3 w' = s3 Demo.start.
Proof.
  apply (missing_audio_input_fails_job
           Demo.engine 0
           [("audio_s3", JStr "/data/a.wav");
            ("transcript_s3", JStr "s3://b/t.txt");
            ("image_s3", JStr "s3://b/i.png");
            ("output_s3_bucket", JStr "s3://out/")]
           Demo.start "/data/a.wav"); reflexivity.
Defined.

(* ------------------------------------------------------------------ *)
(** ** Patching the workflow template *)

Module PyFacts.

Lemma update_same (k : string) (v : json) (f : list (string * json)) :
    Py.lookup k f = Some v -> Py.update k v f = f.
Proof.
  induction f as [|[k' v'] f IH]; simpl; [discriminate|].
  destruct (String.eqb k k') eqn:Hk.
  - intros H. injection H as ->. reflexivity.
  - intros H. rewrite (IH H). reflexivity.
Qed.

Lemma lookup_update_eq (k : string) (v : json) (f : list (string * json)) :
    Py.lookup k (Py.update k v f) = Some v.
Proof.
  induction f as [|[k' v'] f IH]; simpl.
  - rewrite String.eqb_refl. reflexivity.
  - destruct (String.eqb k k') eqn:Hk; simpl; rewrite Hk; [reflexivity | exact IH].
Qed.

Lemma lookup_update_neq (k k0 : string) (v : json) (f : list (string * json)) :
    k0 <> k -> Py.lookup k0 (Py.update k v f) = Py.lookup k0 f.
Proof.
  intros Hne. induction f as [|[k' v'] f IH]; simpl.
  - apply String.eqb_neq in Hne. rewrite Hne. reflexivity.
  - destruct (String.eqb k k') eqn:Hk; simpl.
    + apply String.eqb_eq in Hk. subst k'.
      apply String.eqb_neq in Hne. rewrite Hne. reflexivity.
    + destruct (String.eqb k0 k'); [reflexivity | exact IH].
Qed.

Lemma keys_update (k : string) (v : json) (f : list (string * json)) :
    Py.lookup k f <> None -> map fst (Py.update k v f) = map fst f.
Proof.
  induction f as [|[k' v'] f IH]; simpl; [congruence|].
  destruct (String.eqb k k') eqn:Hk; simpl; [reflexivity|].
  intros H. rewrite (IH H). reflexivity.
Qed.

End PyFacts.

Lemma patch_input_absent (name path : string) (inputs : list (string * json)) :
    Py.lookup name inputs = None ->
    patch_input name path (JObj inputs) = inr (JObj inputs).
Proof. unfold patch_input. simpl. intros ->. reflexivity. Qed.

Lemma patch_node_names_no_input (a t i : string) (node : json) :
    names_no_input node = true -> patch_node a t i node = inr node.
Proof.
  unfold names_no_input, patch_node.
  destruct node as [| | | | |fields]; try discriminate. cbn [Py.get].
  destruct (Py.lookup "inputs" fields) as [[| | | | |inputs]|] eqn:Hin;
    try discriminate.
  - destruct (Py.lookup "audio" inputs) eqn:Ha; [discriminate|].
    destruct (Py.lookup "text_file" inputs) eqn:Ht; [discriminate|].
    destruct (Py.lookup "image" inputs) eqn:Hi; [discriminate|].
    intros _.
    rewrite (patch_input_absent _ _ _ Ha), (patch_input_absent _ _ _ Ht),
      (patch_input_absent _ _ _ Hi).
    unfold Py.setitem. rewrite (PyFacts.update_same _ _ _ Hin). reflexivity.
  - intros _. reflexivity.
Qed.

(** X16.  The patch is best effort: a workflow template in which no node
    names [audio], [text_file] or [image] among its inputs goes through
    unchanged, without any failure. *)
Theorem workflow_without_parameters_unchanged
        (a t i : string) (nodes : list (string * json)) :
    forallb (fun node => names_no_input (snd node)) nodes = true ->
    patch_workflow a t i (JObj nodes) = inr (JObj nodes).
Proof.
  unfold patch_workflow. cbn [Py.items]. intros H.
  assert (Hn : patch_nodes a t i nodes = inr nodes).
  { induction nodes as [|[id node] nodes IH]; [reflexivity|].
    cbn [forallb snd] in H. apply andb_true_iff in H. destruct H as [Hnode Hrest].
    cbn [patch_nodes]. rewrite (patch_node_names_no_input a t i node Hnode).
    rewrite (IH Hrest). reflexivity. }
  rewrite Hn. reflexivity.
Qed.

Lemma workflow_without_parameters_unchanged_witness :
    patch_workflow "/in/a.wav" "/in/t.txt" "/in/i.png"
                   (JObj [("3", JObj [("class_type", JStr "SaveImage")]);
                          ("4", JObj [("inputs", JObj [("seed", JNum 7)])])])
    = inr (JObj [("3", JObj [("class_type", JStr "SaveImage")]);
                 ("4", JObj [("inputs", JObj [("seed", JNum 7)])])]).
Proof.
  apply (workflow_without_parameters_unchanged
           "/in/a.wav" "/in/t.txt" "/in/i.png"
           [("3", JObj [("class_type", JStr "SaveImage")]);
            ("4", JObj [("inputs", JObj [("seed", JNum 7)])])]).
  reflexivity.
Defined.

Lemma patch_input_dict (name path : string) (inputs : list (string * json)) :
    patch_input name path (JObj inputs) = inr (JObj (set_if_present name path inputs)).
Proof.
  unfold patch_input, set_if_present. simpl.
  destruct (Py.lookup name inputs); reflexivity.
Qed.

Lemma set_if_present_keys (name path : string) (inputs : list (string * json)) :
    map fst (set_if_present name path inputs) = map fst inputs.
Proof.
  unfold set_if_present. destruct (Py.lookup name inputs) eqn:H; [|reflexivity].
  apply PyFacts.keys_update. congruence.
Qed.

Lemma set_if_present_lookup (name path k : string) (inputs : list (string * json)) :
    Py.lookup k (set_if_present name path inputs)
    = match Py.lookup k inputs with
      | Some v => Some (if String.eqb k name then JStr path else v)
      | None => None
      end.
Proof.
  unfold set_if_present. destruct (String.eqb_spec k name) as [->|Hne].
  - destruct (Py.lookup name inputs) eqn:H.
    + rewrite PyFacts.lookup_update_eq. reflexivity.
    + rewrite H. reflexivity.
  - destruct (Py.lookup name inputs) eqn:H.
    + rewrite PyFacts.lookup_update_neq by exact Hne.
      destruct (Py.lookup k inputs); reflexivity.
    + destruct (Py.lookup k inputs); reflexivity.
Qed.

(** X17.  On a node whose ["inputs"] is a dictionary, the patch keeps the
    parameters and their order, gives the parameters [audio], [text_file]
    and [image] that are present the resolved audio, transcript and image
    paths, leaves every other parameter as it was, and adds none. *)
Theorem patch_node_sets_present_inputs
        (a t i : string) (fields inputs : list (string * json)) :
    Py.lookup "inputs" fields = Some (JObj inputs) ->
    exists inputs',
      patch_node a t i (JObj fields)
      = inr (JObj (Py.update "inputs" (JObj inputs') fields))
      /\ map fst inputs' = map fst inputs
      /\ forall k,
           Py.lookup k inputs'
           = match Py.lookup k inputs with
             | Some v => Some (patched_value a t i k v)
             | None => None
             end.
Proof.
  intros Hin.
  exists (set_if_present "image" i
            (set_if_present "text_file" t (set_if_present "audio" a inputs))).
  split; [|split].
  - unfold patch_node. cbn [Py.get]. rewrite Hin.
    rewrite !patch_input_dict. reflexivity.
  - rewrite !set_if_present_keys. reflexivity.
  - intros k. rewrite !set_if_present_lookup. unfold patched_value.
    destruct (Py.lookup k inputs) as [v|]; [|reflexivity].
    destruct (String.eqb_spec k "audio") as [->|Ha]; [reflexivity|].
    destruct (String.eqb_spec k "text_file") as [->|Ht]; [reflexivity|].
    reflexivity.
Qed.

Lemma patch_node_sets_present_inputs_witness :
    exists inputs',
      patch_node "/in/a.wav" "/in/t.txt" "/in/i.png"
                 (JObj [("inputs", JObj [("audio", JStr ""); ("seed", JNum 7)])])
      = inr (JObj (Py.update "inputs" (JObj inputs')
                             [("inputs", JObj [("audio", JStr ""); ("seed", JNum 7)])]))
      /\ map fst inputs' = ["audio"; "seed"]
      /\ forall k,
           Py.lookup k inputs'
           = match Py.lookup k [("audio", JStr ""); ("seed", JNum 7)] with
             | Some v => Some (patched_value "/in/a.wav" "/in/t.txt" "/in/i.png" k v)
             | None => None
             end.
Proof.
  apply (patch_node_sets_present_inputs
           "/in/a.wav" "/in/t.txt" "/in/i.png"
           [("inputs", JObj [("audio", JStr ""); ("seed", JNum 7)])]
           [("audio", JStr ""); ("seed", JNum 7)]).
  reflexivity.
Defined.

(** X18.  The patch never renames, drops, adds or reorders nodes: when it
    succeeds, the workflow it yields has the node identifiers of the
    template, in the same order; and it succeeds only on a template that
    is a dictionary. *)
Theorem patch_keeps_node_ids (a t i : string) (workflow workflow' : json) :
    patch_workflow a t i workflow = inr workflow' ->
    exists nodes nodes',
      workflow = JObj nodes /\ workflow' = JObj nodes'
      /\ map fst nodes' = map fst nodes.
Proof.
  unfold patch_workflow.
  destruct workflow as [| | | | |nodes]; try discriminate. cbn [Py.items].
  destruct (patch_nodes a t i nodes) as [e|nodes'] eqn:Hn; [discriminate|].
  intros H. injection H as <-. exists nodes, nodes'.
  split; [reflexivity|]. split; [reflexivity|].
  revert nodes' Hn. induction nodes as [|[id node] nodes IH]; intros nodes' Hn.
  - injection Hn as <-. reflexivity.
  - cbn [patch_nodes] in Hn.
    destruct (patch_node a t i node) as [e|node']; [discriminate|].
    destruct (patch_nodes a t i nodes) as [e|rest]; [discriminate|].
    injection Hn as <-. simpl. rewrite (IH rest eq_refl). reflexivity.
Qed.

Lemma patch_keeps_node_ids_witness :
    exists nodes nodes',
      Demo.template = JObj nodes
      /\ JObj [("1", JObj [("inputs", JObj [("audio", JStr "/in/a.wav");
                                            ("seed", JNum 7)])]);
               ("2", JObj [("inputs", JObj [("image", JStr "/in/i.png")])]);
               ("3", JObj [("class_type", JStr "SaveImage")])]
         = JObj nodes'
      /\ map fst nodes' = map fst nodes.
Proof.
  apply (patch_keeps_node_ids "/in/a.wav" "/in/t.txt" "/in/i.png" Demo.template).
  reflexivity.
Defined.

(* ------------------------------------------------------------------ *)
(** ** Collecting the outputs *)

Lemma for_each_invariant {A B : Type} (P : B -> world -> Prop) (l : list A)
      (body : A -> B -> M B) :
    (forall x acc w acc' w',
        In x l -> P acc w -> body x acc w = (Ret acc', w') -> P acc' w') ->
    forall acc w r w',
      P acc w -> for_each l body acc w = (Ret r, w') -> P r w'.
Proof.
  induction l as [|x l IH]; intros Hbody acc w r w' HP Hrun.
  - simpl in Hrun. unfold ret in Hrun. inversion Hrun; subst. exact HP.
  - simpl in Hrun. unfold bind in Hrun.
    destruct (body x acc w) as [[acc1|e|] w1] eqn:Hx; try discriminate.
    eapply IH; [| |exact Hrun].
    + intros y acc0 w0 acc0' w0' Hy. apply Hbody. right. exact Hy.
    + eapply Hbody; [left; reflexivity | exact HP | exact Hx].
Qed.

Lemma collect_item_artifacts (E : env) (target : json) (output_type : string)
      (item : json) (outputs outputs' : list json) (w w' : world) :
    In output_type ["images"; "videos"; "audio"] ->
    forallb is_artifact outputs = true ->
    collect_item E target output_type item outputs w = (Ret outputs', w') ->
    forallb is_artifact outputs' = true.
Proof.
  intros Hty Hacc. unfold collect_item, bind, lift, ret, raise.
  repeat (break_match; try discriminate);
    intros H; inversion H; subst; try exact Hacc.
  rewrite forallb_app, Hacc. simpl.
  destruct Hty as [<-|[<-|[<-|[]]]]; reflexivity.
Qed.

(** X19.  Every entry of the list of outputs the handler collects has the
    form [{type, filename, url}], with the type one of [images], [videos]
    and [audio], and file name and handle strings. *)
Theorem collected_outputs_are_artifacts
        (E : env) (target result : json) (w w' : world) (outputs : list json) :
    collect_outputs E target result w = (Ret outputs, w') ->
    forallb is_artifact outputs = true.
Proof.
  unfold collect_outputs, bind at 1.
  destruct (lift (Py.get result "outputs") w) as [[got|e|] w1]; try discriminate.
  unfold bind at 1.
  destruct (lift (Py.items match got with Some v => v | None => JObj [] end) w1)
    as [[nodes|e|] w2]; try discriminate.
  apply (for_each_invariant (fun acc _ => forallb is_artifact acc = true));
    [|reflexivity].
  intros node acc w0 acc' w0' _ Hacc.
  apply (for_each_invariant (fun acc _ => forallb is_artifact acc = true));
    [|exact Hacc].
  intros output_type acc1 w3 acc1' w3' Hty Hacc1. unfold bind at 1.
  destruct (lift (Py.get (snd node) output_type) w3) as [[got'|e|] w4];
    try discriminate.
  unfold bind at 1.
  destruct (lift (Py.iter match got' with Some v => v | None => JArr [] end) w4)
    as [[items|e|] w5]; try discriminate.
  apply (for_each_invariant (fun acc _ => forallb is_artifact acc = true));
    [|exact Hacc1].
  intros item acc2 w6 acc2' w6' _ Hacc2 Hrun.
  eapply collect_item_artifacts; eassumption.
Qed.

Lemma collected_outputs_are_artifacts_witness :
    forallb is_artifact
            [JObj [("type", JStr "images"); ("filename", JStr "result.png");
                   ("url", JStr "https://out.s3.amazonaws.com/result.png?X-Amz-Expires=3600")]]
    = true.
Proof.
  apply (collected_outputs_are_artifacts
           Demo.engine (JStr "s3://out/") DemoEngines.finished_job Demo.start
           (snd (collect_outputs Demo.engine (JStr "s3://out/")
                                 DemoEngines.finished_job Demo.start))).
  reflexivity.
Defined.

Lemma lift_ret_inv {A : Type} (r : exn + A) (a : A) (w w' : world) :
    lift r w = (Ret a, w') -> r = inr a /\ w' = w.
Proof.
  unfold lift, ret, raise. destruct r; intros H; inversion H; subst.
  split; reflexivity.
Qed.

Lemma join_output_dir (name : string) :
    simple_name name = true ->
    PyStr.join output_dir name = output_dir ++ "/" ++ name.
Proof.
  unfold simple_name. intros H.
  apply andb_true_iff in H. destruct H as [H _].
  apply andb_true_iff in H. destruct H as [H _].
  apply andb_true_iff in H. destruct H as [_ Hfree].
  unfold PyStr.join, PyStr.startswith.
  destruct name as [|c name]; [reflexivity|].
  simpl in Hfree. apply andb_true_iff in Hfree. destruct Hfree as [Hc _].
  cbn [String.prefix].
  destruct (Ascii.ascii_dec "/" c) as [<-|_]; [discriminate | reflexivity].
Qed.

Lemma collect_item_absent (E : env) (target : json) (output_type : string)
      (item : json) (outputs outputs' : list json) (w w' : world) :
    (forall name, item_filename item = Some name ->
                  Fs.lookup (PyStr.join output_dir name) (fs w) = None) ->
    collect_item E target output_type item outputs w = (Ret outputs', w') ->
    outputs' = outputs /\ fs w' = fs w /\ s3 w' = s3 w.
Proof.
  intros Habsent. unfold collect_item, bind at 1.
  destruct (lift (Py.get item "filename") w) as [[got|e|] w1] eqn:Hget;
    try discriminate.
  apply lift_ret_inv in Hget. destruct Hget as [Hget ->].
  destruct (Py.truthy match got with Some v => v | None => JNull end);
    [|unfold ret; intros H; inversion H; subst; repeat split].
  destruct (match got with Some v => v | None => JNull end) as [|b|n|name|l|l]
    eqn:Hname; try (unfold raise; discriminate).
  assert (Hfile : item_filename item = Some name).
  { unfold item_filename. rewrite Hget.
    destruct got as [v|]; [subst v; reflexivity | discriminate]. }
  unfold bind at 1. run. simpl. rewrite (Habsent name Hfile). simpl.
  intros H. inversion H; subst. repeat split.
Qed.

(** X20.  Declared outputs whose file is not in the output directory are
    skipped without error.  An output item that declares a simple name
    under which the output directory holds nothing is passed over after
    the one look at the disk, with the list of outputs as it was.  When
    every name a result declares is such a name, a collection that comes
    to its end returns the empty list and has published nothing (the file
    system and the store are as before). *)
Theorem absent_outputs_are_skipped (E : env) (target : json) (w : world) :
    (forall output_type fields name outputs,
        Py.lookup "filename" fields = Some (JStr name) ->
        simple_name name = true ->
        Fs.lookup (output_dir ++ "/" ++ name) (fs w) = None ->
        collect_item E target output_type (JObj fields) outputs w
        = (Ret outputs,
           mkWorld (clock w) (fs w) (s3 w) (log w)
                   (calls w ++ [FsExists (output_dir ++ "/" ++ name)])%list
                   (polls w)))
    /\ (forall result,
           forallb simple_name (declared_names result) = true ->
           (forall name,
               In name (declared_names result) ->
               Fs.lookup (output_dir ++ "/" ++ name) (fs w) = None) ->
           forall outputs w',
             collect_outputs E target result w = (Ret outputs, w') ->
             outputs = [] /\ fs w' = fs w /\ s3 w' = s3 w).
Proof.
  split.
  - intros output_type fields name outputs Hfield Hsimple Habsent.
    assert (Hne : (name =? "")%string = false).
    { unfold simple_name in Hsimple.
      destruct (name =? "")%string; [discriminate | reflexivity]. }
    unfold collect_item, bind, lift. cbn [Py.get]. rewrite Hfield.
    unfold ret at 1. cbn [Py.truthy]. rewrite Hne. cbn [negb].
    rewrite (join_output_dir name Hsimple). run. simpl.
    rewrite Habsent. reflexivity.
  - intros result Hsimple Habsent.
    assert (Hjoin : forall name, In name (declared_names result) ->
                                 PyStr.join output_dir name
                                 = output_dir ++ "/" ++ name).
    { intros name Hin. apply join_output_dir.
      rewrite forallb_forall in Hsimple. apply Hsimple. exact Hin. }
    intros outputs w'. unfold collect_outputs, bind at 1.
    destruct (lift (Py.get result "outputs") w) as [[got|e|] w1] eqn:Hget;
      try discriminate.
    apply lift_ret_inv in Hget. destruct Hget as [Hget ->].
    unfold bind at 1.
    destruct (lift (Py.items match got with Some v => v | None => JObj [] end) w)
      as [[nodes|e|] w2] eqn:Hitems; try discriminate.
    apply lift_ret_inv in Hitems. destruct Hitems as [Hitems ->].
    apply (for_each_invariant
             (fun acc w0 => acc = [] /\ fs w0 = fs w /\ s3 w0 = s3 w));
      [|repeat split].
    intros node acc w0 acc' w0' Hnode Hacc.
    apply (for_each_invariant
             (fun acc w0 => acc = [] /\ fs w0 = fs w /\ s3 w0 = s3 w));
      [|exact Hacc].
    intros output_type acc1 w3 acc1' w3' Hty Hacc1. unfold bind at 1.
    destruct (lift (Py.get (snd node) output_type) w3) as [[got'|e|] w4] eqn:Hg;
      try discriminate.
    apply lift_ret_inv in Hg. destruct Hg as [Hg ->].
    unfold bind at 1.
    destruct (lift (Py.iter match got' with Some v => v | None => JArr [] end) w3)
      as [[items|e|] w5] eqn:Hi; try discriminate.
    apply lift_ret_inv in Hi. destruct Hi as [Hi ->].
    apply (for_each_invariant
             (fun acc w0 => acc = [] /\ fs w0 = fs w /\ s3 w0 = s3 w));
      [|exact Hacc1].
    intros item acc2 w6 acc2' w6' Hitem (Hnil & Hfs & Hs3) Hrun.
    destruct (collect_item_absent E target output_type item acc2 acc2' w6 w6')
      as (Ha & Hf & Hs); [|exact Hrun|].
    + intros name Hfile.
      assert (Hin : In name (declared_names result)).
      { unfold declared_names. apply in_flat_map. exists item.
        split; [|rewrite Hfile; left; reflexivity].
        unfold declared_items. rewrite Hget, Hitems.
        apply in_flat_map. exists node. split; [exact Hnode|].
        unfold node_items. apply in_flat_map. exists output_type.
        split; [exact Hty|]. rewrite Hg, Hi. exact Hitem. }
      rewrite Hfs, (Hjoin name Hin). apply Habsent. exact Hin.
    + subst. repeat split; congruence.
Qed.

Lemma absent_outputs_are_skipped_witness :
    collect_outputs Demo.engine (JStr "s3://out/") DemoEngines.finished_job
                    (mkWorld 50 [("/app/ComfyUI/output", Dir);
                                 ("/app/ComfyUI/output/older.png", File None);
                                 ("/app/ComfyUI/workflows", Dir)] [] [] [] 0)
    = (Ret [],
       mkWorld 50 [("/app/ComfyUI/output", Dir);
                   ("/app/ComfyUI/output/older.png", File None);
                   ("/app/ComfyUI/workflows", Dir)] [] []
               [FsExists "/app/ComfyUI/output/result.png"] 0).
Proof.
  destruct (absent_outputs_are_skipped
              Demo.engine (JStr "s3://out/")
              (mkWorld 50 [("/app/ComfyUI/output", Dir);
                           ("/app/ComfyUI/output/older.png", File None);
                           ("/app/ComfyUI/workflows", Dir)] [] [] [] 0))
    as [_ H].
  assert (Habsent :
            forall name,
              In name (declared_names DemoEngines.finished_job) ->
              Fs.lookup (output_dir ++ "/" ++ name)
                        [("/app/ComfyUI/output", Dir);
                         ("/app/ComfyUI/output/older.png", File None);
                         ("/app/ComfyUI/workflows", Dir)] = None).
  { intros name [<-|[]]. reflexivity. }
  destruct (H DemoEngines.finished_job eq_refl Habsent []
              (mkWorld 50 [("/app/ComfyUI/output", Dir);
                           ("/app/ComfyUI/output/older.png", File None);
                           ("/app/ComfyUI/workflows", Dir)] [] []
                       [FsExists "/app/ComfyUI/output/result.png"] 0)
              eq_refl) as [_ _].
  reflexivity.
Defined.

(* ------------------------------------------------------------------ *)
(** ** The health report *)

(** X21.  The health check never fails and changes nothing.  It answers
    200 with status [healthy] exactly when the engine answers its status
    query with a status code outside 400-599, whatever the body; when the
    engine does not answer or answers with an error status, it answers 503
    with status [unhealthy] and the text of the error. *)
Theorem health_report (stats : http_reply) (w : world) :
    snd (health_check stats w) = w
    /\ match stats with
       | NoReply e =>
           fst (health_check stats w)
           = Ret (JObj [("status", JStr "unhealthy"); ("error", JStr (str_exn e));
                        ("timestamp", JNum (clock w))], 503)
       | Reply status reason body =>
           if (400 <=? status) && (status <? 600) then
             exists msg,
               fst (health_check stats w)
               = Ret (JObj [("status", JStr "unhealthy"); ("error", JStr msg);
                            ("timestamp", JNum (clock w))], 503)
           else
             fst (health_check stats w)
             = Ret (JObj [("status", JStr "healthy"); ("comfyui", JStr "connected");
                          ("timestamp", JNum (clock w))], 200)
       end.
Proof.
  unfold health_check, raise_for_status.
  destruct stats as [e|status reason body]; [run; simpl; split; reflexivity|].
  destruct ((400 <=? status) && (status <? 500)) eqn:H4.
  - assert (H : (400 <=? status) && (status <? 600) = true).
    { apply andb_true_iff in H4. destruct H4 as [Ha Hb].
      apply andb_true_iff. split; [exact Ha|].
      apply Z.ltb_lt in Hb. apply Z.ltb_lt. lia. }
    rewrite H. run. simpl. split; [reflexivity|]. eexists. reflexivity.
  - destruct ((500 <=? status) && (status <? 600)) eqn:H5.
    + assert (H : (400 <=? status) && (status <? 600) = true).
      { apply andb_true_iff in H5. destruct H5 as [Ha Hb].
        apply andb_true_iff. split; [|exact Hb].
        apply Z.leb_le in Ha. apply Z.leb_le. lia. }
      rewrite H. run. simpl. split; [reflexivity|]. eexists. reflexivity.
    + assert (H : (400 <=? status) && (status <? 600) = false).
      { apply andb_false_iff. apply andb_false_iff in H4.
        apply andb_false_iff in H5.
        destruct H4 as [Ha|Ha]; [left; exact Ha|].
        destruct H5 as [Hb|Hb]; [|right; exact Hb].
        apply Z.ltb_ge in Ha. apply Z.leb_gt in Hb. lia. }
      rewrite H. run. simpl. split; reflexivity.
Qed.

(* ------------------------------------------------------------------ *)
(** ** A job the engine never finishes *)

Lemma select_workflow_canonical (w : world) :
    Fs.lookup canonical_workflow (fs w) <> None ->
    select_workflow w
    = (Ret (Some canonical_workflow),
       mkWorld (clock w) (fs w) (s3 w) (log w)
               (calls w ++ [FsExists canonical_workflow])%list (polls w)).
Proof.
  intros H. unfold select_workflow, canonical_workflow in *. run. simpl.
  destruct (Fs.lookup "/app/ComfyUI/workflows/vibe_infinite.json" (fs w));
    [reflexivity | congruence].
Qed.

Lemma load_json_ok (p : string) (j : json) (w : world) :
    Fs.lookup p (fs w) = Some (File (Some j)) ->
    Fs.load_json p w
    = (Ret j, mkWorld (clock w) (fs w) (s3 w) (log w)
                      (calls w ++ [FsOpen p])%list (polls w)).
Proof. intros H. run. simpl. rewrite H. reflexivity. Qed.

Lemma submit_accepted (E : env) (workflow : json) (w : world) (status : Z)
      (reason : string) (body : list (string * json)) (prompt_id : string) :
    prompt_reply E workflow = Reply status reason (Some (JObj body)) ->
    (400 <=? status) && (status <? 600) = false ->
    Py.lookup "prompt_id" body = Some (JStr prompt_id) ->
    prompt_id <> "" ->
    submit_workflow E workflow w
    = (Ret prompt_id,
       mkWorld (clock w) (fs w) (s3 w)
               (log w ++ [Log INFO "Workflow submitted with prompt_id: {}"
                              [JStr prompt_id]])%list
               (calls w ++ [HttpPostPrompt workflow])%list (polls w)).
Proof.
  intros Hreply Hok Hid Hne.
  unfold submit_workflow, checked_json, raise_for_status. rewrite Hreply.
  assert (H4 : (400 <=? status) && (status <? 500) = false).
  { apply andb_false_iff. apply andb_false_iff in Hok.
    destruct Hok as [Ha|Hb]; [left; exact Ha|right].
    apply Z.ltb_ge in Hb. apply Z.ltb_ge. lia. }
  assert (H5 : (500 <=? status) && (status <? 600) = false).
  { apply andb_false_iff. apply andb_false_iff in Hok.
    destruct Hok as [Ha|Hb]; [left|right; exact Hb].
    apply Z.leb_gt in Ha. apply Z.leb_gt. lia. }
  rewrite H4, H5. run. simpl. rewrite Hid. simpl.
  apply String.eqb_neq in Hne. rewrite Hne. reflexivity.
Qed.

Ltac flat := cbn [clock fs s3 log calls polls].

Lemma process_until_wait
      (E : env) (fuel : nat) (job_id : json) (fields : list (string * json))
      (w : world) (audio transcript image prompt_id reason : string)
      (template workflow : json) (status : Z) (body : list (string * json)) :
    missing_field fields = None ->
    Py.lookup "audio_s3" fields = Some (JStr audio) ->
    Py.lookup "transcript_s3" fields = Some (JStr transcript) ->
    Py.lookup "image_s3" fields = Some (JStr image) ->
    PyStr.startswith "s3://" audio && s3_client E = false ->
    PyStr.startswith "s3://" transcript && s3_client E = false ->
    PyStr.startswith "s3://" image && s3_client E = false ->
    Fs.lookup audio (fs w) <> None ->
    Fs.lookup transcript (fs w) <> None ->
    Fs.lookup image (fs w) <> None ->
    Fs.lookup canonical_workflow (fs w) = Some (File (Some template)) ->
    patch_workflow audio transcript image template = inr workflow ->
    prompt_reply E workflow = Reply status reason (Some (JObj body)) ->
    (400 <=? status) && (status <? 600) = false ->
    Py.lookup "prompt_id" body = Some (JStr prompt_id) ->
    prompt_id <> "" ->
    process E fuel job_id (JObj fields) w
    = bind (wait_for_completion E fuel prompt_id 2 300)
           (after_wait E job_id (JObj fields) prompt_id)
           (after_submission w job_id audio transcript image workflow prompt_id).
Proof.
  intros Hm Ha Ht Hi Hla Hlt Hli Hea Het Hei Hc Hpatch Hreply Hok Hid Hne.
  unfold process, after_wait, after_submission.
  unfold bind at 1, logger at 1.
  unfold bind at 1. rewrite first_missing_is_missing_field, Hm.
  unfold bind at 1, lift at 1. cbn [Py.getitem]. rewrite Ha. unfold ret at 1.
  unfold bind at 1.
  rewrite (resolve_local_path E _ audio "/app/inputs" Hla). flat.
  destruct (Fs.lookup audio (fs w)) as [na|]; [|congruence].
  unfold bind at 1, lift at 1. rewrite Ht. unfold ret at 1.
  unfold bind at 1.
  rewrite (resolve_local_path E _ transcript "/app/inputs" Hlt). flat.
  destruct (Fs.lookup transcript (fs w)) as [nt|]; [|congruence].
  unfold bind at 1, lift at 1. rewrite Hi. unfold ret at 1.
  unfold bind at 1.
  rewrite (resolve_local_path E _ image "/app/inputs" Hli). flat.
  destruct (Fs.lookup image (fs w)) as [ni|]; [|congruence].
  unfold bind at 1.
  rewrite select_workflow_canonical by (flat; congruence). flat.
  unfold bind at 1. rewrite (load_json_ok _ template) by (flat; exact Hc). flat.
  unfold bind at 1, lift at 1. rewrite Hpatch. unfold ret at 1.
  unfold bind at 1.
  rewrite (submit_accepted E workflow _ status reason body prompt_id
                           Hreply Hok Hid Hne). flat.
  reflexivity.
Qed.

Lemma predict_is_process (E : env) (fuel : nat) (fields : list (string * json))
      (w : world) :
    Py.truthy (JObj fields) = true ->
    predict E fuel (Some (JObj fields)) w
    = try_except (process E fuel (job_id_of E fields) (JObj fields))
                 (failed (job_id_of E fields)) w.
Proof.
  intros Ht. unfold predict, job_id_of.
  unfold try_except at 1, bind at 1, get_json, ret at 1.
  rewrite Ht. cbn [negb]. unfold bind at 1, lift at 1. cbn [Py.get].
  unfold ret at 1.
  destruct (try_except _ _ w) as [[r|e|] w'] eqn:Hrun; try reflexivity.
  exfalso. exact (try_except_failed_never_raises _ _ _ e w' Hrun).
Qed.

(** X22.  End to end: a request whose three inputs are existing local
    files, with the canonical template in place and an engine that accepts
    the workflow but never reports the job finished, is answered with a
    FAILED job and status 500 whose error is the timeout message for that
    job and 300 seconds, and the answer comes no earlier than 300 time
    units after the request. *)
Theorem handler_times_out
        (E : env) (fuel : nat) (fields : list (string * json)) (w : world)
        (audio transcript image prompt_id reason : string)
        (template workflow : json) (status : Z) (body : list (string * json)) :
    missing_field fields = None ->
    Py.lookup "audio_s3" fields = Some (JStr audio) ->
    Py.lookup "transcript_s3" fields = Some (JStr transcript) ->
    Py.lookup "image_s3" fields = Some (JStr image) ->
    PyStr.startswith "s3://" audio && s3_client E = false ->
    PyStr.startswith "s3://" transcript && s3_client E = false ->
    PyStr.startswith "s3://" image && s3_client E = false ->
    Fs.lookup audio (fs w) <> None ->
    Fs.lookup transcript (fs w) <> None ->
    Fs.lookup image (fs w) <> None ->
    Fs.lookup canonical_workflow (fs w) = Some (File (Some template)) ->
    patch_workflow audio transcript image template = inr workflow ->
    prompt_reply E workflow = Reply status reason (Some (JObj body)) ->
    (400 <=? status) && (status <? 600) = false ->
    Py.lookup "prompt_id" body = Some (JStr prompt_id) ->
    prompt_id <> "" ->
    (forall n, finished_entry prompt_id (snd (history_reply E prompt_id n)) = None) ->
    (301 <= fuel)%nat ->
    exists w',
      predict E fuel (Some (JObj fields)) w
      = (Ret (JObj [("job_id", job_id_of E fields); ("status", JStr "FAILED");
                    ("error", JStr (timeout_message prompt_id 300));
                    ("timestamp", JNum (clock w'))], 500), w')
      /\ 300 <= clock w' - clock w.
Proof.
  intros Hm Ha Ht Hi Hla Hlt Hli Hea Het Hei Hc Hpatch Hreply Hok Hid Hne Hnever
         Hfuel.
  assert (Htruthy : Py.truthy (JObj fields) = true).
  { destruct fields; [discriminate | reflexivity]. }
  rewrite (predict_is_process E fuel fields w Htruthy). unfold try_except.
  rewrite (process_until_wait E fuel (job_id_of E fields) fields w audio transcript
                              image prompt_id reason template workflow status body
                              Hm Ha Ht Hi Hla Hlt Hli Hea Het Hei Hc Hpatch Hreply
                              Hok Hid Hne).
  set (w0 := after_submission w (job_id_of E fields) audio transcript image
                              workflow prompt_id).
  unfold bind at 1, wait_for_completion, bind at 1, get_clock at 1.
  destruct (poll_loop_ends E prompt_id 2 300 (clock w0) 300 ltac:(lia) w0 fuel)
    as (w1 & [(Hloop & Hlate & _)|(entry & _ & _ & Hdone & _)]);
    [lia | lia | rewrite Hloop | rewrite Hnever in Hdone; discriminate].
  change (clock w0) with (clock w) in Hlate.
  unfold failed. run. cbn [clock fs s3 log calls polls str_exn].
  match goal with
  | |- exists w', (_, ?wf) = _ /\ _ => exists wf
  end.
  split; [reflexivity|]. cbn [clock]. lia.
Qed.

Lemma handler_times_out_witness :
    exists w',
      predict DemoEngines.stalled 301 (Some (JObj DemoStudio.request))
              DemoStudio.start
      = (Ret (JObj [("job_id", JStr "j9"); ("status", JStr "FAILED");
                    ("error",
                     JStr "Workflow p1 did not complete within 300 seconds");
                    ("timestamp", JNum (clock w'))], 500), w')
      /\ 300 <= clock w' - clock DemoStudio.start.
Proof.
  eapply (handler_times_out
            DemoEngines.stalled 301 DemoStudio.request DemoStudio.start
            "/data/a.wav" "/data/t.txt" "/data/i.png" "p1").
  - reflexivity.
  - reflexivity.
  - reflexivity.
  - reflexivity.
  - reflexivity.
  - reflexivity.
  - reflexivity.
  - discriminate.
  - discriminate.
  - discriminate.
  - reflexivity.
  - vm_compute. reflexivity.
  - reflexivity.
  - reflexivity.
  - reflexivity.
  - discriminate.
  - intros n. reflexivity.
  - lia.
Defined.

(* ------------------------------------------------------------------ *)
(** ** What polling and resolving leave alone *)

Lemma poll_once_frame (E : env) (prompt_id : string) (poll_interval : Z) (w : world) :
    fs (snd (poll_once E prompt_id poll_interval w)) = fs w
    /\ s3 (snd (poll_once E prompt_id poll_interval w)) = s3 w.
Proof.
  unfold poll_once, get_history, checked_json, raise_for_status. run.
  destruct (poll_interval <? 0); simpl;
    repeat (break_match; simpl); split; reflexivity.
Qed.

Lemma poll_loop_frame (E : env) (prompt_id : string)
      (poll_interval max_wait start_time : Z) (fuel : nat) :
    forall w : world,
      fs (snd (poll_loop E fuel prompt_id poll_interval max_wait start_time w)) = fs w
      /\ s3 (snd (poll_loop E fuel prompt_id poll_interval max_wait start_time w))
         = s3 w.
Proof.
  induction fuel as [|fuel IH]; intros w; [split; reflexivity|].
  rewrite poll_loop_step.
  destruct (clock w - start_time <? max_wait); [|split; reflexivity].
  pose proof (poll_once_frame E prompt_id poll_interval w) as [Hfs Hs3].
  destruct (poll_once E prompt_id poll_interval w) as [[[entry|]|e|] w1];
    simpl in *; try (split; assumption).
  destruct (IH w1) as [Hfs' Hs3']. split; congruence.
Qed.

(** X23.  Waiting for a job, however it ends, changes neither the file
    system nor the store: the wait only reads the engine, sleeps and
    logs. *)
Theorem wait_leaves_files_and_store
        (E : env) (fuel : nat) (prompt_id : string) (poll_interval max_wait : Z)
        (w : world) :
    fs (snd (wait_for_completion E fuel prompt_id poll_interval max_wait w)) = fs w
    /\ s3 (snd (wait_for_completion E fuel prompt_id poll_interval max_wait w))
       = s3 w.
Proof.
  unfold wait_for_completion, bind, get_clock. apply poll_loop_frame.
Qed.


(* ------------------------------------------------------------------ *)
(** ** Request bodies that are not objects *)

(** X25.  A body that parses to a falsy value (null, false, 0, the empty
    string, list or object) is answered 400 "No JSON data provided" with
    nothing touched.  A body that is not JSON, or that parses to a truthy
    value other than an object, is answered as a FAILED job with status
    500 and a null [job_id]; again no call is made. *)
Theorem body_that_is_not_an_object (E : env) (fuel : nat) (w : world) :
    (forall data,
        Py.truthy data = false ->
        predict E fuel (Some data) w
        = (Ret (JObj [("error", JStr "No JSON data provided")], 400), w))
    /\ (forall data,
           Py.truthy data = true ->
           (forall fields, data <> JObj fields) ->
           exists msg w',
             predict E fuel (Some data) w
             = (Ret (JObj [("job_id", JNull); ("status", JStr "FAILED");
                           ("error", JStr msg); ("timestamp", JNum (clock w))],
                     500), w')
             /\ calls w' = calls w /\ fs w' = fs w /\ s3 w' = s3 w)
    /\ (exists msg w',
           predict E fuel None w
           = (Ret (JObj [("job_id", JNull); ("status", JStr "FAILED");
                         ("error", JStr msg); ("timestamp", JNum (clock w))],
                   500), w')
           /\ calls w' = calls w /\ fs w' = fs w /\ s3 w' = s3 w).
Proof.
  split; [|split].
  - intros data Hf. unfold predict, try_except, bind, get_json, ret.
    rewrite Hf. reflexivity.
  - intros data Ht Hno. unfold predict, try_except, bind, get_json, ret.
    rewrite Ht. cbn [negb].
    destruct data as [|b|n|s|l|fields];
      try (unfold lift, Py.get, raise, failed; run; simpl;
           do 2 eexists; split; [reflexivity|]; repeat split).
    exfalso. apply (Hno fields). reflexivity.
  - unfold predict, try_except, bind, get_json, raise, failed. run. simpl.
    do 2 eexists. split; [reflexivity|]. repeat split.
Qed.

Lemma body_that_is_not_an_object_witness :
    exists msg w',
      predict Demo.engine 0 (Some (JArr [JNum 1])) Demo.start
      = (Ret (JObj [("job_id", JNull); ("status", JStr "FAILED");
                    ("error", JStr msg); ("timestamp", JNum 1000)], 500), w')
      /\ calls w' = calls Demo.start.
Proof.
  destruct (body_that_is_not_an_object Demo.engine 0 Demo.start) as (_ & H & _).
  destruct (H (JArr [JNum 1]) eq_refl) as (msg & w' & Hrun & Hcalls & _).
  - intros fields. discriminate.
  - exists msg, w'. split; assumption.
Defined.

(* ------------------------------------------------------------------ *)
(** ** A job that produces nothing *)

(** X26.  End to end: with the three inputs existing local files, the
    canonical template in place and an engine that accepts the workflow
    and reports the job finished at the first status query with no node
    outputs, the answer is a COMPLETED job with status 200, the engine's
    job identifier and an empty list of outputs; nothing was published and
    the disk and the store are as before. *)
Theorem job_without_outputs_completes
        (E : env) (fuel : nat) (fields : list (string * json)) (w : world)
        (audio transcript image prompt_id reason : string)
        (template workflow : json) (status : Z)
        (body entry : list (string * json)) :
    missing_field fields = None ->
    Py.lookup "audio_s3" fields = Some (JStr audio) ->
    Py.lookup "transcript_s3" fields = Some (JStr transcript) ->
    Py.lookup "image_s3" fields = Some (JStr image) ->
    PyStr.startswith "s3://" audio && s3_client E = false ->
    PyStr.startswith "s3://" transcript && s3_client E = false ->
    PyStr.startswith "s3://" image && s3_client E = false ->
    Fs.lookup audio (fs w) <> None ->
    Fs.lookup transcript (fs w) <> None ->
    Fs.lookup image (fs w) <> None ->
    Fs.lookup canonical_workflow (fs w) = Some (File (Some template)) ->
    patch_workflow audio transcript image template = inr workflow ->
    prompt_reply E workflow = Reply status reason (Some (JObj body)) ->
    (400 <=? status) && (status <? 600) = false ->
    Py.lookup "prompt_id" body = Some (JStr prompt_id) ->
    prompt_id <> "" ->
    finished_entry prompt_id (snd (history_reply E prompt_id (polls w)))
    = Some (JObj entry) ->
    Py.lookup "outputs" entry = Some (JObj []) ->
    (1 <= fuel)%nat ->
    exists w',
      predict E fuel (Some (JObj fields)) w
      = (Ret (JObj [("job_id", job_id_of E fields); ("status", JStr "COMPLETED");
                    ("prompt_id", JStr prompt_id); ("outputs", JArr []);
                    ("timestamp", JNum (clock w'))], 200), w')
      /\ fs w' = fs w /\ s3 w' = s3 w.
Proof.
  intros Hm Ha Ht Hi Hla Hlt Hli Hea Het Hei Hc Hpatch Hreply Hok Hid Hne Hdone
         Hout Hfuel.
  assert (Htruthy : Py.truthy (JObj fields) = true).
  { destruct fields; [discriminate | reflexivity]. }
  assert (Htarget : exists target, Py.lookup "output_s3_bucket" fields = Some target).
  { unfold missing_field in Hm. cbn [find] in Hm. rewrite Ha, Ht, Hi in Hm.
    destruct (Py.lookup "output_s3_bucket" fields) as [target|];
      [exists target; reflexivity | discriminate]. }
  destruct Htarget as [target Htarget].
  rewrite (predict_is_process E fuel fields w Htruthy). unfold try_except.
  rewrite (process_until_wait E fuel (job_id_of E fields) fields w audio transcript
                              image prompt_id reason template workflow status body
                              Hm Ha Ht Hi Hla Hlt Hli Hea Het Hei Hc Hpatch Hreply
                              Hok Hid Hne).
  set (w0 := after_submission w (job_id_of E fields) audio transcript image
                              workflow prompt_id).
  unfold bind at 1, wait_for_completion, bind at 1, get_clock at 1.
  destruct (poll_loop_reaches E prompt_id 2 300 (clock w0) 0 (JObj entry) ltac:(lia)
                              w0 fuel)
    as (w1 & Hloop & _ & Hfs & Hs3);
    [ intros i Hi0; lia
    | change (polls w0) with (polls w); rewrite Nat.add_0_r; exact Hdone
    | cbn [waited]; lia
    | lia
    | rewrite Hloop ].
  change (fs w0) with (fs w) in Hfs. change (s3 w0) with (s3 w) in Hs3.
  unfold after_wait, bind at 1, lift at 1. cbn [Py.getitem]. rewrite Htarget.
  unfold ret at 1.
  unfold bind at 1, collect_outputs, bind at 1, lift at 1. cbn [Py.get].
  rewrite Hout. unfold ret at 1. unfold bind at 1, lift at 1. cbn [Py.items].
  unfold ret at 1. cbn [for_each]. unfold ret at 1.
  unfold bind at 1, get_clock, ret.
  exists w1. split; [reflexivity|]. split; assumption.
Qed.

Lemma job_without_outputs_completes_witness :
    exists w',
      predict DemoQuiet.engine 1 (Some (JObj DemoStudio.request)) DemoStudio.start
      = (Ret (JObj [("job_id", JStr "j9"); ("status", JStr "COMPLETED");
                    ("prompt_id", JStr "p1"); ("outputs", JArr []);
                    ("timestamp", JNum (clock w'))], 200), w')
      /\ fs w' = fs DemoStudio.start /\ s3 w' = s3 DemoStudio.start.
Proof.
  eapply (job_without_outputs_completes
            DemoQuiet.engine 1 DemoStudio.request DemoStudio.start
            "/data/a.wav" "/data/t.txt" "/data/i.png" "p1").
  - reflexivity.
  - reflexivity.
  - reflexivity.
  - reflexivity.
  - reflexivity.
  - reflexivity.
  - reflexivity.
  - discriminate.
  - discriminate.
  - discriminate.
  - reflexivity.
  - vm_compute. reflexivity.
  - reflexivity.
  - reflexivity.
  - reflexivity.
  - discriminate.
  - reflexivity.
  - reflexivity.
  - lia.
Defined.

